(** * SkipSlicer: the merge / classify / project pipeline of [skip-slicer-v4.py]

    A shallow embedding of [validate_columns], [get_phone_data],
    [process_files], [create_roor_record] and [create_readymode_record],
    together with the small part of Python and pandas they rely on.

    Conventions of the embedding.
    - A Python [str] is a [string]; each character stands for the code point
      of the same number (0 to 255).
    - A Python [int] is a [Z].
    - A float64 is represented by the decimal literal Python prints for it
      (see [pyfloat] below).
    - An exception is a value of [exn]; fallible code returns a [result]. *)

From Stdlib Require Import ZArith List Bool Ascii String Lia.
From Stdlib Require Import Decimal DecimalString DecimalPos DecimalZ.
Import ListNotations.

#[local] Open Scope string_scope.
#[local] Open Scope Z_scope.

(** ** Exceptions

    The classes the code can meet. [MergeError] of pandas derives from
    [ValueError] and is counted as one. *)

Inductive exn : Type :=
| ValueError
| OverflowError
| TypeError
| KeyError
| IndexError.

Inductive result (A : Type) : Type :=
| Ok (a : A)
| Raise (e : exn).

Arguments Ok {A} a.
Arguments Raise {A} e.

Definition bind {A B : Type} (r : result A) (k : A -> result B) : result B :=
  match r with
  | Ok a => k a
  | Raise e => Raise e
  end.

Notation "x <- r ;; k" := (bind r (fun x => k))
  (at level 61, r at next level, right associativity).

Definition is_ok {A : Type} (r : result A) : bool :=
  match r with Ok _ => true | Raise _ => false end.

(** ** Python strings *)

Module PyStr.

Definition code (c : ascii) : N := N_of_ascii c.

(** [str.isspace] on one character: the code points below 256 that Python
    counts as whitespace are 9 to 13, 28 to 32, 133 and 160. *)
Definition isspace (c : ascii) : bool :=
  let n := code c in
  (((9 <=? n) && (n <=? 13)) || ((28 <=? n) && (n <=? 32))
   || (n =? 133) || (n =? 160))%N.

(** [str.lower] on one character: [A]-[Z], and the accented capitals 192 to
    222 except the multiplication sign 215, move up by 32. *)
Definition lower_char (c : ascii) : ascii :=
  let n := code c in
  if (((65 <=? n) && (n <=? 90))
      || ((192 <=? n) && (n <=? 222) && negb (n =? 215)))%N
  then ascii_of_N (n + 32) else c.

Fixpoint lower (s : string) : string :=
  match s with
  | EmptyString => EmptyString
  | String c s' => String (lower_char c) (lower s')
  end.

Fixpoint lstrip (s : string) : string :=
  match s with
  | EmptyString => EmptyString
  | String c s' => if isspace c then lstrip s' else s
  end.

(** Removes trailing whitespace: a character is kept when something is kept
    after it or when it is not whitespace. *)
Fixpoint rstrip (s : string) : string :=
  match s with
  | EmptyString => EmptyString
  | String c s' =>
      match rstrip s' with
      | EmptyString => if isspace c then EmptyString else String c EmptyString
      | r => String c r
      end
  end.

Definition strip (s : string) : string := rstrip (lstrip s).

(** [s.startswith(p)] *)
Definition startswith (p s : string) : bool := String.prefix p s.

(** [s[n:]] *)
Fixpoint drop (n : nat) (s : string) : string :=
  match n, s with
  | O, _ => s
  | S _, EmptyString => EmptyString
  | S n', String _ s' => drop n' s'
  end.

(** [str.isdigit] on one character: [0]-[9] and the superscript digits
    178, 179 and 185. *)
Definition isdigit_char (c : ascii) : bool :=
  let n := code c in
  (((48 <=? n) && (n <=? 57)) || (n =? 178) || (n =? 179) || (n =? 185))%N.

Fixpoint all_chars (p : ascii -> bool) (s : string) : bool :=
  match s with
  | EmptyString => true
  | String c s' => p c && all_chars p s'
  end.

(** [s.isdigit()]: at least one character and every character a digit. *)
Definition isdigit (s : string) : bool :=
  match s with
  | EmptyString => false
  | _ => all_chars isdigit_char s
  end.

(** [str(n)] for an [int]. *)
Definition of_int (z : Z) : string := NilZero.string_of_int (Z.to_int z).

Definition is_dec_digit (c : ascii) : bool :=
  let n := code c in ((48 <=? n) && (n <=? 57))%N.

(** The digits of an integer literal with the underscores that Python allows
    between two digits taken out; [None] when an underscore is misplaced or
    a character is not a digit. [prev] tells whether the previous character
    was a digit. *)
Fixpoint digits_of (prev : bool) (s : string) : option string :=
  match s with
  | EmptyString => if prev then Some EmptyString else None
  | String c s' =>
      if is_dec_digit c then option_map (String c) (digits_of true s')
      else if (Ascii.eqb c "_" && prev)%bool then
        match s' with
        | EmptyString => None
        | _ => digits_of false s'
        end
      else None
  end.

(** An optional sign followed by digits, as [int] and [float] read a decimal
    integer literal once the surrounding whitespace is gone. *)
Definition signed_digits (s : string) : option Z :=
  let unsigned (neg : bool) (t : string) :=
    match digits_of false t with
    | Some d =>
        match NilZero.uint_of_string d with
        | Some u => Some (if neg then - Z.of_uint u else Z.of_uint u)
        | None => None
        end
    | None => None
    end in
  match s with
  | String "-" t => unsigned true t
  | String "+" t => unsigned false t
  | _ => unsigned false s
  end.

(** The whitespace that [int] and [float] skip around a literal: the
    conversion first turns the spaces above 127 (133 and 160 below 256) into
    blanks, then skips what C calls a space, 9 to 13 and 32. The separators
    28 to 31, which [str.strip] removes, are kept and make the literal
    invalid. *)
Definition literal_space (c : ascii) : bool :=
  let n := code c in
  (((9 <=? n) && (n <=? 13)) || (n =? 32) || (n =? 133) || (n =? 160))%N.

Fixpoint skip_leading (s : string) : string :=
  match s with
  | EmptyString => EmptyString
  | String c s' => if literal_space c then skip_leading s' else s
  end.

Fixpoint skip_trailing (s : string) : string :=
  match s with
  | EmptyString => EmptyString
  | String c s' =>
      match skip_trailing s' with
      | EmptyString =>
          if literal_space c then EmptyString else String c EmptyString
      | r => String c r
      end
  end.

(** The literal inside the whitespace that surrounds it. *)
Definition trim (s : string) : string := skip_trailing (skip_leading s).

(** The decimal digits of a string, counted. *)
Fixpoint digit_count (s : string) : Z :=
  match s with
  | EmptyString => 0
  | String c s' => (if is_dec_digit c then 1 else 0) + digit_count s'
  end.

(** [sys.get_int_max_str_digits()], as CPython 3.11 and later set it by
    default: a decimal literal with more digits is refused. *)
Definition max_str_digits : Z := 4300.

(** [int(s)] for a [str]: whitespace around the literal is dropped, anything
    that is not a decimal integer literal is a [ValueError], and so is a
    literal of more than [max_str_digits] digits. *)
Definition to_int (s : string) : result Z :=
  match signed_digits (trim s) with
  | Some z =>
      if max_str_digits <? digit_count (trim s) then Raise ValueError
      else Ok z
  | None => Raise ValueError
  end.

End PyStr.

(** ** Floating-point numbers

    A finite float64 is written [Fin neg m e] for the decimal literal
    [(-1)^neg * m * 10^e] that Python prints for it: [repr] gives the shortest
    literal that reads back as the same double, so a double and its literal
    determine each other. Printing is then a matter of layout, and the
    integer part of the double is found by rounding the literal to 53
    significant bits. NaN is not a [pyfloat]; it is the missing value [VNaN]
    below. *)

Inductive pyfloat : Type :=
| Fin (neg : bool) (m : N) (e : Z)
| Inf (neg : bool).

Module PyFloat.

(** The integer nearest to [a >= 0] that has at most 53 significant bits,
    ties going to the even significand: the double nearest to [a], which is
    an integer whenever [a] needs more than 53 bits. *)
Definition round53_abs (a : Z) : Z :=
  let k := Z.log2 a + 1 in
  if k <=? 53 then a
  else
    let sh := k - 53 in
    let q := Z.shiftr a sh in
    let r := a - Z.shiftl q sh in
    let half := Z.shiftl 1 (sh - 1) in
    let q' := if (half <? r) || ((r =? half) && Z.odd q) then q + 1 else q in
    Z.shiftl q' sh.

(** The double nearest to the integer [z], as an integer; [None] when the
    rounded magnitude reaches [2^1024], where float64 overflows to
    infinity. *)
Definition round53 (z : Z) : option Z :=
  let v := round53_abs (Z.abs z) in
  if 2 ^ 1024 <=? v then None else Some (Z.sgn z * v).

(** [int(float(s))] for a string [s] holding a decimal integer literal, the
    only strings the phone extractor produces: the literal is rounded to the
    nearest double, infinity cannot be converted back ([OverflowError]).
    A string that is no number at all is a [ValueError]; literals with a
    fraction or an exponent are not covered. *)
Definition int_float (s : string) : result Z :=
  match PyStr.signed_digits (PyStr.trim s) with
  | Some z =>
      match round53 z with
      | Some v => Ok v
      | None => Raise OverflowError
      end
  | None => Raise ValueError
  end.

(** [int(f)]: the integer part of the double, towards zero. *)
Definition to_int (f : pyfloat) : result Z :=
  match f with
  | Fin neg m e =>
      let t := if 0 <=? e then Z.of_N m * 10 ^ e
               else Z.quot (Z.of_N m) (10 ^ (- e)) in
      let v := round53_abs t in
      Ok (if neg then - v else v)
  | Inf _ => Raise OverflowError
  end.

Fixpoint zeros (n : nat) : string :=
  match n with
  | O => EmptyString
  | S n' => String "0" (zeros n')
  end.

(** Drops the zeros at the end of a digit string and counts them. *)
Fixpoint rstrip0 (s : string) : string * nat :=
  match s with
  | EmptyString => (EmptyString, O)
  | String c s' =>
      match rstrip0 s' with
      | (EmptyString, n) =>
          if Ascii.eqb c "0" then (EmptyString, S n) else (String c EmptyString, n)
      | (r, n) => (String c r, n)
      end
  end.

Fixpoint take (n : nat) (s : string) : string :=
  match n, s with
  | O, _ => EmptyString
  | S _, EmptyString => EmptyString
  | S n', String c s' => String c (take n' s')
  end.

(** The exponent of the scientific layout: a sign and at least two digits. *)
Definition exp_str (x : Z) : string :=
  let a := PyStr.of_int (Z.abs x) in
  (if x <? 0 then "-" else "+") ++ (if Z.abs x <? 10 then "0" ++ a else a).

(** [repr(f)], which is also [str(f)] and what an f-string inserts. With
    [ds] the significant digits and [decpt] the position of the decimal
    point after the first [decpt] of them, the layout is scientific when
    [decpt] is above 16 or below -3, and positional otherwise. *)
Definition repr (f : pyfloat) : string :=
  match f with
  | Inf neg => if neg then "-inf" else "inf"
  | Fin neg m e =>
      let sign := if neg then "-" else "" in
      if (m =? 0)%N then sign ++ "0.0"
      else
        let '(ds, tz) := rstrip0 (NilZero.string_of_uint (N.to_uint m)) in
        let n := Z.of_nat (String.length ds) in
        let decpt := n + (e + Z.of_nat tz) in
        let body :=
          if (16 <? decpt) || (decpt <? -3) then
            take 1 ds
            ++ (if 1 <? n then "." ++ PyStr.drop 1 ds else "")
            ++ "e" ++ exp_str (decpt - 1)
          else if decpt <=? 0 then
            "0." ++ zeros (Z.to_nat (- decpt)) ++ ds
          else if n <=? decpt then
            ds ++ zeros (Z.to_nat (decpt - n)) ++ ".0"
          else
            take (Z.to_nat decpt) ds ++ "." ++ PyStr.drop (Z.to_nat decpt) ds in
        sign ++ body
  end.

End PyFloat.

(** ** Values held in a table cell or returned by a lookup *)

Inductive value : Type :=
| VNone
| VNaN
| VStr (s : string)
| VInt (z : Z)
| VFloat (f : pyfloat)
| VBool (b : bool).

(** [pd.notna(v)] *)
Definition notna (v : value) : bool :=
  match v with
  | VNone | VNaN => false
  | _ => true
  end.

(** [str(v)] *)
Definition py_str (v : value) : string :=
  match v with
  | VNone => "None"
  | VNaN => "nan"
  | VStr s => s
  | VInt z => PyStr.of_int z
  | VFloat f => PyFloat.repr f
  | VBool b => if b then "True" else "False"
  end.

(** [int(v)] *)
Definition py_int (v : value) : result Z :=
  match v with
  | VNone => Raise TypeError
  | VNaN => Raise ValueError
  | VStr s => PyStr.to_int s
  | VInt z => Ok z
  | VFloat f => PyFloat.to_int f
  | VBool b => Ok (if b then 1 else 0)
  end.

(** [v != ''] : only the empty string equals [''] *)
Definition ne_empty (v : value) : bool :=
  match v with
  | VStr s => negb (String.eqb s "")
  | _ => true
  end.

(** ** Rows and tables *)

(** A row as [iterrows] yields it: a pandas Series, the column labels with
    their values, in column order. *)
Definition series : Type := list (string * value).

(** [row.get(col, default)] *)
Fixpoint row_get (row : series) (col : string) (default : value) : value :=
  match row with
  | [] => default
  | (k, v) :: row' => if String.eqb k col then v else row_get row' col default
  end.

(** A DataFrame: the column labels and, for every row, one value per
    column. *)
Record dataframe : Type := {
  columns : list string;
  rows : list (list value)
}.

Definition iterrows (df : dataframe) : list series :=
  map (combine (columns df)) (rows df).

Definition len (df : dataframe) : nat := List.length (rows df).

(** [col in df.columns] *)
Definition has_column (cols : list string) (col : string) : bool :=
  existsb (String.eqb col) cols.

(** A dict that remembers insertion order, as every Python dict does:
    [record[k] = v] replaces the value of a key that is present, in place,
    and appends a new key at the end. *)
Definition record : Type := list (string * value).

Fixpoint dict_set (d : record) (k : string) (v : value) : record :=
  match d with
  | [] => [(k, v)]
  | (k', v') :: d' =>
      if String.eqb k' k then (k', v) :: d' else (k', v') :: dict_set d' k v
  end.

Definition keys (d : record) : list string := map fst d.

(** [range(lo, lo + n)] *)
Definition range (lo : Z) (n : nat) : list Z :=
  map (fun k => lo + Z.of_nat k) (seq 0 n).

(** A [for] loop whose body may raise. *)
Fixpoint for_each {A S : Type} (xs : list A) (body : S -> A -> result S)
  (s : S) : result S :=
  match xs with
  | [] => Ok s
  | x :: xs' => s' <- body s x ;; for_each xs' body s'
  end.

(** ** [validate_columns] *)

Definition directskip_required : list string :=
  ["Input Custom Field 1"; "Matched First Name"; "Matched Last Name"].

Definition landportal_required : list string :=
  ["propertyID"; "Latitude"; "Longitude"; "Hyperlink"; "Parcel Full Address";
   "Parcel City"; "Parcel State"; "Parcel Zip"; "APN"; "Parcel County";
   "Calc Acreage"].

Definition directskip_missing (col : string) : string :=
  "DirectSkip file missing column: '" ++ col ++ "'".

Definition landportal_missing (col : string) : string :=
  "Land Portal file missing column: '" ++ col ++ "'".

Definition no_phone_columns : string :=
  "DirectSkip file missing phone number columns (Phone1, Phone2, etc.)".

(** [col.startswith('Phone') and col[5:].isdigit()] *)
Definition is_phone_col (col : string) : bool :=
  PyStr.startswith "Phone" col && PyStr.isdigit (PyStr.drop 5 col).

Definition validate_columns (df_directskip df_landportal : dataframe)
  : list string :=
  let errors : list string := [] in
  let errors :=
    fold_left (fun errors col =>
                 if negb (has_column (columns df_directskip) col)
                 then (errors ++ [directskip_missing col])%list else errors)
              directskip_required errors in
  let errors :=
    fold_left (fun errors col =>
                 if negb (has_column (columns df_landportal) col)
                 then (errors ++ [landportal_missing col])%list else errors)
              landportal_required errors in
  let phone_cols := filter is_phone_col (columns df_directskip) in
  let errors :=
    match phone_cols with
    | [] => (errors ++ [no_phone_columns])%list
    | _ => errors
    end in
  errors.

(** ** [get_phone_data] *)

Record phones : Type := {
  mobile : list string;
  residential : list string
}.

(** [f"Phone{i}"] and [f"Phone{i} Type"] *)
Definition phone_col (i : Z) : string := "Phone" ++ PyStr.of_int i.
Definition phone_type_col (i : Z) : string :=
  "Phone" ++ PyStr.of_int i ++ " Type".

(** The type as the code compares it: [str(phone_type).strip()] when the
    value is not missing and [''] otherwise, then [.lower()]. *)
Definition type_text (phone_type : value) : string :=
  if notna phone_type then PyStr.strip (py_str phone_type) else "".

(** The body of the loop over [i] in [get_phone_data]. *)
Definition scan_phone (row : series) (ph : phones) (i : Z) : result phones :=
  let phone_num := row_get row (phone_col i) VNone in
  let phone_type := row_get row (phone_type_col i) (VStr "") in
  let phone_type := type_text phone_type in
  if notna phone_num && ne_empty phone_num then
    if String.eqb (PyStr.lower phone_type) "mobile" then
      n <- py_int phone_num ;;
      Ok {| mobile := (mobile ph ++ [PyStr.of_int n])%list;
            residential := residential ph |}
    else if String.eqb (PyStr.lower phone_type) "residential" then
      n <- py_int phone_num ;;
      Ok {| mobile := mobile ph;
            residential := (residential ph ++ [PyStr.of_int n])%list |}
    else Ok ph
  else Ok ph.

(** The body of the loop over the rows: the phones of one row. *)
Definition row_phones (row : series) : result phones :=
  for_each (range 1 7) (scan_phone row) {| mobile := []; residential := [] |}.

Definition get_phone_data (df : dataframe) : result (list phones) :=
  for_each (iterrows df)
           (fun phone_data row =>
              ph <- row_phones row ;; Ok (phone_data ++ [ph])%list)
           [].
(** ** [pd.merge(left, right, left_on=, right_on=, how='inner')]

    pandas first looks the two key columns up ([KeyError] when one is
    missing), then checks that their dtypes can be compared ([ValueError]
    when one holds text and the other numbers), collects the pairs of row
    positions whose keys match, the left rows in their order and for each of
    them the matching right rows in theirs, and builds one output row per
    pair from the left row followed by the right row. A label that both
    tables carry is renamed with the suffixes [_x] and [_y]; when that makes
    a label that was single appear twice, pandas 2 raises [MergeError],
    which is a [ValueError]. Missing keys match each other.

    A table is a list of rows here, so the dtype of a column is read off its
    cells, as [read_csv] chooses it: int64 when every cell is an int,
    float64 when every cell is a float or missing, bool when every cell is a
    bool, object otherwise and for a column without cells. *)

Module Merge.

(** When the float holds an integer, that integer. *)
Definition float_integer (f : pyfloat) : option Z :=
  match f with
  | Fin neg m e =>
      if (0 <=? e) || (Z.of_N m mod 10 ^ (- e) =? 0) then
        match PyFloat.to_int f with
        | Ok z => Some z
        | Raise _ => None
        end
      else None
  | Inf _ => None
  end.

Definition float_eqb (f g : pyfloat) : bool :=
  match f, g with
  | Fin n1 m1 e1, Fin n2 m2 e2 =>
      let lo := Z.min e1 e2 in
      (Z.of_N m1 * 10 ^ (e1 - lo) =? Z.of_N m2 * 10 ^ (e2 - lo))
      && (Bool.eqb n1 n2 || (m1 =? 0)%N)
  | Inf n1, Inf n2 => Bool.eqb n1 n2
  | _, _ => false
  end.

(** An int64 key meets a float64 key as the double nearest to it. *)
Definition int_float_eqb (z : Z) (f : pyfloat) : bool :=
  match PyFloat.round53 z, float_integer f with
  | Some a, Some b => a =? b
  | _, _ => false
  end.

(** The integer a key holds, for the keys Python compares as numbers:
    [True == 1], [1 == 1.0]. *)
Definition as_int (v : value) : option Z :=
  match v with
  | VInt z => Some z
  | VBool b => Some (if b then 1 else 0)
  | VFloat f => float_integer f
  | _ => None
  end.

(** Two keys compared as Python objects, which is how pandas compares them
    unless both columns are numeric of one kind: equal text, equal numbers
    (a bool counting as 0 or 1), and two missing keys. *)
Definition key_eqb (a b : value) : bool :=
  match a, b with
  | (VNone | VNaN), (VNone | VNaN) => true
  | VStr s, VStr t => String.eqb s t
  | VFloat f, VFloat g => float_eqb f g
  | (VInt _ | VBool _), (VInt _ | VBool _ | VFloat _)
  | VFloat _, (VInt _ | VBool _) =>
      match as_int a, as_int b with
      | Some x, Some y => x =? y
      | _, _ => false
      end
  | _, _ => false
  end.

(** An int64 column against a float64 column: the ints are cast to
    float64 first. *)
Definition cast_eqb (a b : value) : bool :=
  match a, b with
  | VInt x, VFloat f | VFloat f, VInt x => int_float_eqb x f
  | _, _ => false
  end.

Inductive dtype : Type := DInt | DFloat | DBool | DObject.

Definition is_int (v : value) : bool :=
  match v with VInt _ => true | _ => false end.

Definition is_floating (v : value) : bool :=
  match v with VFloat _ | VNaN => true | _ => false end.

Definition is_bool (v : value) : bool :=
  match v with VBool _ => true | _ => false end.

Definition dtype_of (vals : list value) : dtype :=
  match vals with
  | [] => DObject
  | _ =>
      if forallb is_int vals then DInt
      else if forallb is_floating vals then DFloat
      else if forallb is_bool vals then DBool
      else DObject
  end.

(** The check of the key dtypes. It is skipped when a key column has no
    cell. Two numeric columns, and an object column against a bool or an
    object column, are always accepted; an object column against an int64
    or a float64 column is refused when pandas infers it to hold text or a
    mixture without any int. *)
Definition keys_accepted (lk rk : list value) : bool :=
  match lk, rk with
  | [], _ | _, [] => true
  | _, _ =>
      match dtype_of lk, dtype_of rk with
      | DObject, (DInt | DFloat) => existsb is_int lk
      | (DInt | DFloat), DObject => existsb is_int rk
      | _, _ => true
      end
  end.

(** The keys are compared as float64. *)
Definition casts (lk rk : list value) : bool :=
  match dtype_of lk, dtype_of rk with
  | DInt, DFloat | DFloat, DInt => true
  | _, _ => false
  end.

Definition keys_match (lk rk : list value) (a b : value) : bool :=
  if casts lk rk then cast_eqb a b else key_eqb a b.

Definition enumerate {A : Type} (xs : list A) : list (nat * A) :=
  combine (seq 0 (List.length xs)) xs.

(** The positions [(i, j)] of the matching rows, given the two key
    columns. *)
Definition pairs (lk rk : list value) : list (nat * nat) :=
  flat_map (fun ia =>
              map (fun jb => (fst ia, fst jb))
                  (filter (fun jb => keys_match lk rk (snd ia) (snd jb))
                          (enumerate rk)))
           (enumerate lk).

(** The column [col] of a table. *)
Definition column (df : dataframe) (col : string) : list value :=
  map (fun row => row_get row col VNaN) (iterrows df).

Definition suffixed (sfx : string) (other cols : list string) : list string :=
  map (fun c => if has_column other c then c ++ sfx else c) cols.

(** [Index.duplicated()]: a label is marked when it stands earlier in the
    list already. *)
Fixpoint duplicated (seen labels : list string) : list bool :=
  match labels with
  | [] => []
  | c :: rest => has_column seen c :: duplicated (c :: seen) rest
  end.

(** The renaming made a duplicate: a label is marked after the renaming
    and was not before. *)
Definition suffix_clash (orig renamed : list string) : bool :=
  existsb (fun p => fst p && negb (snd p))
          (combine (duplicated [] renamed) (duplicated [] orig)).

Definition label_clash (left right : dataframe) : bool :=
  suffix_clash (columns left) (suffixed "_x" (columns right) (columns left))
  || suffix_clash (columns right) (suffixed "_y" (columns left) (columns right)).

Definition merge (left right : dataframe) (left_on right_on : string)
  : result dataframe :=
  if negb (has_column (columns left) left_on) then Raise KeyError
  else if negb (has_column (columns right) right_on) then Raise KeyError
  else
    let lk := column left left_on in
    let rk := column right right_on in
    if negb (keys_accepted lk rk) then Raise ValueError
    else if label_clash left right then Raise ValueError
    else
      let ps := pairs lk rk in
      Ok {| columns := (suffixed "_x" (columns right) (columns left)
                        ++ suffixed "_y" (columns left) (columns right))%list;
            rows := map (fun p => (nth (fst p) (rows left) []
                                   ++ nth (snd p) (rows right) [])%list) ps |}.

End Merge.

(** ** [create_roor_record] *)

(** [str(int(float(ps[i]))) if len(ps) > i and ps[i] != '' else ''] *)
Definition roor_phone (ps : list string) (i : nat) : result value :=
  if (i <? List.length ps)%nat && negb (String.eqb (nth i ps "") "") then
    z <- PyFloat.int_float (nth i ps "") ;; Ok (VStr (PyStr.of_int z))
  else Ok (VStr "").

Definition create_roor_record (row : series) (mobile_phones : list string)
  : result record :=
  p1 <- roor_phone mobile_phones 0 ;;
  p2 <- roor_phone mobile_phones 1 ;;
  p3 <- roor_phone mobile_phones 2 ;;
  Ok [ ("FirstName", row_get row "Matched First Name" (VStr ""));
       ("LastName", row_get row "Matched Last Name" (VStr ""));
       ("Email", row_get row "Hyperlink" (VStr ""));
       ("PropertyAddress", row_get row "Parcel Full Address" (VStr ""));
       ("PropertyCity", row_get row "Parcel City" (VStr ""));
       ("PropertyState", row_get row "Parcel State" (VStr ""));
       ("PropertyZip", row_get row "Parcel Zip" (VStr ""));
       ("Phone1", p1);
       ("Phone2", p2);
       ("Phone3", p3);
       ("APN", row_get row "APN" (VStr ""));
       ("PropertyCounty", row_get row "Parcel County" (VStr ""));
       ("Acreage", row_get row "Calc Acreage" (VStr "")) ].

(** ** [create_readymode_record] *)

Definition maps_prefix : string := "http://maps.google.com/maps?z=16&t=m&q=".

(** [f"http://maps.google.com/maps?z=16&t=m&q={lat},{lon}"] *)
Definition maps_url (lat lon : value) : string :=
  maps_prefix ++ py_str lat ++ "," ++ py_str lon.

Definition create_readymode_record (row : series)
  (residential_phones : list string) (landportal_columns : list string)
  : result record :=
  let record : record := [] in
  record <-
    for_each (range 0 4)
      (fun record i =>
         let phone_key := "Phone" ++ PyStr.of_int (i + 1) in
         if (Z.to_nat i <? List.length residential_phones)%nat then
           if negb (String.eqb (nth (Z.to_nat i) residential_phones "") "") then
             z <- PyFloat.int_float (nth (Z.to_nat i) residential_phones "") ;;
             Ok (dict_set record phone_key (VStr (PyStr.of_int z)))
           else Ok (dict_set record phone_key (VStr ""))
         else Ok (dict_set record phone_key (VStr "")))
      record ;;
  let lat := row_get row "Latitude" (VStr "") in
  let lon := row_get row "Longitude" (VStr "") in
  let record :=
    if notna lat && notna lon && ne_empty lat && ne_empty lon
    then dict_set record "Google Maps URL" (VStr (maps_url lat lon))
    else dict_set record "Google Maps URL" (VStr "") in
  let record :=
    fold_left (fun record col => dict_set record col (row_get row col (VStr "")))
              landportal_columns record in
  Ok record.

(** ** [process_files] *)

Record stats : Type := {
  directskip_records : nat;
  landportal_records : nat;
  total_merged : nat;
  total_mobile_phones : nat;
  total_residential_phones : nat;
  roor_count : nat;
  readymode_count : nat
}.

(** The body of the counting loop over [i]: the two running totals. *)
Definition count_phone (row : series) (totals : nat * nat) (i : Z)
  : nat * nat :=
  let '(total_mobile_phones, total_residential_phones) := totals in
  let phone_num := row_get row (phone_col i) VNone in
  let phone_type := row_get row (phone_type_col i) (VStr "") in
  let phone_type := type_text phone_type in
  if notna phone_num && ne_empty phone_num then
    if String.eqb (PyStr.lower phone_type) "mobile" then
      (S total_mobile_phones, total_residential_phones)
    else if String.eqb (PyStr.lower phone_type) "residential" then
      (total_mobile_phones, S total_residential_phones)
    else totals
  else totals.

Definition count_phones (df : dataframe) : nat * nat :=
  fold_left (fun totals row => fold_left (count_phone row) (range 1 7) totals)
            (iterrows df) (O, O).

(** The body of the loop over the merged rows. [phone_data[idx]] raises
    [IndexError] past the end of the list. *)
Definition emit_row (phone_data : list phones) (landportal_columns : list string)
  (out : list record * list record) (idx_row : nat * series)
  : result (list record * list record) :=
  let '(roor_records, readymode_records) := out in
  let '(idx, row) := idx_row in
  match nth_error phone_data idx with
  | None => Raise IndexError
  | Some phones =>
      roor_records <-
        match mobile phones with
        | [] => Ok roor_records
        | _ =>
            roor_record <- create_roor_record row (mobile phones) ;;
            Ok (roor_records ++ [roor_record])%list
        end ;;
      readymode_records <-
        match residential phones with
        | [] => Ok readymode_records
        | _ =>
            readymode_record <-
              create_readymode_record row (residential phones)
                                      landportal_columns ;;
            Ok (readymode_records ++ [readymode_record])%list
        end ;;
      Ok (roor_records, readymode_records)
  end.

(** The two output tables are returned as their lists of records: pandas
    builds each DataFrame from that list, one row per record. *)
Definition process_files (df_directskip df_landportal : dataframe)
  : result (list record * list record * stats) :=
  let directskip_count := len df_directskip in
  let landportal_count := len df_landportal in
  let landportal_columns := columns df_landportal in
  let '(total_mobile_phones, total_residential_phones) :=
    count_phones df_directskip in
  merged_df <-
    Merge.merge df_directskip df_landportal
                "Input Custom Field 1" "propertyID" ;;
  phone_data <- get_phone_data merged_df ;;
  out <-
    for_each (Merge.enumerate (iterrows merged_df))
             (emit_row phone_data landportal_columns) ([], []) ;;
  let '(roor_records, readymode_records) := out in
  Ok (roor_records, readymode_records,
      {| directskip_records := directskip_count;
         landportal_records := landportal_count;
         total_merged := len merged_df;
         total_mobile_phones := total_mobile_phones;
         total_residential_phones := total_residential_phones;
         roor_count := List.length roor_records;
         readymode_count := List.length readymode_records |}).

(** ** Vocabulary of the statements *)

(** The number and the type of phone [i] as the loops read them. *)
Definition phone_at (row : series) (i : Z) : value :=
  row_get row (phone_col i) VNone.

Definition kind_at (row : series) (i : Z) : string :=
  PyStr.lower (type_text (row_get row (phone_type_col i) (VStr ""))).

(** A number is there: neither missing nor the empty string. *)
Definition present (v : value) : bool := notna v && ne_empty v.

(** Phone [i] of the row goes to the bucket [kind]. *)
Definition contributes (kind : string) (row : series) (i : Z) : bool :=
  present (phone_at row i) && String.eqb (kind_at row i) kind.

(** [s] is the normalised number of phone [i]: [str(int(phone_num))]. *)
Definition coerced (row : series) (i : Z) (s : string) : Prop :=
  exists n, py_int (phone_at row i) = Ok n /\ s = PyStr.of_int n.

(** What one merged row adds to an output table: nothing when its list of
    phones is empty, and otherwise the one record the projector built. *)
Definition emits (ps : list string) (made : result record)
  (outs : list record) : Prop :=
  match ps with
  | [] => outs = []
  | _ => exists r, made = Ok r /\ outs = [r]
  end.

(** Phone occurrences of one kind over a whole table. *)
Definition occurrences (kind : string) (df : dataframe) : nat :=
  list_sum (map (fun row => List.length (filter (contributes kind row) (range 1 7)))
                (iterrows df)).

(** What the rows emit, one entry per row. *)
Definition row_outputs (cols : list string) (row : series)
  (o : list record * list record) : Prop :=
  exists ph,
    row_phones row = Ok ph
    /\ emits (mobile ph) (create_roor_record row (mobile ph)) (fst o)
    /\ emits (residential ph)
             (create_readymode_record row (residential ph) cols) (snd o).

(** A number fits when its magnitude is at most [2^53]: every such integer
    is a double. *)
Definition fits53 (s : string) : Prop :=
  exists n, s = PyStr.of_int n /\ Z.abs n <= 2 ^ 53.

(** The fields of a RooR record that are copied from the row, with the
    column each one comes from. *)
Definition roor_sources : list (string * string) :=
  [ ("FirstName", "Matched First Name"); ("LastName", "Matched Last Name");
    ("Email", "Hyperlink"); ("PropertyAddress", "Parcel Full Address");
    ("PropertyCity", "Parcel City"); ("PropertyState", "Parcel State");
    ("PropertyZip", "Parcel Zip"); ("APN", "APN");
    ("PropertyCounty", "Parcel County"); ("Acreage", "Calc Acreage") ].

Definition roor_schema : list string :=
  [ "FirstName"; "LastName"; "Email"; "PropertyAddress"; "PropertyCity";
    "PropertyState"; "PropertyZip"; "Phone1"; "Phone2"; "Phone3"; "APN";
    "PropertyCounty"; "Acreage" ].

(** The reading of the specification for a phone-number column: [Phone]
    followed by the digits of a positive integer. *)
Definition positive_phone_col (col : string) : bool :=
  PyStr.startswith "Phone" col
  && match NilZero.uint_of_string (PyStr.drop 5 col) with
     | Some u => 0 <? Z.of_uint u
     | None => false
     end.

(** The scenario of the specification: one contact with a mobile and a
    residential phone, joined to its parcel. *)
Definition demo_contacts : dataframe :=
  {| columns := ["Input Custom Field 1"; "Matched First Name";
                 "Matched Last Name"; "Phone1"; "Phone1 Type"; "Phone2";
                 "Phone2 Type"];
     rows := [[VStr "P100"; VStr "Ann"; VStr "Lee"; VInt 5551234567;
               VStr "Mobile"; VInt 5559876543; VStr "Residential"]] |}.

Definition demo_parcels : dataframe :=
  {| columns := landportal_required;
     rows := [[VStr "P100"; VFloat (Fin false 40 0); VFloat (Fin true 74 0);
               VStr "http://x"; VStr "1 Main St"; VStr "Town"; VStr "NJ";
               VInt 7001; VStr "A-1"; VStr "Essex"; VFloat (Fin false 15 (-1))]] |}.

(** ** Concrete tables used by the examples below *)

Definition contact_columns : list string :=
  ["Input Custom Field 1"; "Matched First Name"; "Matched Last Name"].

(** The result of the scenario, evaluated. *)
Definition demo_output : list record * list record * stats :=
  Eval vm_compute in
    match process_files demo_contacts demo_parcels with
    | Ok out => out
    | Raise _ => ([], [], Build_stats 0 0 0 0 0 0 0)
    end.

(** A row whose only phones are [Phone5] and [Phone7], both mobile. *)
Definition phone57_row : series :=
  [ ("Matched First Name", VStr "Ann");
    ("Phone5", VFloat (Fin false 5551234567 0)); ("Phone5 Type", VStr "Mobile");
    ("Phone7", VInt 5559876543); ("Phone7 Type", VStr " MOBILE ") ].

(** The same with a number of seventeen digits in [Phone5]. *)
Definition wide_row : series :=
  [ ("Matched First Name", VStr "Ann");
    ("Phone5", VInt 9007199254740993); ("Phone5 Type", VStr "Mobile");
    ("Phone7", VInt 5559876543); ("Phone7 Type", VStr "Mobile") ].

(** A contact table whose only phone column is [Phone0]. *)
Definition phone0_contacts : dataframe :=
  {| columns := (contact_columns ++ ["Phone0"; "Phone0 Type"])%list;
     rows := [[VStr "P100"; VStr "Ann"; VStr "Lee"; VInt 5551234567;
               VStr "Mobile"]] |}.

(** A contact table whose only phone column is [Phone10]. *)
Definition phone10_contacts : dataframe :=
  {| columns := (contact_columns ++ ["Phone10"; "Phone10 Type"])%list;
     rows := [[VStr "P100"; VStr "Ann"; VStr "Lee"; VInt 5551234567;
               VStr "Mobile"]] |}.

(** A parcel table that brings a [Phone1] and a [Phone1 Type] column of its
    own. *)
Definition phone_parcels : dataframe :=
  {| columns := (landportal_required ++ ["Phone1"; "Phone1 Type"])%list;
     rows := [[VStr "P100"; VFloat (Fin false 40 0); VFloat (Fin true 74 0);
               VStr "http://x"; VStr "1 Main St"; VStr "Town"; VStr "NJ";
               VInt 7001; VStr "A-1"; VStr "Essex"; VFloat (Fin false 15 (-1));
               VInt 5550001111; VStr "Mobile"]] |}.

(** A parcel table with a column named as the map field of the ReadyMode
    output, as a ReadyMode file fed back as parcel input has. *)
Definition url_parcels : dataframe :=
  {| columns := (landportal_required ++ ["Google Maps URL"])%list;
     rows := [[VStr "P100"; VFloat (Fin false 40 0); VFloat (Fin true 74 0);
               VStr "http://x"; VStr "1 Main St"; VStr "Town"; VStr "NJ";
               VInt 7001; VStr "A-1"; VStr "Essex"; VFloat (Fin false 15 (-1));
               VStr "old link"]] |}.

(** Two contacts, the first with a mobile number that is no number. *)
Definition dashed_contacts : dataframe :=
  {| columns := (contact_columns ++ ["Phone1"; "Phone1 Type"])%list;
     rows := [[VStr "P100"; VStr "Ann"; VStr "Lee"; VStr "555-123-4567";
               VStr "Mobile"];
              [VStr "P200"; VStr "Bob"; VStr "Ray"; VStr "5559876543";
               VStr "Mobile"]] |}.

Definition two_parcels : dataframe :=
  {| columns := landportal_required;
     rows := [[VStr "P100"; VFloat (Fin false 40 0); VFloat (Fin true 74 0);
               VStr "http://x"; VStr "1 Main St"; VStr "Town"; VStr "NJ";
               VInt 7001; VStr "A-1"; VStr "Essex"; VFloat (Fin false 15 (-1))];
              [VStr "P200"; VFloat (Fin false 41 0); VFloat (Fin true 75 0);
               VStr "http://y"; VStr "2 Main St"; VStr "Town"; VStr "NJ";
               VInt 7002; VStr "A-2"; VStr "Essex"; VFloat (Fin false 25 (-1))]] |}.

(** The parcel of [P200] alone: the first contact joins nothing. *)
Definition second_parcel : dataframe :=
  {| columns := landportal_required;
     rows := [[VStr "P200"; VFloat (Fin false 41 0); VFloat (Fin true 75 0);
               VStr "http://y"; VStr "2 Main St"; VStr "Town"; VStr "NJ";
               VInt 7002; VStr "A-2"; VStr "Essex"; VFloat (Fin false 25 (-1))]] |}.

(** A joined row whose first name is missing. *)
Definition nameless_row : series :=
  [ ("Matched First Name", VNaN); ("Matched Last Name", VStr "Lee");
    ("Hyperlink", VStr "http://x") ].

(** The RooR record of that row. *)
Definition nameless_record : record :=
  Eval vm_compute in
    match create_roor_record nameless_row ["5551234567"] with
    | Ok r => r
    | Raise _ => []
    end.

(** The body of the loop over the four phone slots of
    [create_readymode_record], named to state lemmas about it. *)
Definition readymode_slot (residential_phones : list string) (d : record)
  (i : Z) : result record :=
  let phone_key := "Phone" ++ PyStr.of_int (i + 1) in
  if (Z.to_nat i <? List.length residential_phones)%nat then
    if negb (String.eqb (nth (Z.to_nat i) residential_phones "") "") then
      z <- PyFloat.int_float (nth (Z.to_nat i) residential_phones "") ;;
      Ok (dict_set d phone_key (VStr (PyStr.of_int z)))
    else Ok (dict_set d phone_key (VStr ""))
  else Ok (dict_set d phone_key (VStr "")).

(** The keys a ReadyMode record starts with. *)
Definition readymode_fixed : list string :=
  ["Phone1"; "Phone2"; "Phone3"; "Phone4"; "Google Maps URL"].

(** The exceptions a number that cannot be converted raises. *)
Definition coercion_error (e : exn) : Prop :=
  e = ValueError \/ e = OverflowError.

(** A contact table with the required columns and no row. *)
Definition empty_contacts : dataframe :=
  {| columns := (contact_columns ++ ["Phone1"; "Phone1 Type"])%list;
     rows := [] |}.

(** The row of the scenario after the join, with coordinates 34.05 and
    -118.25. *)
Definition mapped_row : series :=
  [ ("Phone2", VInt 5559876543); ("Phone2 Type", VStr "Residential");
    ("propertyID", VStr "P100");
    ("Latitude", VFloat (Fin false 3405 (-2)));
    ("Longitude", VFloat (Fin true 11825 (-2))) ].

Definition mapped_record : record :=
  Eval vm_compute in
    match create_readymode_record mapped_row ["5559876543"]
                                  ["propertyID"; "Latitude"; "Longitude"] with
    | Ok r => r
    | Raise _ => []
    end.

(** Every row of a DataFrame has one cell per column. *)
Definition rectangular (df : dataframe) : Prop :=
  Forall (fun cells => List.length cells = List.length (columns df)) (rows df).

(** The label is not one the join makes by renaming: it ends neither in
    [_x] nor in [_y]. *)
Definition unsuffixed (label : string) : Prop :=
  forall c, String.eqb (c ++ "_x") label = false
            /\ String.eqb (c ++ "_y") label = false.

(** The characters of an integer literal after its sign: decimal digits
    and the underscores Python allows between them. *)
Definition int_char (c : ascii) : bool :=
  PyStr.is_dec_digit c || Ascii.eqb c "_".

(** The cell holds the number [n >= 0] as pandas may have read it: an int,
    a float without fraction, or the text of its digits. *)
Definition number_cell (n : Z) (v : value) : Prop :=
  v = VInt n
  \/ v = VStr (PyStr.of_int n)
  \/ exists m e, v = VFloat (Fin false m e) /\ 0 <= e /\ Z.of_N m * 10 ^ e = n.

(** The first contact of [dashed_contacts] as a row. *)
Definition dashed_row : series :=
  combine (columns dashed_contacts) (nth 0 (rows dashed_contacts) []).

(** Two keys are the same key for the join: the same text, two equal
    floats, the same whole number between ints, bools (counting as 0 and 1)
    and floats, or two missing keys. *)
Definition same_key (a b : value) : Prop :=
  match a, b with
  | (VNone | VNaN), (VNone | VNaN) => True
  | VStr s, VStr t => s = t
  | VFloat f, VFloat g => Merge.float_eqb f g = true
  | (VInt _ | VBool _), (VInt _ | VBool _ | VFloat _)
  | VFloat _, (VInt _ | VBool _) =>
      exists x, Merge.as_int a = Some x /\ Merge.as_int b = Some x
  | _, _ => False
  end.

(** An int and a float are the same key of an int64 and a float64 column
    when the int, rounded to a double, is the float. *)
Definition same_double (a b : value) : Prop :=
  match a, b with
  | VInt x, VFloat f | VFloat f, VInt x =>
      exists d, PyFloat.round53 x = Some d /\ Merge.float_integer f = Some d
  | _, _ => False
  end.

(** The keys [a] of the left column and [b] of the right column are
    joined. *)
Definition joined_keys (lk rk : list value) (a b : value) : Prop :=
  if Merge.casts lk rk then same_double a b else same_key a b.






(** A contact table that carries a column [APN] of its own. *)
Definition apn_contacts : dataframe :=
  {| columns := (contact_columns ++ ["Phone1"; "Phone1 Type"; "APN"])%list;
     rows := [[VStr "P100"; VStr "Ann"; VStr "Lee"; VInt 5559876543;
               VStr "Residential"; VStr "A-9"]] |}.

Ltac each_char c :=
  destruct c as [[|] [|] [|] [|] [|] [|] [|] [|]].


Example strip_ex : PyStr.strip " MOBILE " = "MOBILE".
Proof. reflexivity. Qed.

Example to_int_ex : PyStr.to_int " -1_000 " = Ok (-1000).
Proof. reflexivity. Qed.

Example to_int_bad : PyStr.to_int "555-1234" = Raise ValueError.
Proof. reflexivity. Qed.

Example repr_ex1 : PyFloat.repr (Fin false 3405 (-2)) = "34.05".
Proof. reflexivity. Qed.
Example repr_ex2 : PyFloat.repr (Fin true 11825 (-2)) = "-118.25".
Proof. reflexivity. Qed.
Example repr_ex3 : PyFloat.repr (Fin false 5551234567 0) = "5551234567.0".
Proof. reflexivity. Qed.
Example repr_ex4 : PyFloat.repr (Fin false 1 16) = "1e+16".
Proof. reflexivity. Qed.
Example repr_ex5 : PyFloat.repr (Fin false 1 (-5)) = "1e-05".
Proof. reflexivity. Qed.
Example repr_ex6 : PyFloat.repr (Fin false 40 0) = "40.0".
Proof. reflexivity. Qed.
Example repr_ex7 : PyFloat.repr (Fin false 1152921504606847 3) = "1.152921504606847e+18".
Proof. reflexivity. Qed.
Example repr_ex8 : PyFloat.repr (Fin false 1 (-4)) = "0.0001".
Proof. reflexivity. Qed.
Example trunc_ex : PyFloat.to_int (Fin false 1152921504606847 3) = Ok (2^60).
Proof. reflexivity. Qed.
Example trunc_ex2 : PyFloat.to_int (Fin true 55512345679 (-1)) = Ok (-5551234567).
Proof. reflexivity. Qed.
Example int_float_ex : PyFloat.int_float "9007199254740993" = Ok 9007199254740992.
Proof. reflexivity. Qed.
Example int_float_ex2 : PyFloat.int_float "9007199254740995" = Ok 9007199254740996.
Proof. reflexivity. Qed.
Example int_float_ex3 : PyFloat.int_float "5551234567" = Ok 5551234567.
Proof. reflexivity. Qed.

(** [int] skips a no-break space and refuses the separator 28, which
    [str.strip] removes. *)
Example to_int_space :
  PyStr.to_int (String (ascii_of_N 160) "12 ") = Ok 12
  /\ PyStr.to_int (String (ascii_of_N 28) "12") = Raise ValueError
  /\ PyStr.strip (String (ascii_of_N 28) "12") = "12".
Proof. repeat split. Qed.

(** A literal of 4300 digits is read, one of 4301 digits is refused. *)
Example to_int_limit :
  PyStr.to_int ("1" ++ PyFloat.zeros 4299) = Ok (10 ^ 4299)
  /\ PyStr.to_int ("1" ++ PyFloat.zeros 4300) = Raise ValueError.
Proof. split; vm_compute; reflexivity. Qed.

(** A bool column meets an int64 column as Python objects, [True] being
    [1]; an int64 column meets a float64 column as doubles; missing keys
    match each other. *)
Example pairs_ex :
  Merge.pairs [VBool true; VBool false] [VInt 1; VInt 2] = [(0, 0)]%nat
  /\ Merge.pairs [VInt 1; VInt 9007199254740993]
                 [VFloat (Fin false 1 0); VNaN;
                  VFloat (Fin false 9007199254740992 0)]
     = [(0, 0); (1, 2)]%nat
  /\ Merge.pairs [VStr "a"; VNaN] [VNaN; VStr "a"] = [(0, 1); (1, 0)]%nat.
Proof. repeat split. Qed.

(** Text against numbers is refused, unless the object column holds an
    int. *)
Example keys_accepted_ex :
  Merge.keys_accepted [VStr "100"] [VInt 100] = false
  /\ Merge.keys_accepted [VStr "a"; VNaN] [VFloat (Fin false 1 0)] = false
  /\ Merge.keys_accepted [VStr "a"; VInt 2] [VInt 1] = true
  /\ Merge.keys_accepted [VBool true] [VInt 1] = true
  /\ Merge.keys_accepted [] [VInt 1] = true.
Proof. repeat split. Qed.

(** The contact table has [APN] and [APN_x], the parcel table [APN]: the
    renaming gives [APN_x] twice and the merge is refused. *)
Example label_clash_ex :
  Merge.merge {| columns := ["k"; "APN"; "APN_x"];
                 rows := [[VInt 1; VInt 2; VInt 3]] |}
              {| columns := ["j"; "APN"]; rows := [[VInt 1; VInt 5]] |}
              "k" "j"
  = Raise ValueError.
Proof. reflexivity. Qed.


(** * Properties *)

(** ** Loops and results *)

Lemma bind_ok {A B : Type} (r : result A) (k : A -> result B) (b : B) :
  bind r k = Ok b -> exists a, r = Ok a /\ k a = Ok b.
Proof.
  destruct r as [a | e]; simpl; intros H; [eauto | discriminate].
Qed.

Lemma for_each_app {A S : Type} (xs ys : list A) (body : S -> A -> result S)
  (s : S) :
  for_each (xs ++ ys) body s = (s' <- for_each xs body s ;; for_each ys body s').
Proof.
  revert s; induction xs as [| x xs IH]; intros s; simpl; [reflexivity |].
  destruct (body s x); simpl; [apply IH | reflexivity].
Qed.

(** A loop whose body raises at [x], whatever the state, raises. *)
Lemma for_each_raises {A S : Type} (xs : list A) (body : S -> A -> result S)
  (x : A) :
  In x xs -> (forall s, exists e, body s x = Raise e) ->
  forall s, exists e, for_each xs body s = Raise e.
Proof.
  intros Hin Hx; induction xs as [| y ys IH]; [destruct Hin |].
  intros s; simpl.
  destruct Hin as [-> | Hin].
  - destruct (Hx s) as [e ->]; simpl; eauto.
  - destruct (body s y) as [s' | e]; simpl; [apply (IH Hin) | eauto].
Qed.

(** ** The phone extractor *)

Lemma contributes_exclusive (row : series) (i : Z) :
  contributes "mobile" row i = true -> contributes "residential" row i = false.
Proof.
  unfold contributes; intros H.
  apply andb_true_iff in H as [_ H]; apply String.eqb_eq in H; rewrite H.
  apply andb_false_r.
Qed.

(** The loop body, by cases on the bucket of phone [i]. *)
Lemma scan_phone_eq (row : series) (ph : phones) (i : Z) :
  scan_phone row ph i =
  if contributes "mobile" row i then
    n <- py_int (phone_at row i) ;;
    Ok {| mobile := (mobile ph ++ [PyStr.of_int n])%list;
          residential := residential ph |}
  else if contributes "residential" row i then
    n <- py_int (phone_at row i) ;;
    Ok {| mobile := mobile ph;
          residential := (residential ph ++ [PyStr.of_int n])%list |}
  else Ok ph.
Proof.
  unfold scan_phone, contributes, present, kind_at, phone_at.
  destruct (notna (row_get row (phone_col i) VNone)
            && ne_empty (row_get row (phone_col i) VNone)); simpl; reflexivity.
Qed.

Lemma scan_loop_ok (row : series) (idx : list Z) :
  forall ph ph',
    for_each idx (scan_phone row) ph = Ok ph' ->
    exists ms rs,
      mobile ph' = (mobile ph ++ ms)%list
      /\ residential ph' = (residential ph ++ rs)%list
      /\ Forall2 (coerced row) (filter (contributes "mobile" row) idx) ms
      /\ Forall2 (coerced row) (filter (contributes "residential" row) idx) rs.
Proof.
  induction idx as [| i idx IH]; intros ph ph' H; simpl in H.
  - injection H as <-. exists [], []. rewrite !app_nil_r. repeat split; constructor.
  - apply bind_ok in H as (ph1 & H1 & H2).
    apply IH in H2 as (ms & rs & Hm & Hr & Fm & Fr).
    rewrite scan_phone_eq in H1. simpl.
    destruct (contributes "mobile" row i) eqn:Cm.
    + rewrite (contributes_exclusive _ _ Cm).
      apply bind_ok in H1 as (n & Hn & H1). injection H1 as <-. simpl in *.
      exists (PyStr.of_int n :: ms), rs.
      rewrite Hm, Hr, <- app_assoc. repeat split; auto.
      constructor; [exists n; auto | assumption].
    + destruct (contributes "residential" row i) eqn:Cr.
      * apply bind_ok in H1 as (n & Hn & H1). injection H1 as <-. simpl in *.
        exists ms, (PyStr.of_int n :: rs).
        rewrite Hm, Hr, <- app_assoc. repeat split; auto.
        constructor; [exists n; auto | assumption].
      * injection H1 as <-. exists ms, rs. auto.
Qed.

(** The phones of a row, when the scan goes through: each list holds the
    normalised numbers of the phones of its kind, by ascending index. *)
Lemma row_phones_ok (row : series) (ph : phones) :
  row_phones row = Ok ph ->
  Forall2 (coerced row) (filter (contributes "mobile" row) (range 1 7)) (mobile ph)
  /\ Forall2 (coerced row) (filter (contributes "residential" row) (range 1 7))
             (residential ph).
Proof.
  intros H. apply scan_loop_ok in H as (ms & rs & Hm & Hr & Fm & Fr).
  simpl in Hm, Hr. rewrite Hm, Hr. auto.
Qed.

(** The scan goes through when every phone that counts can be coerced. *)
Lemma scan_loop_total (row : series) (idx : list Z) :
  Forall (fun i => contributes "mobile" row i || contributes "residential" row i = true ->
                   exists n, py_int (phone_at row i) = Ok n) idx ->
  forall ph, exists ph', for_each idx (scan_phone row) ph = Ok ph'.
Proof.
  induction 1 as [| i idx Hi _ IH]; intros ph; simpl; [eauto |].
  rewrite scan_phone_eq.
  destruct (contributes "mobile" row i) eqn:Cm;
    [| destruct (contributes "residential" row i) eqn:Cr].
  - destruct (Hi eq_refl) as [n ->]; simpl. apply IH.
  - destruct (Hi eq_refl) as [n ->]; simpl. apply IH.
  - simpl. apply IH.
Qed.

(** A phone of either kind whose number cannot be coerced makes the scan of
    the row raise. *)
Lemma row_phones_raises (row : series) (i : Z) (e0 : exn) :
  In i (range 1 7) ->
  contributes "mobile" row i || contributes "residential" row i = true ->
  py_int (phone_at row i) = Raise e0 ->
  exists e, row_phones row = Raise e.
Proof.
  intros Hin Hc He. unfold row_phones.
  apply for_each_raises with (x := i); [assumption |].
  intros s. rewrite scan_phone_eq, He.
  destruct (contributes "mobile" row i); simpl; [eauto |].
  simpl in Hc. rewrite Hc. simpl. eauto.
Qed.

Lemma get_phone_data_loop (rows : list series) :
  forall acc pd,
    for_each rows (fun phone_data row =>
                     ph <- row_phones row ;; Ok (phone_data ++ [ph])%list) acc
    = Ok pd ->
    exists new, pd = (acc ++ new)%list
                /\ Forall2 (fun row ph => row_phones row = Ok ph) rows new.
Proof.
  induction rows as [| row rows IH]; intros acc pd H; simpl in H.
  - injection H as <-. exists []. rewrite app_nil_r. split; [reflexivity | constructor].
  - apply bind_ok in H as (acc1 & H1 & H2).
    apply bind_ok in H1 as (ph & Hph & H1). injection H1 as <-.
    apply IH in H2 as (new & -> & F).
    exists (ph :: new). rewrite <- app_assoc. split; [reflexivity |].
    constructor; assumption.
Qed.

(** [get_phone_data] returns, row for row, the phones of each row. *)
Lemma get_phone_data_ok (df : dataframe) (pd : list phones) :
  get_phone_data df = Ok pd ->
  Forall2 (fun row ph => row_phones row = Ok ph) (iterrows df) pd.
Proof.
  intros H. apply get_phone_data_loop in H as (new & -> & F). exact F.
Qed.

Lemma get_phone_data_loop_total (rows : list series) :
  Forall (fun row => exists ph, row_phones row = Ok ph) rows ->
  forall acc, exists pd,
    for_each rows (fun phone_data row =>
                     ph <- row_phones row ;; Ok (phone_data ++ [ph])%list) acc
    = Ok pd.
Proof.
  induction 1 as [| row rows [ph Hph] _ IH]; intros acc; simpl; [eauto |].
  rewrite Hph. simpl. apply IH.
Qed.

Lemma get_phone_data_raises (df : dataframe) (row : series) :
  In row (iterrows df) -> (exists e, row_phones row = Raise e) ->
  exists e, get_phone_data df = Raise e.
Proof.
  intros Hin [e He]. unfold get_phone_data.
  apply for_each_raises with (x := row); [assumption |].
  intros s. rewrite He. simpl. eauto.
Qed.

(** ** Integers and their decimal strings *)

Lemma digit_not_space (c : ascii) :
  PyStr.is_dec_digit c = true -> PyStr.isspace c = false.
Proof. each_char c; intros H; try discriminate H; reflexivity. Qed.

Lemma uint_string_digits (d : uint) :
  PyStr.all_chars PyStr.is_dec_digit (NilEmpty.string_of_uint d) = true.
Proof. induction d; simpl; auto. Qed.

Lemma uint_string_nonempty (d : uint) :
  d <> Nil -> NilEmpty.string_of_uint d <> "".
Proof. destruct d; simpl; congruence. Qed.

Lemma nilzero_string (d : uint) :
  d <> Nil -> NilZero.string_of_uint d = NilEmpty.string_of_uint d.
Proof. destruct d; [congruence | reflexivity ..]. Qed.

Lemma all_chars_impl (p q : ascii -> bool) (s : string) :
  (forall c, p c = true -> q c = true) ->
  PyStr.all_chars p s = true -> PyStr.all_chars q s = true.
Proof.
  intros Hpq; induction s as [| c s IH]; simpl; [reflexivity |].
  intros H; apply andb_true_iff in H as [Hc Hs].
  rewrite (Hpq _ Hc), (IH Hs); reflexivity.
Qed.

Lemma rstrip_id (s : string) :
  PyStr.all_chars (fun c => negb (PyStr.isspace c)) s = true -> PyStr.rstrip s = s.
Proof.
  induction s as [| c s IH]; simpl; [reflexivity |].
  intros H; apply andb_true_iff in H as [Hc Hs].
  rewrite (IH Hs). apply negb_true_iff in Hc. rewrite Hc.
  destruct s; reflexivity.
Qed.

Lemma lstrip_id (s : string) :
  PyStr.all_chars (fun c => negb (PyStr.isspace c)) s = true -> PyStr.lstrip s = s.
Proof.
  destruct s as [| c s]; simpl; [reflexivity |].
  intros H; apply andb_true_iff in H as [Hc _].
  apply negb_true_iff in Hc. rewrite Hc. reflexivity.
Qed.

Lemma strip_id (s : string) :
  PyStr.all_chars (fun c => negb (PyStr.isspace c)) s = true -> PyStr.strip s = s.
Proof.
  intros H. unfold PyStr.strip. rewrite (lstrip_id _ H). apply rstrip_id, H.
Qed.

Lemma digits_no_space (s : string) :
  PyStr.all_chars PyStr.is_dec_digit s = true ->
  PyStr.all_chars (fun c => negb (PyStr.isspace c)) s = true.
Proof.
  apply all_chars_impl. intros c Hc. rewrite (digit_not_space _ Hc). reflexivity.
Qed.

Lemma digits_of_digits (s : string) :
  PyStr.all_chars PyStr.is_dec_digit s = true ->
  forall prev, s <> "" \/ prev = true -> PyStr.digits_of prev s = Some s.
Proof.
  induction s as [| c s IH]; simpl; intros H prev Hp.
  - destruct Hp as [Hp | ->]; [congruence | reflexivity].
  - apply andb_true_iff in H as [Hc Hs]. rewrite Hc.
    rewrite (IH Hs true); [reflexivity | right; reflexivity].
Qed.

Lemma signed_digits_unsigned (c : ascii) (s : string) :
  PyStr.is_dec_digit c = true ->
  PyStr.signed_digits (String c s) =
  match PyStr.digits_of false (String c s) with
  | Some d =>
      match NilZero.uint_of_string d with
      | Some u => Some (Z.of_uint u)
      | None => None
      end
  | None => None
  end.
Proof. each_char c; intros H; try discriminate H; reflexivity. Qed.

Lemma signed_digits_uint (d : uint) :
  d <> Nil ->
  PyStr.signed_digits (NilEmpty.string_of_uint d) = Some (Z.of_uint d).
Proof.
  intros Hd.
  pose proof (uint_string_digits d) as Hdig.
  pose proof (uint_string_nonempty d Hd) as Hne.
  destruct (NilEmpty.string_of_uint d) as [| c s] eqn:E; [congruence |].
  assert (Hc : PyStr.is_dec_digit c = true)
    by (simpl in Hdig; apply andb_true_iff in Hdig; tauto).
  rewrite (signed_digits_unsigned _ _ Hc).
  rewrite (digits_of_digits _ Hdig false) by (left; congruence).
  rewrite <- E, <- (nilzero_string d Hd), (NilZero.usu d Hd). reflexivity.
Qed.

(** Reading back the string of an integer gives the integer. *)
Lemma signed_digits_of_int (n : Z) :
  PyStr.signed_digits (PyStr.of_int n) = Some n.
Proof.
  unfold PyStr.of_int.
  destruct n as [| p | p]; simpl.
  - reflexivity.
  - pose proof (Unsigned.to_uint_nonnil p) as Hd.
    rewrite (nilzero_string _ Hd), (signed_digits_uint _ Hd).
    unfold Z.of_uint. rewrite Unsigned.of_to. reflexivity.
  - pose proof (Unsigned.to_uint_nonnil p) as Hd.
    rewrite (nilzero_string _ Hd).
    pose proof (uint_string_digits (Pos.to_uint p)) as Hdig.
    rewrite (digits_of_digits _ Hdig false)
      by (left; apply uint_string_nonempty, Hd).
    rewrite <- (nilzero_string _ Hd), (NilZero.usu _ Hd).
    unfold Z.of_uint. rewrite Unsigned.of_to. reflexivity.
Qed.

Lemma of_int_inj (n m : Z) : PyStr.of_int n = PyStr.of_int m -> n = m.
Proof.
  intros H. pose proof (signed_digits_of_int n) as Hn.
  rewrite H, signed_digits_of_int in Hn. congruence.
Qed.

Lemma of_int_no_space (n : Z) :
  PyStr.all_chars (fun c => negb (PyStr.isspace c)) (PyStr.of_int n) = true.
Proof.
  unfold PyStr.of_int.
  destruct n as [| p | p]; simpl; [reflexivity | |].
  - rewrite (nilzero_string _ (Unsigned.to_uint_nonnil p)).
    apply digits_no_space, uint_string_digits.
  - rewrite (nilzero_string _ (Unsigned.to_uint_nonnil p)).
    apply digits_no_space, uint_string_digits.
Qed.

Lemma of_int_nonempty (n : Z) : String.eqb (PyStr.of_int n) "" = false.
Proof.
  pose proof (signed_digits_of_int n) as H.
  destruct (PyStr.of_int n); [discriminate H | reflexivity].
Qed.

Lemma strip_of_int (n : Z) : PyStr.strip (PyStr.of_int n) = PyStr.of_int n.
Proof. apply strip_id, of_int_no_space. Qed.

(** What [int] skips, [str.strip] removes. *)
Lemma literal_space_isspace (c : ascii) :
  PyStr.literal_space c = true -> PyStr.isspace c = true.
Proof. each_char c; intros H; try discriminate H; reflexivity. Qed.

Lemma skip_trailing_id (s : string) :
  PyStr.all_chars (fun c => negb (PyStr.isspace c)) s = true ->
  PyStr.skip_trailing s = s.
Proof.
  induction s as [| c s IH]; simpl; [reflexivity |].
  intros H; apply andb_true_iff in H as [Hc Hs].
  rewrite (IH Hs). apply negb_true_iff in Hc.
  destruct (PyStr.literal_space c) eqn:E.
  - apply literal_space_isspace in E. congruence.
  - destruct s; reflexivity.
Qed.

Lemma skip_leading_id (s : string) :
  PyStr.all_chars (fun c => negb (PyStr.isspace c)) s = true ->
  PyStr.skip_leading s = s.
Proof.
  destruct s as [| c s]; simpl; [reflexivity |].
  intros H; apply andb_true_iff in H as [Hc _]. apply negb_true_iff in Hc.
  destruct (PyStr.literal_space c) eqn:E; [| reflexivity].
  apply literal_space_isspace in E. congruence.
Qed.

Lemma trim_id (s : string) :
  PyStr.all_chars (fun c => negb (PyStr.isspace c)) s = true -> PyStr.trim s = s.
Proof.
  intros H. unfold PyStr.trim. rewrite (skip_leading_id _ H).
  apply skip_trailing_id, H.
Qed.

Lemma trim_of_int (n : Z) : PyStr.trim (PyStr.of_int n) = PyStr.of_int n.
Proof. apply trim_id, of_int_no_space. Qed.

(** The digits of a decimal number and its size. *)
Lemma digit_count_uint (d : uint) :
  PyStr.digit_count (NilEmpty.string_of_uint d) = Z.of_nat (Decimal.nb_digits d).
Proof.
  induction d; cbn [NilEmpty.string_of_uint Decimal.nb_digits PyStr.digit_count];
    [reflexivity
    | rewrite IHd, Nat2Z.inj_succ;
      match goal with
      | |- (if ?b then _ else _) + _ = _ => change b with true
      end; lia ..].
Qed.

Lemma of_uint_acc_lower (d : uint) :
  forall acc,
    Z.pos acc * 10 ^ Z.of_nat (Decimal.nb_digits d) <= Z.pos (Pos.of_uint_acc d acc).
Proof.
  induction d; intros acc; cbn [Decimal.nb_digits Pos.of_uint_acc];
    [rewrite Z.pow_0_r; lia | ..];
    rewrite Nat2Z.inj_succ, Z.pow_succ_r by lia;
    match goal with
    | |- _ <= Z.pos (Pos.of_uint_acc _ ?a) =>
        specialize (IHd a);
        assert (Ha : 10 * Z.pos acc <= Z.pos a) by lia
    end;
    assert (Hp : 0 < 10 ^ Z.of_nat (Decimal.nb_digits d))
      by (apply Z.pow_pos_nonneg; lia);
    nia.
Qed.

Lemma to_uint_size (p : positive) :
  10 ^ (Z.of_nat (Decimal.nb_digits (Pos.to_uint p)) - 1) <= Z.pos p.
Proof.
  pose proof (Unsigned.of_to p) as Hof.
  pose proof (Unsigned.to_of (Pos.to_uint p)) as Hto.
  rewrite Hof in Hto. simpl in Hto.
  pose proof (Unsigned.to_uint_nonnil p) as Hnil.
  pose proof (Unsigned.to_uint_nonzero p) as Hzero.
  destruct (Pos.to_uint p) as [| l | l | l | l | l | l | l | l | l | l] eqn:E;
    [congruence | |
     cbn [Pos.of_uint] in Hof; injection Hof as <-;
     cbn [Decimal.nb_digits]; rewrite Nat2Z.inj_succ;
     replace (Z.succ (Z.of_nat (Decimal.nb_digits l)) - 1)
       with (Z.of_nat (Decimal.nb_digits l)) by lia;
     match goal with
     | |- _ <= Z.pos (Pos.of_uint_acc _ ?a) =>
         pose proof (of_uint_acc_lower l a) as Hl
     end;
     assert (Hp : 0 < 10 ^ Z.of_nat (Decimal.nb_digits l))
       by (apply Z.pow_pos_nonneg; lia);
     nia ..].
  exfalso. unfold unorm in Hto. cbn [nzhead] in Hto.
  destruct (nzhead l) eqn:En;
    [apply Hzero; destruct l; try discriminate Hto; reflexivity | ..];
    pose proof (DecimalFacts.nb_digits_nzhead l) as Hle;
    rewrite En, <- Hto in Hle; cbn [Decimal.nb_digits] in Hle; lia.
Qed.

Lemma digit_count_of_int (n : Z) :
  Z.abs n < 10 ^ PyStr.max_str_digits ->
  PyStr.digit_count (PyStr.of_int n) <= PyStr.max_str_digits.
Proof.
  assert (Hpos : forall p, Z.pos p < 10 ^ PyStr.max_str_digits ->
                           PyStr.digit_count (NilEmpty.string_of_uint (Pos.to_uint p))
                           <= PyStr.max_str_digits).
  { intros p Hp. rewrite digit_count_uint.
    pose proof (to_uint_size p) as Hs.
    destruct (Z_le_gt_dec (Z.of_nat (Decimal.nb_digits (Pos.to_uint p)))
                          PyStr.max_str_digits) as [Hle | Hgt]; [exact Hle |].
    assert (Hm : 10 ^ PyStr.max_str_digits
                 <= 10 ^ (Z.of_nat (Decimal.nb_digits (Pos.to_uint p)) - 1)).
    { apply Z.pow_le_mono_r; [lia |]. lia. }
    remember (10 ^ PyStr.max_str_digits) as B.
    remember (10 ^ (Z.of_nat (Decimal.nb_digits (Pos.to_uint p)) - 1)) as C.
    lia. }
  intros H. unfold PyStr.of_int.
  destruct n as [| p | p]; simpl.
  - unfold PyStr.max_str_digits. lia.
  - rewrite (nilzero_string _ (Unsigned.to_uint_nonnil p)). apply Hpos, H.
  - rewrite (nilzero_string _ (Unsigned.to_uint_nonnil p)).
    change (PyStr.digit_count (String "-" (NilEmpty.string_of_uint (Pos.to_uint p))))
      with (0 + PyStr.digit_count (NilEmpty.string_of_uint (Pos.to_uint p))).
    apply Hpos, H.
Qed.

(** [int(str(n))] is [n], for a number of at most 4300 digits. *)
Lemma to_int_of_int (n : Z) :
  Z.abs n < 10 ^ PyStr.max_str_digits -> PyStr.to_int (PyStr.of_int n) = Ok n.
Proof.
  intros H. unfold PyStr.to_int. rewrite trim_of_int, signed_digits_of_int.
  pose proof (digit_count_of_int n H) as Hc.
  destruct (Z.ltb_spec PyStr.max_str_digits (PyStr.digit_count (PyStr.of_int n)));
    [lia | reflexivity].
Qed.

Lemma fits_max_str_digits (n : Z) :
  Z.abs n <= 2 ^ 53 -> Z.abs n < 10 ^ PyStr.max_str_digits.
Proof.
  intros H.
  assert (H1 : 2 ^ 53 < 10 ^ 16) by reflexivity.
  assert (H2 : 10 ^ 16 <= 10 ^ PyStr.max_str_digits)
    by (apply Z.pow_le_mono_r; unfold PyStr.max_str_digits; lia).
  remember (10 ^ PyStr.max_str_digits) as B. lia.
Qed.

(** ** The counting loop *)

Lemma count_phone_eq (row : series) (a b : nat) (i : Z) :
  count_phone row (a, b) i =
  if contributes "mobile" row i then (S a, b)
  else if contributes "residential" row i then (a, S b)
  else (a, b).
Proof.
  unfold count_phone, contributes, present, kind_at, phone_at.
  destruct (notna (row_get row (phone_col i) VNone)
            && ne_empty (row_get row (phone_col i) VNone)); simpl; reflexivity.
Qed.

Lemma count_row (row : series) (idx : list Z) :
  forall a b,
    fold_left (count_phone row) idx (a, b) =
    ((a + List.length (filter (contributes "mobile" row) idx))%nat,
     (b + List.length (filter (contributes "residential" row) idx))%nat).
Proof.
  induction idx as [| i idx IH]; intros a b.
  - simpl. rewrite !Nat.add_0_r; reflexivity.
  - cbn [fold_left filter]. rewrite count_phone_eq.
    destruct (contributes "mobile" row i) eqn:Cm.
    + rewrite (contributes_exclusive _ _ Cm), IH. simpl. f_equal; lia.
    + destruct (contributes "residential" row i); rewrite IH; simpl; f_equal; lia.
Qed.

Lemma count_rows (rows : list series) :
  forall a b,
    fold_left (fun totals row => fold_left (count_phone row) (range 1 7) totals)
              rows (a, b) =
    ((a + list_sum (map (fun row => List.length (filter (contributes "mobile" row)
                                                        (range 1 7))) rows))%nat,
     (b + list_sum (map (fun row => List.length (filter (contributes "residential" row)
                                                        (range 1 7))) rows))%nat).
Proof.
  induction rows as [| row rows IH]; intros a b.
  - simpl. rewrite !Nat.add_0_r; reflexivity.
  - cbn [fold_left map]. rewrite count_row, IH.
    unfold list_sum. cbn [fold_right]. f_equal; lia.
Qed.

Lemma count_phones_eq (df : dataframe) :
  count_phones df = (occurrences "mobile" df, occurrences "residential" df).
Proof. unfold count_phones, occurrences. rewrite count_rows. reflexivity. Qed.

(** ** The orchestrator *)

(** The steps of a run that returns. *)
Lemma process_files_ok (ds lp : dataframe) (roor rm : list record) (st : stats) :
  process_files ds lp = Ok (roor, rm, st) ->
  exists merged pd,
    Merge.merge ds lp "Input Custom Field 1" "propertyID" = Ok merged
    /\ get_phone_data merged = Ok pd
    /\ for_each (Merge.enumerate (iterrows merged))
                (emit_row pd (columns lp)) ([], []) = Ok (roor, rm)
    /\ st = {| directskip_records := len ds;
               landportal_records := len lp;
               total_merged := len merged;
               total_mobile_phones := occurrences "mobile" ds;
               total_residential_phones := occurrences "residential" ds;
               roor_count := List.length roor;
               readymode_count := List.length rm |}.
Proof.
  unfold process_files. rewrite count_phones_eq. intros H.
  apply bind_ok in H as (merged & Hm & H).
  apply bind_ok in H as (pd & Hpd & H).
  apply bind_ok in H as ([ro rmo] & Hout & H).
  injection H as <- <- <-.
  exists merged, pd. auto.
Qed.

(** A run raises as soon as one of its steps does. *)
Lemma process_files_raises_scan (ds lp merged : dataframe) (e : exn) :
  Merge.merge ds lp "Input Custom Field 1" "propertyID" = Ok merged ->
  get_phone_data merged = Raise e ->
  process_files ds lp = Raise e.
Proof.
  intros Hm Hpd. unfold process_files.
  destruct (count_phones ds). rewrite Hm. simpl. rewrite Hpd. reflexivity.
Qed.

Lemma emit_row_ok (pd : list phones) (cols : list string)
  (ro rmo ro' rmo' : list record) (idx : nat) (row : series) :
  emit_row pd cols (ro, rmo) (idx, row) = Ok (ro', rmo') ->
  exists ph o1 o2,
    nth_error pd idx = Some ph
    /\ emits (mobile ph) (create_roor_record row (mobile ph)) o1
    /\ emits (residential ph)
             (create_readymode_record row (residential ph) cols) o2
    /\ ro' = (ro ++ o1)%list /\ rmo' = (rmo ++ o2)%list.
Proof.
  unfold emit_row. destruct (nth_error pd idx) as [ph |]; [| discriminate].
  intros H. apply bind_ok in H as (r1 & H1 & H).
  apply bind_ok in H as (r2 & H2 & H). injection H as <- <-.
  exists ph.
  assert (E1 : exists o1, emits (mobile ph) (create_roor_record row (mobile ph)) o1
                          /\ r1 = (ro ++ o1)%list).
  { destruct (mobile ph) as [| m ms] eqn:Em.
    - injection H1 as <-. exists []. rewrite app_nil_r. split; reflexivity.
    - apply bind_ok in H1 as (r & Hr & H1). injection H1 as <-.
      exists [r]. split; [exists r; auto | reflexivity]. }
  assert (E2 : exists o2, emits (residential ph)
                            (create_readymode_record row (residential ph) cols) o2
                          /\ r2 = (rmo ++ o2)%list).
  { destruct (residential ph) as [| m ms] eqn:Em.
    - injection H2 as <-. exists []. rewrite app_nil_r. split; reflexivity.
    - apply bind_ok in H2 as (r & Hr & H2). injection H2 as <-.
      exists [r]. split; [exists r; auto | reflexivity]. }
  destruct E1 as (o1 & He1 & ->), E2 as (o2 & He2 & ->).
  exists o1, o2. auto.
Qed.

Lemma emit_loop_ok (cols : list string) (rows : list series) (pd : list phones) :
  Forall2 (fun row ph => row_phones row = Ok ph) rows pd ->
  forall pre out out',
    for_each (combine (seq (List.length pre) (List.length rows)) rows)
             (emit_row (pre ++ pd) cols) out = Ok out' ->
    exists outs,
      Forall2 (row_outputs cols) rows outs
      /\ fst out' = (fst out ++ List.concat (map fst outs))%list
      /\ snd out' = (snd out ++ List.concat (map snd outs))%list.
Proof.
  induction 1 as [| row ph rows pd Hph _ IH]; intros pre out out' H; simpl in H.
  - injection H as <-. exists []. simpl. rewrite !app_nil_r.
    repeat split; constructor.
  - apply bind_ok in H as ([ro1 rmo1] & H1 & H2).
    destruct out as [ro rmo].
    apply emit_row_ok in H1 as (ph' & o1 & o2 & Hnth & He1 & He2 & -> & ->).
    rewrite nth_error_app2, Nat.sub_diag in Hnth by lia.
    injection Hnth as <-.
    specialize (IH (pre ++ [ph])%list (ro ++ o1, rmo ++ o2)%list out').
    rewrite <- app_assoc, length_app in IH. simpl in IH.
    rewrite Nat.add_1_r in IH.
    apply IH in H2 as (outs & F & E1 & E2).
    exists ((o1, o2) :: outs). simpl in *.
    rewrite E1, E2, <- !app_assoc.
    repeat split; [| reflexivity ..].
    constructor; [exists ph; auto | assumption].
Qed.

(** ** The trip through float64 *)

Lemma round53_abs_small (a : Z) :
  0 <= a <= 2 ^ 53 -> PyFloat.round53_abs a = a.
Proof.
  intros [Ha Hb].
  destruct (Z.eq_dec a (2 ^ 53)) as [-> | Hne]; [reflexivity |].
  unfold PyFloat.round53_abs.
  assert (Hlog : Z.log2 a + 1 <= 53).
  { destruct (Z.eq_dec a 0) as [-> | Hz]; [simpl; lia |].
    assert (Z.log2 a < 53) by (apply Z.log2_lt_pow2; lia). lia. }
  apply Z.leb_le in Hlog. rewrite Hlog. reflexivity.
Qed.

Lemma round53_small (n : Z) :
  Z.abs n <= 2 ^ 53 -> PyFloat.round53 n = Some n.
Proof.
  intros H. unfold PyFloat.round53.
  rewrite round53_abs_small by lia.
  assert (Hlt : 2 ^ 53 < 2 ^ 1024) by (apply Z.pow_lt_mono_r; lia).
  destruct (Z.leb_spec (2 ^ 1024) (Z.abs n)) as [Hge | _]; [lia |].
  f_equal. lia.
Qed.

(** [int(float(str(n)))] is [n] as long as [n] fits. *)
Lemma int_float_of_int (n : Z) :
  Z.abs n <= 2 ^ 53 -> PyFloat.int_float (PyStr.of_int n) = Ok n.
Proof.
  intros H. unfold PyFloat.int_float.
  rewrite trim_of_int, signed_digits_of_int, (round53_small _ H). reflexivity.
Qed.

(** ** The RooR projector *)

Lemma roor_phone_fits (ps : list string) (i : nat) :
  (forall s, nth_error ps i = Some s -> fits53 s) ->
  roor_phone ps i = Ok (VStr (nth i ps "")).
Proof.
  intros H. unfold roor_phone.
  destruct (Nat.ltb_spec i (List.length ps)) as [Hlt | Hge].
  - destruct (H (nth i ps "")) as (n & Hn & Hb).
    { apply nth_error_nth'. exact Hlt. }
    rewrite Hn, of_int_nonempty. simpl.
    rewrite (int_float_of_int _ Hb). reflexivity.
  - simpl. rewrite nth_overflow by lia. reflexivity.
Qed.

Lemma firstn_nth_error {A : Type} (l : list A) (n i : nat) (x : A) :
  (i < n)%nat -> nth_error l i = Some x -> In x (firstn n l).
Proof.
  revert n i; induction l as [| y l IH]; intros n i Hi H.
  - destruct i; discriminate H.
  - destruct n as [| n]; [lia |].
    destruct i as [| i]; simpl in *.
    + injection H as ->. left; reflexivity.
    + right. apply (IH n i); [lia | assumption].
Qed.

(** The record built from a row whose first three numbers fit. *)
Lemma create_roor_record_fits (row : series) (ps : list string) :
  (forall s, In s (firstn 3 ps) -> fits53 s) ->
  create_roor_record row ps =
  Ok [ ("FirstName", row_get row "Matched First Name" (VStr ""));
       ("LastName", row_get row "Matched Last Name" (VStr ""));
       ("Email", row_get row "Hyperlink" (VStr ""));
       ("PropertyAddress", row_get row "Parcel Full Address" (VStr ""));
       ("PropertyCity", row_get row "Parcel City" (VStr ""));
       ("PropertyState", row_get row "Parcel State" (VStr ""));
       ("PropertyZip", row_get row "Parcel Zip" (VStr ""));
       ("Phone1", VStr (nth 0 ps ""));
       ("Phone2", VStr (nth 1 ps ""));
       ("Phone3", VStr (nth 2 ps ""));
       ("APN", row_get row "APN" (VStr ""));
       ("PropertyCounty", row_get row "Parcel County" (VStr ""));
       ("Acreage", row_get row "Calc Acreage" (VStr "")) ].
Proof.
  intros H. unfold create_roor_record.
  rewrite !roor_phone_fits
    by (intros s Hs; apply H; eapply firstn_nth_error; [| exact Hs]; lia).
  reflexivity.
Qed.

(** Whatever the phones, a record that is built has the shape of the dict
    literal: the thirteen keys, the copied fields as [row.get] returns
    them, and three strings for the phones. *)
Lemma create_roor_record_shape (row : series) (ps : list string) (r : record) :
  create_roor_record row ps = Ok r ->
  exists p1 p2 p3,
    r = [ ("FirstName", row_get row "Matched First Name" (VStr ""));
          ("LastName", row_get row "Matched Last Name" (VStr ""));
          ("Email", row_get row "Hyperlink" (VStr ""));
          ("PropertyAddress", row_get row "Parcel Full Address" (VStr ""));
          ("PropertyCity", row_get row "Parcel City" (VStr ""));
          ("PropertyState", row_get row "Parcel State" (VStr ""));
          ("PropertyZip", row_get row "Parcel Zip" (VStr ""));
          ("Phone1", VStr p1);
          ("Phone2", VStr p2);
          ("Phone3", VStr p3);
          ("APN", row_get row "APN" (VStr ""));
          ("PropertyCounty", row_get row "Parcel County" (VStr ""));
          ("Acreage", row_get row "Calc Acreage" (VStr "")) ].
Proof.
  assert (Hp : forall i v, roor_phone ps i = Ok v -> exists p, v = VStr p).
  { intros i v. unfold roor_phone.
    destruct ((i <? List.length ps)%nat && negb (String.eqb (nth i ps "") "")).
    - intros H. apply bind_ok in H as (z & _ & H). injection H as <-. eauto.
    - intros H. injection H as <-. eauto. }
  unfold create_roor_record. intros H.
  apply bind_ok in H as (v1 & H1 & H).
  apply bind_ok in H as (v2 & H2 & H).
  apply bind_ok in H as (v3 & H3 & H).
  apply Hp in H1 as [p1 ->]. apply Hp in H2 as [p2 ->]. apply Hp in H3 as [p3 ->].
  injection H as <-. exists p1, p2, p3. reflexivity.
Qed.

Lemma row_get_absent (cols : list string) (vals : list value) (col : string)
  (default : value) :
  has_column cols col = false -> row_get (combine cols vals) col default = default.
Proof.
  revert vals; induction cols as [| c cols IH]; intros vals H; [reflexivity |].
  simpl in H. apply orb_false_iff in H as [Hc Hcols].
  destruct vals as [| v vals]; [reflexivity |]. simpl.
  rewrite String.eqb_sym, Hc. apply IH, Hcols.
Qed.

Lemma row_get_no_key (row : series) (col : string) (default : value) :
  has_column (map fst row) col = false -> row_get row col default = default.
Proof.
  induction row as [| [k v] row IH]; intros H; [reflexivity |].
  simpl in H. apply orb_false_iff in H as [Hc Hrow]. simpl.
  rewrite String.eqb_sym, Hc. apply IH, Hrow.
Qed.

(** ** The ReadyMode projector *)

Lemma row_get_dict_set_same (d : record) (k : string) (v default : value) :
  row_get (dict_set d k v) k default = v.
Proof.
  induction d as [| [k' v'] d IH]; simpl.
  - rewrite String.eqb_refl; reflexivity.
  - destruct (String.eqb k' k) eqn:E; simpl; rewrite E; [reflexivity | exact IH].
Qed.

Lemma row_get_dict_set_other (d : record) (k k' : string) (v default : value) :
  String.eqb k k' = false ->
  row_get (dict_set d k v) k' default = row_get d k' default.
Proof.
  intros Hk. induction d as [| [k0 v0] d IH]; simpl.
  - rewrite Hk; reflexivity.
  - destruct (String.eqb k0 k) eqn:E; simpl.
    + apply String.eqb_eq in E. subst k0. rewrite Hk. reflexivity.
    + destruct (String.eqb k0 k'); [reflexivity | exact IH].
Qed.

(** The pass-through of the parcel columns leaves alone a key that is not
    one of them. *)
Lemma pass_through_other (row : series) (cols : list string) (k : string)
  (default : value) :
  has_column cols k = false ->
  forall d,
    row_get (fold_left (fun record col => dict_set record col (row_get row col (VStr "")))
                       cols d) k default
    = row_get d k default.
Proof.
  induction cols as [| c cols IH]; intros H d; [reflexivity |].
  simpl in H. apply orb_false_iff in H as [Hc Hcols]. simpl.
  rewrite (IH Hcols). apply row_get_dict_set_other.
  rewrite String.eqb_sym. exact Hc.
Qed.

(** The pass-through gives a key that is one of the parcel columns the value
    of that column in the row. *)
Lemma pass_through_column (row : series) (cols : list string) (k : string)
  (default : value) :
  has_column cols k = true ->
  forall d,
    row_get (fold_left (fun record col => dict_set record col (row_get row col (VStr "")))
                       cols d) k default
    = row_get row k (VStr "").
Proof.
  induction cols as [| c cols IH]; intros H d; [discriminate H |].
  simpl in H. simpl.
  destruct (has_column cols k) eqn:Hin.
  - apply (IH eq_refl).
  - rewrite orb_false_r in H. apply String.eqb_eq in H. subst c.
    rewrite (pass_through_other _ _ _ _ Hin). apply row_get_dict_set_same.
Qed.

(** The steps of the projector when it returns: the record after the loop
    over the four phone slots, the map field, the pass-through. *)
Lemma create_readymode_record_ok (row : series) (ps cols : list string)
  (r : record) :
  create_readymode_record row ps cols = Ok r ->
  exists slots,
    r = fold_left (fun record col => dict_set record col (row_get row col (VStr "")))
          cols
          (dict_set slots "Google Maps URL"
             (VStr (if present (row_get row "Latitude" (VStr ""))
                       && present (row_get row "Longitude" (VStr ""))
                    then maps_url (row_get row "Latitude" (VStr ""))
                                  (row_get row "Longitude" (VStr ""))
                    else ""))).
Proof.
  unfold create_readymode_record. intros H.
  apply bind_ok in H as (slots & _ & H). exists slots.
  injection H as <-. f_equal. unfold present.
  destruct (row_get row "Latitude" (VStr "")) as [| | s | z | f | b];
    destruct (row_get row "Longitude" (VStr "")) as [| | s' | z' | f' | b'];
    simpl; try reflexivity;
    repeat match goal with
           | |- context [String.eqb ?x ""] => destruct (String.eqb x "")
           end; reflexivity.
Qed.

(** Without a parcel column of that name, the map field is the link when
    both coordinates are there and the empty string otherwise. *)
Lemma readymode_url (row : series) (ps cols : list string) (r : record) :
  has_column cols "Google Maps URL" = false ->
  create_readymode_record row ps cols = Ok r ->
  row_get r "Google Maps URL" VNone =
  VStr (if present (row_get row "Latitude" (VStr ""))
           && present (row_get row "Longitude" (VStr ""))
        then maps_url (row_get row "Latitude" (VStr ""))
                      (row_get row "Longitude" (VStr ""))
        else "").
Proof.
  intros Hcol H. apply create_readymode_record_ok in H as (slots & ->).
  rewrite (pass_through_other _ _ _ _ Hcol). apply row_get_dict_set_same.
Qed.

(** ** The join *)

Lemma in_enumerate_from {A : Type} (xs : list A) :
  forall k i a,
    In (i, a) (combine (seq k (List.length xs)) xs)
    <-> (k <= i)%nat /\ nth_error xs (i - k) = Some a.
Proof.
  induction xs as [| x xs IH]; intros k i a; simpl.
  - split; [tauto | intros [_ H]; destruct (i - k)%nat; discriminate H].
  - rewrite IH. split.
    + intros [H | [Hle H]].
      * injection H as <- <-. rewrite Nat.sub_diag. auto.
      * split; [lia |]. replace (i - k)%nat with (S (i - S k)) by lia. exact H.
    + intros [Hle H]. destruct (i - k)%nat as [| m] eqn:E.
      * left. injection H as <-. f_equal. lia.
      * right. split; [lia |]. replace (i - S k)%nat with m by lia. exact H.
Qed.

Lemma in_enumerate {A : Type} (xs : list A) (i : nat) (a : A) :
  In (i, a) (Merge.enumerate xs) <-> nth_error xs i = Some a.
Proof.
  unfold Merge.enumerate. rewrite in_enumerate_from, Nat.sub_0_r.
  split; [tauto | split; [lia | assumption]].
Qed.





(** A pair of positions is in the join exactly when both rows exist and
    their keys match. *)
Lemma pairs_in (lk rk : list value) (i j : nat) :
  In (i, j) (Merge.pairs lk rk)
  <-> exists a b, nth_error lk i = Some a /\ nth_error rk j = Some b
                  /\ Merge.keys_match lk rk a b = true.
Proof.
  unfold Merge.pairs. rewrite in_flat_map. split.
  - intros ([i' a] & Hia & Hin). simpl in Hin.
    apply in_map_iff in Hin as ([j' b] & Heq & Hjb). simpl in Heq.
    injection Heq as <- <-.
    apply filter_In in Hjb as [Hjb Hkey]. simpl in Hkey.
    apply in_enumerate in Hia. apply in_enumerate in Hjb.
    exists a, b. auto.
  - intros (a & b & Ha & Hb & Hkey).
    exists (i, a). split; [apply in_enumerate, Ha |]. simpl.
    apply in_map_iff. exists (j, b). split; [reflexivity |].
    apply filter_In. split; [apply in_enumerate, Hb | exact Hkey].
Qed.


Lemma merge_ok (left right : dataframe) (left_on right_on : string) :
  has_column (columns left) left_on = true ->
  has_column (columns right) right_on = true ->
  Merge.keys_accepted (Merge.column left left_on) (Merge.column right right_on)
  = true ->
  Merge.label_clash left right = false ->
  Merge.merge left right left_on right_on =
  Ok {| columns := (Merge.suffixed "_x" (columns right) (columns left)
                    ++ Merge.suffixed "_y" (columns left) (columns right))%list;
        rows := map (fun p => (nth (fst p) (rows left) []
                               ++ nth (snd p) (rows right) [])%list)
                    (Merge.pairs (Merge.column left left_on)
                                 (Merge.column right right_on)) |}.
Proof.
  intros Hl Hr Ha Hc. unfold Merge.merge. rewrite Hl, Hr, Ha, Hc. reflexivity.
Qed.

(** What a merge that returns went through. *)
Lemma merge_accepted (left right merged : dataframe) (left_on right_on : string) :
  Merge.merge left right left_on right_on = Ok merged ->
  has_column (columns left) left_on = true
  /\ has_column (columns right) right_on = true
  /\ Merge.keys_accepted (Merge.column left left_on) (Merge.column right right_on)
     = true
  /\ Merge.label_clash left right = false.
Proof.
  unfold Merge.merge.
  destruct (has_column (columns left) left_on); [| discriminate].
  destruct (has_column (columns right) right_on); [| discriminate].
  destruct (Merge.keys_accepted _ _); [| discriminate].
  destruct (Merge.label_clash left right); [discriminate |].
  auto.
Qed.

Lemma merge_inv (left right merged : dataframe) (left_on right_on : string) :
  Merge.merge left right left_on right_on = Ok merged ->
  has_column (columns left) left_on = true
  /\ has_column (columns right) right_on = true.
Proof.
  intros H. apply merge_accepted in H. tauto.
Qed.

(** The table a merge returns. *)
Lemma merge_shape (left right merged : dataframe) (left_on right_on : string) :
  Merge.merge left right left_on right_on = Ok merged ->
  merged =
  {| columns := (Merge.suffixed "_x" (columns right) (columns left)
                 ++ Merge.suffixed "_y" (columns left) (columns right))%list;
     rows := map (fun p => (nth (fst p) (rows left) []
                            ++ nth (snd p) (rows right) [])%list)
                 (Merge.pairs (Merge.column left left_on)
                              (Merge.column right right_on)) |}.
Proof.
  intros H. pose proof (merge_accepted _ _ _ _ _ H) as (Hl & Hr & Ha & Hc).
  rewrite (merge_ok _ _ _ _ Hl Hr Ha Hc) in H. injection H as <-. reflexivity.
Qed.

(** What a merge raises: [KeyError] for a missing key column, and
    [ValueError] otherwise. *)
Lemma merge_raises (left right : dataframe) (left_on right_on : string) (e : exn) :
  Merge.merge left right left_on right_on = Raise e ->
  (e = KeyError
   /\ (has_column (columns left) left_on = false
       \/ has_column (columns right) right_on = false))
  \/ (e = ValueError
      /\ has_column (columns left) left_on = true
      /\ has_column (columns right) right_on = true
      /\ (Merge.keys_accepted (Merge.column left left_on)
                              (Merge.column right right_on) = false
          \/ Merge.label_clash left right = true)).
Proof.
  unfold Merge.merge.
  destruct (has_column (columns left) left_on);
    [| intros H; injection H as <-; auto].
  destruct (has_column (columns right) right_on);
    [| intros H; injection H as <-; auto].
  destruct (Merge.keys_accepted _ _);
    [| intros H; injection H as <-; right; auto].
  destruct (Merge.label_clash left right); [| discriminate].
  intros H; injection H as <-. right. auto.
Qed.

(** ** The keys of the join *)

Lemma whole_eqb_same (u v : option Z) :
  match u, v with
  | Some x, Some y => x =? y
  | _, _ => false
  end = true
  <-> exists z, u = Some z /\ v = Some z.
Proof.
  destruct u as [x |]; [destruct v as [y |] |].
  - rewrite Z.eqb_eq. split; [intros ->; eauto | intros (z & Hx & Hy); congruence].
  - split; [discriminate | intros (z & _ & Hz); discriminate Hz].
  - split; [discriminate | intros (z & Hz & _); discriminate Hz].
Qed.

Lemma key_eqb_same (a b : value) : Merge.key_eqb a b = true <-> same_key a b.
Proof.
  destruct a as [| | s | x | f | p]; destruct b as [| | t | y | g | q];
    cbn [Merge.key_eqb same_key];
    first [ apply whole_eqb_same
          | apply String.eqb_eq
          | tauto
          | split; [discriminate | tauto] ].
Qed.

Lemma cast_eqb_same (a b : value) : Merge.cast_eqb a b = true <-> same_double a b.
Proof.
  destruct a as [| | s | x | f | p]; destruct b as [| | t | y | g | q];
    cbn [Merge.cast_eqb same_double]; unfold Merge.int_float_eqb;
    first [ apply whole_eqb_same | split; [discriminate | tauto] ].
Qed.

Lemma keys_match_joined (lk rk : list value) (a b : value) :
  Merge.keys_match lk rk a b = true <-> joined_keys lk rk a b.
Proof.
  unfold Merge.keys_match, joined_keys.
  destruct (Merge.casts lk rk); [apply cast_eqb_same | apply key_eqb_same].
Qed.

(** ** The validator *)

Lemma collect_missing (cols required : list string) (msg : string -> string) :
  forall errors,
    fold_left (fun errors col =>
                 if negb (has_column cols col)
                 then (errors ++ [msg col])%list else errors)
              required errors
    = (errors ++ map msg (filter (fun col => negb (has_column cols col)) required))%list.
Proof.
  induction required as [| c required IH]; intros errors; simpl.
  - rewrite app_nil_r; reflexivity.
  - rewrite IH. destruct (negb (has_column cols c)); simpl;
      [rewrite <- app_assoc |]; reflexivity.
Qed.

Lemma filter_nil_existsb {A : Type} (p : A -> bool) (l : list A) :
  filter p l = [] <-> existsb p l = false.
Proof.
  induction l as [| x l IH]; simpl; [tauto |].
  destruct (p x); simpl; [split; discriminate | exact IH].
Qed.

(** The errors, in the order they are collected: one per missing contact
    column, one per missing parcel column, one when no column is a phone
    column. *)
Lemma validate_columns_eq (ds lp : dataframe) :
  validate_columns ds lp =
  (map directskip_missing
       (filter (fun col => negb (has_column (columns ds) col)) directskip_required)
   ++ map landportal_missing
          (filter (fun col => negb (has_column (columns lp) col)) landportal_required)
   ++ (if existsb is_phone_col (columns ds) then [] else [no_phone_columns]))%list.
Proof.
  unfold validate_columns. rewrite !collect_missing. rewrite app_nil_l.
  destruct (filter is_phone_col (columns ds)) as [| c cs] eqn:E.
  - apply filter_nil_existsb in E. rewrite E, <- app_assoc. reflexivity.
  - destruct (existsb is_phone_col (columns ds)) eqn:E'.
    + rewrite !app_nil_r. reflexivity.
    + apply filter_nil_existsb in E'. congruence.
Qed.

Lemma no_missing (cols required : list string) :
  filter (fun col => negb (has_column cols col)) required = []
  <-> forall col, In col required -> has_column cols col = true.
Proof.
  rewrite filter_nil_existsb. split.
  - intros H col Hin. destruct (has_column cols col) eqn:E; [reflexivity |].
    assert (existsb (fun col => negb (has_column cols col)) required = true).
    { apply existsb_exists. exists col. rewrite E. auto. }
    congruence.
  - intros H. destruct (existsb _ required) eqn:E; [| reflexivity].
    apply existsb_exists in E as (col & Hin & Hc).
    rewrite (H col Hin) in Hc. discriminate Hc.
Qed.

Lemma validate_columns_nil (ds lp : dataframe) :
  validate_columns ds lp = []
  <-> (forall col, In col directskip_required -> has_column (columns ds) col = true)
      /\ (forall col, In col landportal_required -> has_column (columns lp) col = true)
      /\ (exists col, In col (columns ds) /\ is_phone_col col = true).
Proof.
  rewrite validate_columns_eq, <- !no_missing. split.
  - intros H. apply app_eq_nil in H as [H1 H]. apply app_eq_nil in H as [H2 H3].
    apply map_eq_nil in H1, H2. repeat split; try assumption.
    destruct (existsb is_phone_col (columns ds)) eqn:E; [| discriminate H3].
    apply existsb_exists in E. exact E.
  - intros (H1 & H2 & H3). rewrite H1, H2. simpl.
    apply existsb_exists in H3. rewrite H3. reflexivity.
Qed.

Lemma prefix_split (p s : string) :
  String.prefix p s = true -> s = p ++ PyStr.drop (String.length p) s.
Proof.
  revert s; induction p as [| c p IH]; intros s H; [reflexivity |].
  destruct s as [| c' s]; [discriminate H |]. simpl in H.
  destruct (ascii_dec c c') as [<- | Hne]; [| discriminate H].
  simpl. f_equal. apply IH, H.
Qed.

Lemma prefix_append (p s : string) : String.prefix p (p ++ s) = true.
Proof.
  induction p as [| c p IH]; simpl; [destruct s; reflexivity |].
  destruct (ascii_dec c c); [exact IH | congruence].
Qed.

Lemma drop_append (p s : string) : PyStr.drop (String.length p) (p ++ s) = s.
Proof. induction p as [| c p IH]; simpl; [reflexivity | exact IH]. Qed.

(** The phone-column check in words: [Phone] followed by one digit
    character or more, and nothing else. *)
Lemma is_phone_col_iff (col : string) :
  is_phone_col col = true
  <-> exists d, col = "Phone" ++ d /\ PyStr.isdigit d = true.
Proof.
  unfold is_phone_col, PyStr.startswith. split.
  - intros H. apply andb_true_iff in H as [Hp Hd].
    exists (PyStr.drop 5 col). split; [apply (prefix_split "Phone"), Hp | exact Hd].
  - intros (d & -> & Hd). apply andb_true_iff. split.
    + apply (prefix_append "Phone").
    + rewrite (drop_append "Phone"). exact Hd.
Qed.

(** ** Tables without the columns [Phone1] to [Phone7] *)

Lemma range_1_7 (i : Z) :
  In i (range 1 7) <-> i = 1 \/ i = 2 \/ i = 3 \/ i = 4 \/ i = 5 \/ i = 6 \/ i = 7.
Proof. unfold range. simpl. intuition congruence. Qed.

(** A suffixed label is none of the labels the loops read. *)
Lemma suffixed_not_phone (c sfx : string) (i : Z) :
  sfx = "_x" \/ sfx = "_y" -> In i (range 1 7) ->
  String.eqb (c ++ sfx) (phone_col i) = false.
Proof.
  intros Hs Hi. apply String.eqb_neq. intros H.
  apply range_1_7 in Hi.
  destruct Hs as [-> | ->];
    repeat (destruct Hi as [-> | Hi]); try subst i;
    vm_compute phone_col in H;
    repeat (destruct c as [| ? c]; simpl in H; try discriminate H).
Qed.

Lemma has_column_app (xs ys : list string) (col : string) :
  has_column (xs ++ ys) col = has_column xs col || has_column ys col.
Proof. unfold has_column. apply existsb_app. Qed.

Lemma suffixed_no_phone (sfx : string) (other cols : list string) (i : Z) :
  sfx = "_x" \/ sfx = "_y" -> In i (range 1 7) ->
  has_column cols (phone_col i) = false ->
  has_column (Merge.suffixed sfx other cols) (phone_col i) = false.
Proof.
  intros Hs Hi. unfold has_column, Merge.suffixed.
  induction cols as [| c cols IH]; cbn [map existsb]; [reflexivity |].
  intros H. apply orb_false_iff in H as [Hc Hcols].
  rewrite (IH Hcols), orb_false_r.
  destruct (has_column other c); [| exact Hc].
  rewrite String.eqb_sym. apply suffixed_not_phone; assumption.
Qed.

Lemma merged_no_phone (left right merged : dataframe) (lo ro : string) (i : Z) :
  Merge.merge left right lo ro = Ok merged ->
  In i (range 1 7) ->
  has_column (columns left) (phone_col i) = false ->
  has_column (columns right) (phone_col i) = false ->
  has_column (columns merged) (phone_col i) = false.
Proof.
  intros Hm Hi Hl Hr.
  pose proof (merge_inv _ _ _ _ _ Hm) as [Hlo Hro].
  apply merge_shape in Hm. subst merged. simpl.
  rewrite has_column_app, !suffixed_no_phone; auto.
Qed.

(** A row none of whose phones counts has two empty lists. *)
Lemma row_phones_none (row : series) :
  (forall i, In i (range 1 7) -> present (phone_at row i) = false) ->
  row_phones row = Ok {| mobile := []; residential := [] |}.
Proof.
  intros H.
  assert (Hc : forall kind, filter (contributes kind row) (range 1 7) = []).
  { intros kind. apply filter_nil_existsb.
    destruct (existsb _ (range 1 7)) eqn:E; [| reflexivity].
    apply existsb_exists in E as (i & Hi & Hci). unfold contributes in Hci.
    rewrite (H i Hi) in Hci. discriminate Hci. }
  destruct (scan_loop_total row (range 1 7)) with
    (ph := {| mobile := []; residential := [] |}) as [ph' Hph].
  { apply Forall_forall. intros i Hi Hor. unfold contributes in Hor.
    rewrite (H i Hi) in Hor. discriminate Hor. }
  unfold row_phones. rewrite Hph.
  apply row_phones_ok in Hph as [Fm Fr]. rewrite Hc in Fm, Fr.
  inversion Fm. inversion Fr. destruct ph'; simpl in *; subst. reflexivity.
Qed.

Lemma row_no_phone_columns (cols : list string) (vals : list value) :
  (forall i, In i (range 1 7) -> has_column cols (phone_col i) = false) ->
  forall i, In i (range 1 7) -> present (phone_at (combine cols vals) i) = false.
Proof.
  intros H i Hi. unfold phone_at. rewrite row_get_absent by (apply H, Hi).
  reflexivity.
Qed.

Lemma list_sum_zero {A : Type} (f : A -> nat) (l : list A) :
  (forall x, In x l -> f x = O) -> list_sum (map f l) = O.
Proof.
  induction l as [| x l IH]; intros H; [reflexivity |].
  cbn [map]. change (list_sum (f x :: map f l)) with (f x + list_sum (map f l))%nat.
  rewrite (H x (or_introl eq_refl)), IH; [reflexivity |].
  intros y Hy. apply H. right. exact Hy.
Qed.

Lemma occurrences_none (kind : string) (df : dataframe) :
  (forall i, In i (range 1 7) -> has_column (columns df) (phone_col i) = false) ->
  occurrences kind df = O.
Proof.
  intros H. unfold occurrences. apply list_sum_zero.
  intros row Hrow. unfold iterrows in Hrow.
  apply in_map_iff in Hrow as (vals & <- & _).
  replace (filter (contributes kind (combine (columns df) vals)) (range 1 7))
    with (@nil Z); [reflexivity |].
  symmetry. apply filter_nil_existsb.
  destruct (existsb _ (range 1 7)) eqn:E; [| reflexivity].
  apply existsb_exists in E as (i & Hi & Hci). unfold contributes in Hci.
  rewrite (row_no_phone_columns _ _ H i Hi) in Hci. discriminate Hci.
Qed.

Lemma get_phone_data_none (df : dataframe) :
  (forall i, In i (range 1 7) -> has_column (columns df) (phone_col i) = false) ->
  get_phone_data df
  = Ok (repeat {| mobile := []; residential := [] |} (len df)).
Proof.
  intros H. unfold get_phone_data, iterrows, len.
  assert (G : forall rs acc,
             for_each (map (combine (columns df)) rs)
               (fun phone_data row =>
                  ph <- row_phones row ;; Ok (phone_data ++ [ph])%list) acc
             = Ok (acc ++ repeat {| mobile := []; residential := [] |}
                                 (List.length rs))%list).
  { induction rs as [| vals rs IH]; intros acc; simpl.
    - rewrite app_nil_r; reflexivity.
    - rewrite row_phones_none by (apply row_no_phone_columns, H). simpl.
      rewrite IH, <- app_assoc. reflexivity. }
  apply (G (rows df) []).
Qed.

Lemma emit_loop_none (cols : list string) (rows : list series) :
  forall k n out,
    (k + List.length rows <= n)%nat ->
    for_each (combine (seq k (List.length rows)) rows)
             (emit_row (repeat {| mobile := []; residential := [] |} n) cols) out
    = Ok out.
Proof.
  induction rows as [| row rows IH]; intros k n [ro rmo] Hn; simpl; [reflexivity |].
  simpl in Hn.
  rewrite (nth_error_nth' _ {| mobile := []; residential := [] |})
    by (rewrite repeat_length; lia).
  rewrite nth_repeat. simpl. apply IH. lia.
Qed.

(** * The pipeline, statement by statement *)


Lemma emits_at_most_one (ps : list string) (made : result record)
  (outs : list record) :
  emits ps made outs -> (List.length outs <= 1)%nat.
Proof.
  unfold emits. destruct ps; [intros -> | intros (r & _ & ->)]; simpl; lia.
Qed.

(** C1. A run that returns has emitted, for every joined row and in the
    order of the rows, a RooR record exactly when the row's mobile list is
    not empty and a ReadyMode record exactly when its residential list is
    not empty: at most one record of each kind per row, both for a row with
    both kinds of phone, none for a row with neither. *)
Theorem joined_row_outputs (ds lp : dataframe) (roor rm : list record)
  (st : stats) :
  process_files ds lp = Ok (roor, rm, st) ->
  exists merged outs,
    Merge.merge ds lp "Input Custom Field 1" "propertyID" = Ok merged
    /\ Forall2 (row_outputs (columns lp)) (iterrows merged) outs
    /\ roor = List.concat (map fst outs)
    /\ rm = List.concat (map snd outs)
    /\ Forall (fun o => (List.length (fst o) <= 1)%nat
                        /\ (List.length (snd o) <= 1)%nat) outs.
Proof.
  intros H. apply process_files_ok in H as (merged & pd & Hm & Hpd & Hloop & _).
  apply get_phone_data_ok in Hpd.
  apply (emit_loop_ok (columns lp) _ _ Hpd [] ([], []) (roor, rm)) in Hloop
    as (outs & F & E1 & E2).
  simpl in E1, E2. exists merged, outs.
  repeat split; try assumption.
  clear - F. induction F as [| row o rows outs (ph & _ & H1 & H2) _ IH];
    constructor; [| assumption].
  split; eapply emits_at_most_one; eassumption.
Qed.

Lemma joined_row_outputs_witness :
  exists merged outs,
    Merge.merge demo_contacts demo_parcels "Input Custom Field 1" "propertyID"
    = Ok merged
    /\ Forall2 (row_outputs (columns demo_parcels)) (iterrows merged) outs
    /\ fst (fst demo_output) = List.concat (map fst outs)
    /\ snd (fst demo_output) = List.concat (map snd outs)
    /\ Forall (fun o => (List.length (fst o) <= 1)%nat
                        /\ (List.length (snd o) <= 1)%nat) outs.
Proof.
  apply (joined_row_outputs demo_contacts demo_parcels
           (fst (fst demo_output)) (snd (fst demo_output)) (snd demo_output)).
  vm_compute. reflexivity.
Defined.


(** C3, as the claim states it, fails: a mobile number of seventeen digits
    comes out of the RooR projector changed, because the projector sends
    every number through a float64. Here [Phone5] holds [2^53 + 1]. *)
Lemma roor_rounds_wide_numbers :
  row_phones wide_row
  = Ok {| mobile := ["9007199254740993"; "5559876543"]; residential := [] |}
  /\ exists r,
       create_roor_record wide_row ["9007199254740993"; "5559876543"] = Ok r
       /\ row_get r "Phone1" VNone = VStr "9007199254740992".
Proof.
  split; [reflexivity |]. eexists. split; reflexivity.
Qed.

(** C3, amended. The two lists follow the ascending phone index, and when
    the first three mobile numbers are at most [2^53] in magnitude the RooR
    projector returns a record whose [Phone1], [Phone2], [Phone3] are the
    first three mobile numbers in that order, the empty string filling the
    slots that are left and the numbers after the third left out; so a row
    whose mobile phones are [Phone5] and [Phone7] alone gets the number of
    [Phone5], the number of [Phone7] and the empty string. *)
Theorem roor_first_three_mobiles (row : series) (ph : phones) :
  row_phones row = Ok ph ->
  (forall s, In s (firstn 3 (mobile ph)) -> fits53 s) ->
  Forall2 (coerced row) (filter (contributes "mobile" row) (range 1 7)) (mobile ph)
  /\ Forall2 (coerced row) (filter (contributes "residential" row) (range 1 7))
             (residential ph)
  /\ exists r,
       create_roor_record row (mobile ph) = Ok r
       /\ row_get r "Phone1" VNone = VStr (nth 0 (mobile ph) "")
       /\ row_get r "Phone2" VNone = VStr (nth 1 (mobile ph) "")
       /\ row_get r "Phone3" VNone = VStr (nth 2 (mobile ph) "")
       /\ (forall n5 n7,
             filter (contributes "mobile" row) (range 1 7) = [5; 7] ->
             py_int (phone_at row 5) = Ok n5 ->
             py_int (phone_at row 7) = Ok n7 ->
             row_get r "Phone1" VNone = VStr (PyStr.of_int n5)
             /\ row_get r "Phone2" VNone = VStr (PyStr.of_int n7)
             /\ row_get r "Phone3" VNone = VStr "").
Proof.
  intros Hph Hfit.
  pose proof (row_phones_ok _ _ Hph) as [Fm Fr].
  split; [exact Fm |]. split; [exact Fr |].
  eexists. split; [apply (create_roor_record_fits row (mobile ph) Hfit) |].
  split; [reflexivity |]. split; [reflexivity |]. split; [reflexivity |].
  intros n5 n7 Hf H5 H7. rewrite Hf in Fm.
  inversion Fm as [| ? s5 ? l5 (m5 & Hm5 & E5) Fm' E1 E2]; subst.
  inversion Fm' as [| ? s7 ? l7 (m7 & Hm7 & E7) Fm'' E1' E2']; subst.
  inversion Fm''; subst.
  rewrite H5 in Hm5. rewrite H7 in Hm7.
  injection Hm5 as <-. injection Hm7 as <-.
  repeat split; reflexivity.
Qed.

Lemma roor_first_three_mobiles_witness :
  Forall2 (coerced phone57_row)
          (filter (contributes "mobile" phone57_row) (range 1 7))
          ["5551234567"; "5559876543"]
  /\ Forall2 (coerced phone57_row)
             (filter (contributes "residential" phone57_row) (range 1 7)) []
  /\ exists r,
       create_roor_record phone57_row ["5551234567"; "5559876543"] = Ok r
       /\ row_get r "Phone1" VNone = VStr "5551234567"
       /\ row_get r "Phone2" VNone = VStr "5559876543"
       /\ row_get r "Phone3" VNone = VStr ""
       /\ (forall n5 n7,
             filter (contributes "mobile" phone57_row) (range 1 7) = [5; 7] ->
             py_int (phone_at phone57_row 5) = Ok n5 ->
             py_int (phone_at phone57_row 7) = Ok n7 ->
             row_get r "Phone1" VNone = VStr (PyStr.of_int n5)
             /\ row_get r "Phone2" VNone = VStr (PyStr.of_int n7)
             /\ row_get r "Phone3" VNone = VStr "").
Proof.
  apply (roor_first_three_mobiles phone57_row
           {| mobile := ["5551234567"; "5559876543"]; residential := [] |}).
  - reflexivity.
  - simpl. intros s [<- | [<- | []]].
    + exists 5551234567. split; [reflexivity | vm_compute; discriminate].
    + exists 5559876543. split; [reflexivity | vm_compute; discriminate].
Defined.




(** C5, as the claim states it, fails: a contact table whose only phone
    column is [Phone0] has no column made of [Phone] and a positive
    integer, and the validator returns no error for it. *)
Lemma validator_accepts_phone0 :
  validate_columns phone0_contacts demo_parcels = []
  /\ existsb positive_phone_col (columns phone0_contacts) = false.
Proof. split; reflexivity. Qed.

(** C5, amended. The validator returns, in this order and without stopping
    at the first, one error for every missing contact column among the
    three required, one for every missing parcel column among the eleven
    required, and one when no contact column is [Phone] followed by one
    digit character or more and nothing else ([Phone10] and [Phone0] are
    such columns, [PhoneType1] and [Phone] are not); so it returns the empty
    list exactly when nothing of that is missing. *)
Theorem validate_columns_collects (ds lp : dataframe) :
  validate_columns ds lp
  = (map directskip_missing
         (filter (fun col => negb (has_column (columns ds) col)) directskip_required)
     ++ map landportal_missing
            (filter (fun col => negb (has_column (columns lp) col))
                    landportal_required)
     ++ (if existsb is_phone_col (columns ds) then [] else [no_phone_columns]))%list
  /\ (validate_columns ds lp = []
      <-> (forall col, In col directskip_required ->
                       has_column (columns ds) col = true)
          /\ (forall col, In col landportal_required ->
                          has_column (columns lp) col = true)
          /\ (exists col, In col (columns ds) /\ is_phone_col col = true))
  /\ (forall col, is_phone_col col = true
                  <-> exists d, col = "Phone" ++ d /\ PyStr.isdigit d = true)
  /\ List.length directskip_required = 3%nat
  /\ List.length landportal_required = 11%nat
  /\ is_phone_col "Phone10" = true
  /\ is_phone_col "Phone0" = true
  /\ is_phone_col "PhoneType1" = false
  /\ is_phone_col "Phone" = false.
Proof.
  split; [apply validate_columns_eq |].
  split; [apply validate_columns_nil |].
  split; [apply is_phone_col_iff |].
  repeat split.
Qed.



(** C7. The code at the failing input: the parcel table has a column named
    [Google Maps URL]. The latitude and the longitude of the joined row
    are there, the link they give is the one the claim expects, and the
    record nevertheless carries the cell of the parcel column in its map
    field: the pass-through of the parcel columns writes that key again. *)
Theorem readymode_url_overwritten :
  exists roor r st,
    validate_columns demo_contacts url_parcels = []
    /\ process_files demo_contacts url_parcels = Ok (roor, [r], st)
    /\ row_get r "Latitude" VNone = VFloat (Fin false 40 0)
    /\ row_get r "Longitude" VNone = VFloat (Fin true 74 0)
    /\ maps_url (VFloat (Fin false 40 0)) (VFloat (Fin true 74 0))
       = "http://maps.google.com/maps?z=16&t=m&q=40.0,-74.0"
    /\ row_get r "Google Maps URL" VNone = VStr "old link".
Proof.
  do 3 eexists. repeat split; vm_compute; reflexivity.
Qed.

(** C8, as the claim states it, fails on both counts. A joined row with a
    mobile number that is no number makes the whole run raise, so the row
    that follows is not processed; and the same contact, when it joins no
    parcel, raises nothing at all and is counted in the totals. *)
Lemma coercion_error_aborts_run :
  process_files dashed_contacts two_parcels = Raise ValueError
  /\ exists roor st,
       process_files dashed_contacts second_parcel = Ok (roor, [], st)
       /\ List.length roor = 1%nat
       /\ total_mobile_phones st = 2%nat.
Proof.
  split; [reflexivity |]. do 2 eexists. repeat split; vm_compute; reflexivity.
Qed.

(** C8, amended. When a joined row has a phone whose number is there, whose
    type is mobile or residential and whose number [int] refuses, the
    extractor raises and the run raises with it: no table, no statistics,
    no row recovered. *)
Theorem coercion_error_propagates (ds lp merged : dataframe) (row : series)
  (i : Z) (e0 : exn) :
  Merge.merge ds lp "Input Custom Field 1" "propertyID" = Ok merged ->
  In row (iterrows merged) ->
  In i (range 1 7) ->
  contributes "mobile" row i || contributes "residential" row i = true ->
  py_int (phone_at row i) = Raise e0 ->
  exists e, get_phone_data merged = Raise e /\ process_files ds lp = Raise e.
Proof.
  intros Hm Hrow Hi Hc He.
  destruct (get_phone_data_raises merged row Hrow) as [e Hpd].
  { apply (row_phones_raises row i e0); assumption. }
  exists e. split; [exact Hpd |].
  apply (process_files_raises_scan _ _ _ _ Hm Hpd).
Qed.

Lemma coercion_error_propagates_witness :
  exists e,
    get_phone_data
      {| columns := (columns dashed_contacts ++ columns two_parcels)%list;
         rows := [(nth 0 (rows dashed_contacts) [] ++ nth 0 (rows two_parcels) [])%list;
                  (nth 1 (rows dashed_contacts) [] ++ nth 1 (rows two_parcels) [])%list] |}
    = Raise e
    /\ process_files dashed_contacts two_parcels = Raise e.
Proof.
  apply (coercion_error_propagates dashed_contacts two_parcels _
           (combine (columns dashed_contacts ++ columns two_parcels)%list
                    (nth 0 (rows dashed_contacts) [] ++ nth 0 (rows two_parcels) [])%list)
           1 ValueError).
  - reflexivity.
  - left. reflexivity.
  - left. reflexivity.
  - reflexivity.
  - reflexivity.
Defined.

(** C9, as the claim states it, fails: a cell that is NaN is copied into
    the record as it is, not as the empty string. *)
Lemma roor_keeps_nan :
  exists r,
    create_roor_record nameless_row ["5551234567"] = Ok r
    /\ row_get r "FirstName" (VStr "") = VNaN.
Proof. eexists. split; reflexivity. Qed.

(** C9, amended. A RooR record has the thirteen keys of the schema, in the
    order of the schema. Each of the ten copied fields holds what
    [row.get] returns for its column: the cell of the row, whatever it
    holds, and the empty string when the row has no such column. The three
    phone fields hold strings. *)
Theorem roor_record_schema (row : series) (mobile_phones : list string)
  (r : record) :
  create_roor_record row mobile_phones = Ok r ->
  keys r = roor_schema
  /\ List.length (keys r) = 13%nat
  /\ NoDup (keys r)
  /\ (forall field col,
        In (field, col) roor_sources ->
        row_get r field VNone = row_get row col (VStr "")
        /\ (has_column (map fst row) col = false ->
            row_get r field VNone = VStr ""))
  /\ (forall field,
        In field ["Phone1"; "Phone2"; "Phone3"] ->
        exists p, row_get r field VNone = VStr p).
Proof.
  intros H. apply create_roor_record_shape in H as (p1 & p2 & p3 & ->).
  split; [reflexivity |]. split; [reflexivity |]. split.
  { unfold keys. simpl.
    repeat (constructor;
            [simpl; intros Hin;
             repeat (destruct Hin as [Hin | Hin]; [discriminate Hin |]);
             exact Hin |]).
    constructor. }
  split.
  - intros field col Hin. unfold roor_sources in Hin. simpl in Hin.
    repeat (destruct Hin as [Hin | Hin];
            [injection Hin as <- <-; split;
             [reflexivity | intros Hc; simpl; apply row_get_no_key, Hc] |]).
    destruct Hin.
  - intros field Hin. simpl in Hin.
    repeat (destruct Hin as [<- | Hin]; [simpl; eauto |]).
    destruct Hin.
Qed.

Lemma roor_record_schema_witness :
  keys nameless_record = roor_schema
  /\ List.length (keys nameless_record) = 13%nat
  /\ NoDup (keys nameless_record)
  /\ (forall field col,
        In (field, col) roor_sources ->
        row_get nameless_record field VNone = row_get nameless_row col (VStr "")
        /\ (has_column (map fst nameless_row) col = false ->
            row_get nameless_record field VNone = VStr ""))
  /\ (forall field,
        In field ["Phone1"; "Phone2"; "Phone3"] ->
        exists p, row_get nameless_record field VNone = VStr p).
Proof.
  apply (roor_record_schema nameless_row ["5551234567"] nameless_record).
  reflexivity.
Defined.

(** Short of a phone column of the parcel table, the claim holds: the
    phone-column check of the validator accepts a column such as [Phone10],
    and when validation passes, the join returns and neither table has a
    column [Phone1] to [Phone7], the run returns, both phone totals are
    zero and both output tables are empty: the counting loop and the
    extractor read no other phone column. *)
Lemma phones_outside_1_to_7_ignored (ds lp merged : dataframe) :
  validate_columns ds lp = [] ->
  Merge.merge ds lp "Input Custom Field 1" "propertyID" = Ok merged ->
  (forall i, In i (range 1 7) -> has_column (columns ds) (phone_col i) = false) ->
  (forall i, In i (range 1 7) -> has_column (columns lp) (phone_col i) = false) ->
  (exists col, In col (columns ds) /\ is_phone_col col = true)
  /\ is_phone_col "Phone10" = true
  /\ process_files ds lp
     = Ok ([], [],
           {| directskip_records := len ds;
              landportal_records := len lp;
              total_merged := len merged;
              total_mobile_phones := 0;
              total_residential_phones := 0;
              roor_count := 0;
              readymode_count := 0 |}).
Proof.
  intros Hv Hm Hds Hlp.
  apply validate_columns_nil in Hv as (Hreq_ds & Hreq_lp & Hphone).
  split; [exact Hphone |]. split; [reflexivity |].
  unfold process_files. rewrite count_phones_eq, !occurrences_none by assumption.
  rewrite Hm. cbn [bind].
  rewrite get_phone_data_none.
  2: { intros i Hi. apply (merged_no_phone ds lp _ _ _ i Hm Hi); auto. }
  cbn [bind]. unfold Merge.enumerate.
  rewrite emit_loop_none.
  2: { unfold iterrows, len. rewrite length_map.
       apply merge_shape in Hm. subst merged. simpl. lia. }
  reflexivity.
Qed.

Lemma phones_outside_1_to_7_ignored_example :
  exists merged,
    Merge.merge phone10_contacts demo_parcels "Input Custom Field 1" "propertyID"
    = Ok merged
    /\ process_files phone10_contacts demo_parcels
       = Ok ([], [],
             {| directskip_records := 1;
                landportal_records := 1;
                total_merged := 1;
                total_mobile_phones := 0;
                total_residential_phones := 0;
                roor_count := 0;
                readymode_count := 0 |}).
Proof.
  eexists. split; [reflexivity |].
  apply (phones_outside_1_to_7_ignored phone10_contacts demo_parcels _
           eq_refl eq_refl).
  - intros i Hi. apply range_1_7 in Hi.
    repeat (destruct Hi as [-> | Hi]); try subst i; reflexivity.
  - intros i Hi. apply range_1_7 in Hi.
    repeat (destruct Hi as [-> | Hi]); try subst i; reflexivity.
Qed.

(** C10. The extractor is run on the joined rows, not on the rows of the
    contact table its docstring names: when the parcel table brings a
    [Phone1] and a [Phone1 Type] column of its own, a contact table whose
    only phone column is [Phone10] passes validation, its phone total is
    zero as the claim says, and yet the RooR table is not empty: it has a
    record whose [Phone1] is the number found in the parcel table. *)
Theorem parcel_phone_columns_are_read :
  validate_columns phone10_contacts phone_parcels = []
  /\ exists r st,
       process_files phone10_contacts phone_parcels = Ok ([r], [], st)
       /\ row_get r "Phone1" VNone = VStr "5550001111"
       /\ total_mobile_phones st = 0%nat
       /\ roor_count st = 1%nat.
Proof.
  split; [reflexivity |]. do 2 eexists. repeat split; vm_compute; reflexivity.
Qed.

(** * More of the code *)

(** ** [create_readymode_record], beyond the map field *)

Lemma create_readymode_record_unfold (row : series) (ps cols : list string) :
  create_readymode_record row ps cols =
  (slots <- for_each (range 0 4) (readymode_slot ps) [] ;;
   Ok (fold_left (fun record col => dict_set record col (row_get row col (VStr "")))
         cols
         (dict_set slots "Google Maps URL"
            (VStr (if present (row_get row "Latitude" (VStr ""))
                      && present (row_get row "Longitude" (VStr ""))
                   then maps_url (row_get row "Latitude" (VStr ""))
                                 (row_get row "Longitude" (VStr ""))
                   else ""))))).
Proof.
  unfold create_readymode_record.
  change (fun (record : record) (i : Z) => _) with (readymode_slot ps).
  destruct (for_each (range 0 4) (readymode_slot ps) []) as [slots | e];
    simpl; [| reflexivity].
  f_equal. f_equal. unfold present.
  destruct (row_get row "Latitude" (VStr "")) as [| | s | z | f | b];
    destruct (row_get row "Longitude" (VStr "")) as [| | s' | z' | f' | b'];
    simpl; try reflexivity;
    repeat match goal with
           | |- context [String.eqb ?x ""] => destruct (String.eqb x "")
           end; reflexivity.
Qed.

(** One turn of the loop, for a number that fits or a slot past the end of
    the list. *)
Lemma readymode_slot_fits (ps : list string) (d : record) (i : Z) :
  (forall s, nth_error ps (Z.to_nat i) = Some s -> fits53 s) ->
  readymode_slot ps d i
  = Ok (dict_set d ("Phone" ++ PyStr.of_int (i + 1))
                 (VStr (nth (Z.to_nat i) ps ""))).
Proof.
  intros H. unfold readymode_slot.
  destruct (Nat.ltb_spec (Z.to_nat i) (List.length ps)) as [Hlt | Hge].
  - destruct (H (nth (Z.to_nat i) ps "")) as (n & Hn & Hb).
    { apply nth_error_nth'. exact Hlt. }
    rewrite Hn, of_int_nonempty. simpl.
    rewrite (int_float_of_int _ Hb). reflexivity.
  - rewrite nth_overflow by lia. reflexivity.
Qed.

Lemma readymode_slots_fit (ps : list string) :
  (forall s, In s (firstn 4 ps) -> fits53 s) ->
  for_each (range 0 4) (readymode_slot ps) []
  = Ok [ ("Phone1", VStr (nth 0 ps "")); ("Phone2", VStr (nth 1 ps ""));
         ("Phone3", VStr (nth 2 ps "")); ("Phone4", VStr (nth 3 ps "")) ].
Proof.
  intros H.
  assert (Hi : forall i, (i < 4)%nat ->
                         forall s, nth_error ps i = Some s -> fits53 s).
  { intros i Hlt s Hs. apply H. apply (firstn_nth_error ps 4 i s Hlt Hs). }
  change (range 0 4) with [0; 1; 2; 3]. cbn [for_each].
  rewrite (readymode_slot_fits ps [] 0) by (apply (Hi 0%nat); lia).
  cbn [bind].
  rewrite (readymode_slot_fits ps _ 1) by (apply (Hi 1%nat); lia).
  cbn [bind].
  rewrite (readymode_slot_fits ps _ 2) by (apply (Hi 2%nat); lia).
  cbn [bind].
  rewrite (readymode_slot_fits ps _ 3) by (apply (Hi 3%nat); lia).
  reflexivity.
Qed.

Lemma readymode_slot_key (ps : list string) (d d' : record) (i : Z) :
  readymode_slot ps d i = Ok d' ->
  exists p, d' = dict_set d ("Phone" ++ PyStr.of_int (i + 1)) (VStr p).
Proof.
  unfold readymode_slot.
  destruct (Z.to_nat i <? List.length ps)%nat;
    [destruct (negb (String.eqb (nth (Z.to_nat i) ps "") "")) |].
  - intros H. apply bind_ok in H as (z & _ & H). injection H as <-. eauto.
  - intros H. injection H as <-. eauto.
  - intros H. injection H as <-. eauto.
Qed.

(** However the numbers read, the loop leaves the four phone keys, each
    with a string. *)
Lemma readymode_slots_shape (ps : list string) (slots : record) :
  for_each (range 0 4) (readymode_slot ps) [] = Ok slots ->
  exists p1 p2 p3 p4,
    slots = [ ("Phone1", VStr p1); ("Phone2", VStr p2);
              ("Phone3", VStr p3); ("Phone4", VStr p4) ].
Proof.
  change (range 0 4) with [0; 1; 2; 3]. cbn [for_each]. intros H.
  apply bind_ok in H as (d1 & H1 & H). apply readymode_slot_key in H1 as (p1 & ->).
  apply bind_ok in H as (d2 & H2 & H). apply readymode_slot_key in H2 as (p2 & ->).
  apply bind_ok in H as (d3 & H3 & H). apply readymode_slot_key in H3 as (p3 & ->).
  apply bind_ok in H as (d4 & H4 & H). apply readymode_slot_key in H4 as (p4 & ->).
  injection H as <-. exists p1, p2, p3, p4. reflexivity.
Qed.

Lemma keys_dict_set (d : record) (k : string) (v : value) :
  keys (dict_set d k v)
  = if has_column (keys d) k then keys d else (keys d ++ [k])%list.
Proof.
  unfold keys, has_column. induction d as [| [k' v'] d IH]; simpl; [reflexivity |].
  rewrite (String.eqb_sym k k').
  destruct (String.eqb k' k); simpl; [reflexivity |].
  rewrite IH. destruct (existsb (String.eqb k) (map fst d)); reflexivity.
Qed.

Lemma has_column_in (cols : list string) (col : string) :
  has_column cols col = true <-> In col cols.
Proof.
  unfold has_column. rewrite existsb_exists. split.
  - intros (c & Hin & Heq). apply String.eqb_eq in Heq. subst. exact Hin.
  - intros Hin. exists col. split; [exact Hin | apply String.eqb_refl].
Qed.

Lemma has_column_not_in (cols : list string) (col : string) :
  has_column cols col = false <-> ~ In col cols.
Proof.
  rewrite <- has_column_in. destruct (has_column cols col); split; congruence.
Qed.

(** The pass-through appends the parcel columns, in their order, when they
    are distinct and none of them is a key already. *)
Lemma keys_pass_through (row : series) (cols : list string) :
  NoDup cols ->
  forall d,
    (forall c, In c cols -> ~ In c (keys d)) ->
    keys (fold_left (fun record col => dict_set record col (row_get row col (VStr "")))
                    cols d)
    = (keys d ++ cols)%list.
Proof.
  induction 1 as [| c cols Hc _ IH]; intros d Hd; simpl.
  - rewrite app_nil_r; reflexivity.
  - rewrite IH.
    + rewrite keys_dict_set.
      replace (has_column (keys d) c) with false
        by (symmetry; apply has_column_not_in, Hd; left; reflexivity).
      rewrite <- app_assoc. reflexivity.
    + intros c' Hc'. rewrite keys_dict_set.
      replace (has_column (keys d) c) with false
        by (symmetry; apply has_column_not_in, Hd; left; reflexivity).
      intros Hin. apply in_app_or in Hin as [Hin | [-> | []]].
      * apply (Hd c'); [right; exact Hc' | exact Hin].
      * contradiction.
Qed.

(** X1. Without a parcel column named [Google Maps URL], the map field of
    a ReadyMode record is the link made of the latitude and the longitude
    as Python prints them when both are there (neither missing nor the
    empty string), and the empty string otherwise. *)
Theorem readymode_url_field (row : series) (ps cols : list string) (r : record) :
  has_column cols "Google Maps URL" = false ->
  create_readymode_record row ps cols = Ok r ->
  (present (row_get row "Latitude" (VStr ""))
   && present (row_get row "Longitude" (VStr "")) = true ->
   row_get r "Google Maps URL" VNone
   = VStr ("http://maps.google.com/maps?z=16&t=m&q="
           ++ py_str (row_get row "Latitude" (VStr "")) ++ ","
           ++ py_str (row_get row "Longitude" (VStr ""))))
  /\ (present (row_get row "Latitude" (VStr ""))
      && present (row_get row "Longitude" (VStr "")) = false ->
      row_get r "Google Maps URL" VNone = VStr "")
  /\ maps_url (VFloat (Fin false 3405 (-2))) (VFloat (Fin true 11825 (-2)))
     = "http://maps.google.com/maps?z=16&t=m&q=34.05,-118.25".
Proof.
  intros Hcol H. pose proof (readymode_url row ps cols r Hcol H) as Hurl.
  split; [| split; [| reflexivity]]; intros Hp; rewrite Hp in Hurl; exact Hurl.
Qed.

Lemma readymode_url_field_witness :
  row_get mapped_record "Google Maps URL" VNone
  = VStr "http://maps.google.com/maps?z=16&t=m&q=34.05,-118.25".
Proof.
  apply (proj1 (readymode_url_field mapped_row ["5559876543"]
                  ["propertyID"; "Latitude"; "Longitude"] mapped_record
                  eq_refl eq_refl)).
  reflexivity.
Defined.

(** X2. When the first four residential numbers fit and no parcel column
    is named like a phone slot, the projector returns a record whose
    [Phone1] to [Phone4] are the first four numbers in their order, the
    empty string filling the slots that are left. *)
Theorem readymode_phone_slots (row : series) (ps cols : list string) :
  (forall s, In s (firstn 4 ps) -> fits53 s) ->
  (forall k, In k ["Phone1"; "Phone2"; "Phone3"; "Phone4"] ->
             has_column cols k = false) ->
  exists r,
    create_readymode_record row ps cols = Ok r
    /\ row_get r "Phone1" VNone = VStr (nth 0 ps "")
    /\ row_get r "Phone2" VNone = VStr (nth 1 ps "")
    /\ row_get r "Phone3" VNone = VStr (nth 2 ps "")
    /\ row_get r "Phone4" VNone = VStr (nth 3 ps "").
Proof.
  intros Hfit Hcols.
  rewrite create_readymode_record_unfold, (readymode_slots_fit ps Hfit).
  cbn [bind]. eexists. split; [reflexivity |].
  repeat split;
    (rewrite pass_through_other by (apply Hcols; simpl; auto)); reflexivity.
Qed.

Lemma readymode_phone_slots_witness :
  exists r,
    create_readymode_record mapped_row ["5559876543"]
                            ["propertyID"; "Latitude"; "Longitude"] = Ok r
    /\ row_get r "Phone1" VNone = VStr "5559876543"
    /\ row_get r "Phone2" VNone = VStr ""
    /\ row_get r "Phone3" VNone = VStr ""
    /\ row_get r "Phone4" VNone = VStr "".
Proof.
  apply (readymode_phone_slots mapped_row ["5559876543"]
           ["propertyID"; "Latitude"; "Longitude"]).
  - simpl. intros s [<- | []].
    exists 5559876543. split; [reflexivity | vm_compute; discriminate].
  - simpl. intros k Hk.
    repeat (destruct Hk as [<- | Hk]; [reflexivity |]). destruct Hk.
Defined.

(** X3. A ReadyMode record starts with the keys [Phone1] to [Phone4] and
    [Google Maps URL]; when the parcel columns are distinct and none of
    them has one of these names, the record goes on with exactly the
    parcel columns, in their order. *)
Theorem readymode_record_schema (row : series) (ps cols : list string)
  (r : record) :
  create_readymode_record row ps cols = Ok r ->
  NoDup cols ->
  (forall c, In c cols -> ~ In c readymode_fixed) ->
  keys r = (readymode_fixed ++ cols)%list
  /\ List.length (keys r) = (5 + List.length cols)%nat.
Proof.
  intros H Hnd Hdis.
  rewrite create_readymode_record_unfold in H.
  apply bind_ok in H as (slots & Hslots & H). injection H as <-.
  apply readymode_slots_shape in Hslots as (p1 & p2 & p3 & p4 & ->).
  assert (E : keys (fold_left
                      (fun record col => dict_set record col (row_get row col (VStr "")))
                      cols
                      (dict_set [("Phone1", VStr p1); ("Phone2", VStr p2);
                                 ("Phone3", VStr p3); ("Phone4", VStr p4)]
                                "Google Maps URL"
                                (VStr (if present (row_get row "Latitude" (VStr ""))
                                          && present (row_get row "Longitude" (VStr ""))
                                       then maps_url (row_get row "Latitude" (VStr ""))
                                                     (row_get row "Longitude" (VStr ""))
                                       else ""))))
              = (readymode_fixed ++ cols)%list).
  { rewrite keys_pass_through; [reflexivity | exact Hnd |].
    intros c Hc. exact (Hdis c Hc). }
  split; [exact E |]. rewrite E, length_app. reflexivity.
Qed.

Lemma readymode_record_schema_witness :
  keys mapped_record
  = (readymode_fixed ++ ["propertyID"; "Latitude"; "Longitude"])%list
  /\ List.length (keys mapped_record)
     = (5 + List.length ["propertyID"; "Latitude"; "Longitude"])%nat.
Proof.
  apply (readymode_record_schema mapped_row ["5559876543"]
           ["propertyID"; "Latitude"; "Longitude"] mapped_record).
  - reflexivity.
  - repeat (constructor;
            [simpl; intros Hin;
             repeat (destruct Hin as [Hin | Hin]; [discriminate Hin |]);
             exact Hin |]).
    constructor.
  - simpl. intros c Hc Hin.
    repeat (destruct Hc as [<- | Hc];
            [repeat (destruct Hin as [Hin | Hin]; [discriminate Hin |]);
             exact Hin |]).
    exact Hc.
Defined.

(** X4. Every parcel column is a key of the ReadyMode record and holds what
    [row.get] returns for it, whatever the names of the columns: a parcel
    column named like a phone slot or like the map field takes the place
    of that field. *)
Theorem readymode_pass_through (row : series) (ps cols : list string)
  (r : record) (col : string) :
  create_readymode_record row ps cols = Ok r ->
  In col cols ->
  row_get r col VNone = row_get row col (VStr "")
  /\ In col (keys r).
Proof.
  intros H Hin. apply create_readymode_record_ok in H as (slots & ->).
  apply has_column_in in Hin.
  split; [apply (pass_through_column _ _ _ _ Hin) |].
  clear - Hin. apply has_column_in in Hin.
  revert Hin.
  generalize (dict_set slots "Google Maps URL"
                (VStr (if present (row_get row "Latitude" (VStr ""))
                          && present (row_get row "Longitude" (VStr ""))
                       then maps_url (row_get row "Latitude" (VStr ""))
                                     (row_get row "Longitude" (VStr ""))
                       else ""))) as d.
  induction cols as [| c cols IH]; intros d Hin; [destruct Hin |].
  simpl. destruct (in_dec string_dec col cols) as [Hc | Hc]; [apply IH, Hc |].
  destruct Hin as [-> | Hin]; [| contradiction].
  assert (G : forall cs d', In col (keys d') ->
              In col (keys (fold_left
                              (fun record c0 =>
                                 dict_set record c0 (row_get row c0 (VStr "")))
                              cs d'))).
  { induction cs as [| c0 cs IHcs]; intros d' Hd'; [exact Hd' |].
    simpl. apply IHcs. rewrite keys_dict_set.
    destruct (has_column (keys d') c0); [exact Hd' | apply in_or_app; auto]. }
  apply G. rewrite keys_dict_set.
  destruct (has_column (keys d) col) eqn:E.
  - apply has_column_in, E.
  - apply in_or_app. right. left. reflexivity.
Qed.

Lemma readymode_pass_through_witness :
  row_get mapped_record "Latitude" VNone
  = row_get mapped_row "Latitude" (VStr "")
  /\ In "Latitude" (keys mapped_record).
Proof.
  apply (readymode_pass_through mapped_row ["5559876543"]
           ["propertyID"; "Latitude"; "Longitude"] mapped_record "Latitude").
  - reflexivity.
  - simpl. auto.
Defined.

(** ** The projectors look at the head of the list only *)

Lemma roor_phone_firstn (ps : list string) (n i : nat) :
  (i < n)%nat -> roor_phone (firstn n ps) i = roor_phone ps i.
Proof.
  intros Hi. unfold roor_phone.
  rewrite nth_firstn, length_firstn.
  replace (i <? n)%nat with true by (symmetry; apply Nat.ltb_lt, Hi).
  replace (i <? Nat.min n (List.length ps))%nat with (i <? List.length ps)%nat;
    [reflexivity |].
  destruct (Nat.ltb_spec i (List.length ps));
    symmetry; [apply Nat.ltb_lt | apply Nat.ltb_ge]; lia.
Qed.

Lemma readymode_slot_firstn (ps : list string) (n : nat) (d : record) (i : Z) :
  (Z.to_nat i < n)%nat ->
  readymode_slot (firstn n ps) d i = readymode_slot ps d i.
Proof.
  intros Hi. unfold readymode_slot.
  rewrite nth_firstn, length_firstn.
  replace (Z.to_nat i <? n)%nat with true by (symmetry; apply Nat.ltb_lt, Hi).
  replace (Z.to_nat i <? Nat.min n (List.length ps))%nat
    with (Z.to_nat i <? List.length ps)%nat; [reflexivity |].
  destruct (Nat.ltb_spec (Z.to_nat i) (List.length ps));
    symmetry; [apply Nat.ltb_lt | apply Nat.ltb_ge]; lia.
Qed.

(** X5. The RooR projector reads the first three numbers of its list and
    the ReadyMode projector the first four: what follows changes neither
    the record nor whether the projector raises. *)
Theorem projectors_read_the_head (row : series) (ps cols : list string) :
  create_roor_record row ps = create_roor_record row (firstn 3 ps)
  /\ create_readymode_record row ps cols
     = create_readymode_record row (firstn 4 ps) cols.
Proof.
  split.
  - unfold create_roor_record. rewrite !roor_phone_firstn by lia. reflexivity.
  - rewrite !create_readymode_record_unfold.
    change (range 0 4) with [0; 1; 2; 3]. cbn [for_each].
    rewrite (readymode_slot_firstn ps 4 [] 0) by (simpl; lia).
    destruct (readymode_slot ps [] 0) as [d1 |]; [| reflexivity]. cbn [bind].
    rewrite (readymode_slot_firstn ps 4 d1 1) by (simpl; lia).
    destruct (readymode_slot ps d1 1) as [d2 |]; [| reflexivity]. cbn [bind].
    rewrite (readymode_slot_firstn ps 4 d2 2) by (simpl; lia).
    destruct (readymode_slot ps d2 2) as [d3 |]; [| reflexivity]. cbn [bind].
    rewrite (readymode_slot_firstn ps 4 d3 3) by (simpl; lia).
    reflexivity.
Qed.

(** ** The sizes of the outputs *)

Lemma concat_at_most_one {A : Type} (ls : list (list A)) :
  Forall (fun l => (List.length l <= 1)%nat) ls ->
  (List.length (List.concat ls) <= List.length ls)%nat.
Proof.
  induction 1 as [| l ls Hl _ IH]; simpl; [lia |].
  rewrite length_app. lia.
Qed.

Lemma row_outputs_sizes (cols : list string) (rows : list series)
  (outs : list (list record * list record)) :
  Forall2 (row_outputs cols) rows outs ->
  Forall (fun l => (List.length l <= 1)%nat) (map fst outs)
  /\ Forall (fun l => (List.length l <= 1)%nat) (map snd outs).
Proof.
  induction 1 as [| row o rows outs (ph & _ & H1 & H2) _ [IH1 IH2]]; simpl.
  - split; constructor.
  - split; constructor; try assumption; eapply emits_at_most_one; eassumption.
Qed.

(** X6. A run that returns gives no more RooR records and no more
    ReadyMode records than the join has rows, and the two record counts of
    the statistics are the lengths of the two tables returned. *)
Theorem outputs_bounded_by_join (ds lp : dataframe) (roor rm : list record)
  (st : stats) :
  process_files ds lp = Ok (roor, rm, st) ->
  (List.length roor <= total_merged st)%nat
  /\ (List.length rm <= total_merged st)%nat
  /\ roor_count st = List.length roor
  /\ readymode_count st = List.length rm.
Proof.
  intros H. apply process_files_ok in H as (merged & pd & _ & Hpd & Hloop & ->).
  apply get_phone_data_ok in Hpd.
  apply (emit_loop_ok (columns lp) _ _ Hpd [] ([], []) (roor, rm)) in Hloop
    as (outs & F & E1 & E2).
  simpl in E1, E2. subst roor rm. simpl.
  pose proof (row_outputs_sizes _ _ _ F) as [S1 S2].
  apply concat_at_most_one in S1, S2. rewrite length_map in S1, S2.
  apply Forall2_length in F. unfold len, iterrows in *.
  rewrite length_map in F. repeat split; lia.
Qed.

Lemma outputs_bounded_by_join_witness :
  (List.length (fst (fst demo_output)) <= total_merged (snd demo_output))%nat
  /\ (List.length (snd (fst demo_output)) <= total_merged (snd demo_output))%nat
  /\ roor_count (snd demo_output) = List.length (fst (fst demo_output))
  /\ readymode_count (snd demo_output) = List.length (snd (fst demo_output)).
Proof.
  apply (outputs_bounded_by_join demo_contacts demo_parcels
           (fst (fst demo_output)) (snd (fst demo_output)) (snd demo_output)).
  vm_compute. reflexivity.
Defined.

(** ** Missing key columns *)

Lemma validate_columns_reports (ds lp : dataframe) (col : string) :
  (In col directskip_required /\ has_column (columns ds) col = false ->
   In (directskip_missing col) (validate_columns ds lp))
  /\ (In col landportal_required /\ has_column (columns lp) col = false ->
      In (landportal_missing col) (validate_columns ds lp)).
Proof.
  rewrite validate_columns_eq. split; intros [Hin Hc].
  - apply in_or_app. left. apply in_map, filter_In.
    rewrite Hc. auto.
  - apply in_or_app. right. apply in_or_app. left. apply in_map, filter_In.
    rewrite Hc. auto.
Qed.

(** ** What a run can raise *)

Lemma for_each_raises_only {A S : Type} (P : exn -> Prop) (xs : list A)
  (body : S -> A -> result S) :
  (forall s x e, In x xs -> body s x = Raise e -> P e) ->
  forall s e, for_each xs body s = Raise e -> P e.
Proof.
  induction xs as [| x xs IH]; intros Hb s e H; simpl in H; [discriminate H |].
  destruct (body s x) as [s' |] eqn:E; simpl in H.
  - apply (IH (fun s x e Hin => Hb s x e (or_intror Hin)) s' e H).
  - injection H as <-. apply (Hb s x _ (or_introl eq_refl) E).
Qed.

Lemma py_int_raises (v : value) (e : exn) :
  notna v = true -> py_int v = Raise e -> coercion_error e.
Proof.
  unfold coercion_error. destruct v as [| | s | z | f | b]; simpl; try discriminate.
  - intros _. unfold PyStr.to_int.
    destruct (PyStr.signed_digits (PyStr.trim s));
      [destruct (PyStr.max_str_digits <? PyStr.digit_count (PyStr.trim s)) |];
      intros H; [injection H as <-; auto | discriminate H | injection H as <-; auto].
  - intros _. destruct f; simpl; intros H;
      [discriminate H | injection H as <-; auto].
Qed.

Lemma int_float_raises (s : string) (e : exn) :
  PyFloat.int_float s = Raise e -> coercion_error e.
Proof.
  unfold PyFloat.int_float, coercion_error.
  destruct (PyStr.signed_digits (PyStr.trim s)) as [z |];
    [destruct (PyFloat.round53 z) |]; intros H;
    [discriminate H | injection H as <-; auto ..].
Qed.

Lemma scan_phone_raises (row : series) (ph : phones) (i : Z) (e : exn) :
  scan_phone row ph i = Raise e -> coercion_error e.
Proof.
  rewrite scan_phone_eq.
  assert (Hn : forall kind, contributes kind row i = true ->
                            notna (phone_at row i) = true).
  { intros kind Hc. unfold contributes, present in Hc.
    apply andb_true_iff in Hc as [Hc _]. apply andb_true_iff in Hc. tauto. }
  destruct (contributes "mobile" row i) eqn:Cm;
    [| destruct (contributes "residential" row i) eqn:Cr].
  - destruct (py_int (phone_at row i)) eqn:E; simpl; intros H;
      [discriminate H | injection H as <-].
    apply (py_int_raises _ _ (Hn _ Cm) E).
  - destruct (py_int (phone_at row i)) eqn:E; simpl; intros H;
      [discriminate H | injection H as <-].
    apply (py_int_raises _ _ (Hn _ Cr) E).
  - discriminate.
Qed.

Lemma row_phones_raises_only (row : series) (e : exn) :
  row_phones row = Raise e -> coercion_error e.
Proof.
  unfold row_phones. apply for_each_raises_only.
  intros s x e' _. apply scan_phone_raises.
Qed.

Lemma get_phone_data_raises_only (df : dataframe) (e : exn) :
  get_phone_data df = Raise e -> coercion_error e.
Proof.
  unfold get_phone_data. apply for_each_raises_only.
  intros s row e' _ H.
  destruct (row_phones row) eqn:E; simpl in H;
    [discriminate H | injection H as <-].
  apply (row_phones_raises_only _ _ E).
Qed.

Lemma roor_phone_raises (ps : list string) (i : nat) (e : exn) :
  roor_phone ps i = Raise e -> coercion_error e.
Proof.
  unfold roor_phone.
  destruct ((i <? List.length ps)%nat && negb (String.eqb (nth i ps "") ""));
    [| discriminate].
  destruct (PyFloat.int_float (nth i ps "")) eqn:E; simpl; intros H;
    [discriminate H | injection H as <-].
  apply (int_float_raises _ _ E).
Qed.

Lemma create_roor_record_raises (row : series) (ps : list string) (e : exn) :
  create_roor_record row ps = Raise e -> coercion_error e.
Proof.
  unfold create_roor_record.
  destruct (roor_phone ps 0) eqn:E0; simpl;
    [| intros H; injection H as <-; apply (roor_phone_raises _ _ _ E0)].
  destruct (roor_phone ps 1) eqn:E1; simpl;
    [| intros H; injection H as <-; apply (roor_phone_raises _ _ _ E1)].
  destruct (roor_phone ps 2) eqn:E2; simpl;
    [discriminate | intros H; injection H as <-; apply (roor_phone_raises _ _ _ E2)].
Qed.

Lemma readymode_slot_raises (ps : list string) (d : record) (i : Z) (e : exn) :
  readymode_slot ps d i = Raise e -> coercion_error e.
Proof.
  unfold readymode_slot.
  destruct (Z.to_nat i <? List.length ps)%nat;
    [destruct (negb (String.eqb (nth (Z.to_nat i) ps "") "")) |];
    try discriminate.
  destruct (PyFloat.int_float (nth (Z.to_nat i) ps "")) eqn:E; simpl; intros H;
    [discriminate H | injection H as <-].
  apply (int_float_raises _ _ E).
Qed.

Lemma create_readymode_record_raises (row : series) (ps cols : list string)
  (e : exn) :
  create_readymode_record row ps cols = Raise e -> coercion_error e.
Proof.
  rewrite create_readymode_record_unfold.
  destruct (for_each (range 0 4) (readymode_slot ps) []) eqn:E; simpl;
    [discriminate | intros H; injection H as <-].
  revert E. apply for_each_raises_only.
  intros s x e' _. apply readymode_slot_raises.
Qed.

Lemma emit_row_raises (pd : list phones) (cols : list string)
  (out : list record * list record) (idx : nat) (row : series) (e : exn) :
  (idx < List.length pd)%nat ->
  emit_row pd cols out (idx, row) = Raise e -> coercion_error e.
Proof.
  intros Hidx. unfold emit_row. destruct out as [ro rmo].
  destruct (nth_error pd idx) as [ph |] eqn:En.
  2: { apply nth_error_None in En. lia. }
  destruct (mobile ph) as [| m ms] eqn:Em.
  - cbn [bind]. destruct (residential ph) as [| r rs] eqn:Er; [discriminate |].
    destruct (create_readymode_record row (r :: rs) cols) eqn:E; simpl;
      [discriminate | intros H; injection H as <-].
    apply (create_readymode_record_raises _ _ _ _ E).
  - destruct (create_roor_record row (m :: ms)) eqn:E; simpl.
    + destruct (residential ph) as [| r rs] eqn:Er; [discriminate |].
      destruct (create_readymode_record row (r :: rs) cols) eqn:E'; simpl;
        [discriminate | intros H; injection H as <-].
      apply (create_readymode_record_raises _ _ _ _ E').
    + intros H; injection H as <-. apply (create_roor_record_raises _ _ _ E).
Qed.

(** [phone_data] has an entry for every row of the join, so the loop over
    the joined rows never indexes past its end. *)
Lemma emit_loop_raises (pd : list phones) (cols : list string)
  (rows : list series) (e : exn) :
  List.length pd = List.length rows ->
  forall out,
    for_each (Merge.enumerate rows) (emit_row pd cols) out = Raise e ->
    coercion_error e.
Proof.
  intros Hlen out. apply for_each_raises_only.
  intros s [idx row] e' Hin.
  apply in_enumerate in Hin.
  apply emit_row_raises. rewrite Hlen. apply nth_error_Some. congruence.
Qed.

Lemma process_files_raises_only (ds lp : dataframe) (e : exn) :
  process_files ds lp = Raise e ->
  (e = KeyError
   /\ (has_column (columns ds) "Input Custom Field 1" = false
       \/ has_column (columns lp) "propertyID" = false))
  \/ coercion_error e.
Proof.
  unfold process_files. destruct (count_phones ds) as [tm tr].
  destruct (Merge.merge ds lp "Input Custom Field 1" "propertyID")
    as [merged |] eqn:Em; simpl.
  - destruct (get_phone_data merged) as [pd |] eqn:Epd; simpl.
    + destruct (for_each (Merge.enumerate (iterrows merged))
                         (emit_row pd (columns lp)) ([], [])) as [[ro rmo] |] eqn:El;
        simpl; [discriminate | intros H; injection H as <-].
      right. apply get_phone_data_ok, Forall2_length in Epd.
      apply (emit_loop_raises pd (columns lp) (iterrows merged) _
               (eq_sym Epd) _ El).
    + intros H; injection H as <-. right.
      apply (get_phone_data_raises_only _ _ Epd).
  - intros H; injection H as <-.
    apply merge_raises in Em as [[-> Hk] | [-> _]];
      [left; auto | right; left; reflexivity].
Qed.

(** X7. When the contact table has no join-key column, or the parcel table
    no [propertyID] column, [process_files] raises [KeyError] at the join,
    and the validator reports that very column; after a validation without
    error a run never raises [KeyError]. *)
Theorem missing_key_column (ds lp : dataframe) :
  (has_column (columns ds) "Input Custom Field 1" = false ->
   process_files ds lp = Raise KeyError
   /\ In (directskip_missing "Input Custom Field 1") (validate_columns ds lp))
  /\ (has_column (columns ds) "Input Custom Field 1" = true ->
      has_column (columns lp) "propertyID" = false ->
      process_files ds lp = Raise KeyError
      /\ In (landportal_missing "propertyID") (validate_columns ds lp))
  /\ (validate_columns ds lp = [] -> process_files ds lp <> Raise KeyError).
Proof.
  split; [| split].
  - intros H. split.
    + unfold process_files, Merge.merge. destruct (count_phones ds).
      rewrite H. reflexivity.
    + apply validate_columns_reports. split; [simpl; auto | exact H].
  - intros Hl H. split.
    + unfold process_files, Merge.merge. destruct (count_phones ds).
      rewrite Hl, H. reflexivity.
    + apply validate_columns_reports. split; [simpl; auto | exact H].
  - intros Hv Hr. apply validate_columns_nil in Hv as (Hds & Hlp & _).
    apply process_files_raises_only in Hr as [[_ [Hc | Hc]] | [Hc | Hc]];
      try discriminate Hc.
    + rewrite Hds in Hc by (simpl; auto). discriminate Hc.
    + rewrite Hlp in Hc by (simpl; auto). discriminate Hc.
Qed.

Lemma missing_key_column_witness :
  (process_files demo_parcels demo_parcels = Raise KeyError
   /\ In (directskip_missing "Input Custom Field 1")
         (validate_columns demo_parcels demo_parcels))
  /\ (process_files demo_contacts demo_contacts = Raise KeyError
      /\ In (landportal_missing "propertyID")
            (validate_columns demo_contacts demo_contacts))
  /\ process_files demo_contacts demo_parcels <> Raise KeyError.
Proof.
  split; [| split].
  - apply (proj1 (missing_key_column demo_parcels demo_parcels)). reflexivity.
  - apply (proj1 (proj2 (missing_key_column demo_contacts demo_contacts)));
      reflexivity.
  - apply (proj2 (proj2 (missing_key_column demo_contacts demo_parcels))).
    reflexivity.
Defined.

(** X8. A run raises nothing but [KeyError], and then a key column is
    missing, [ValueError], from the join or from a number that cannot be
    converted, or [OverflowError], from such a number: never [IndexError],
    the list of phones having an entry for every joined row, and never
    [TypeError], missing numbers being skipped before [int] is called. *)
Theorem run_raises_only (ds lp : dataframe) (e : exn) :
  process_files ds lp = Raise e ->
  (e = KeyError
   /\ (has_column (columns ds) "Input Custom Field 1" = false
       \/ has_column (columns lp) "propertyID" = false))
  \/ e = ValueError \/ e = OverflowError.
Proof. apply process_files_raises_only. Qed.

Lemma run_raises_only_witness :
  (ValueError = KeyError
   /\ (has_column (columns dashed_contacts) "Input Custom Field 1" = false
       \/ has_column (columns two_parcels) "propertyID" = false))
  \/ ValueError = ValueError \/ ValueError = OverflowError.
Proof.
  apply (run_raises_only dashed_contacts two_parcels ValueError). reflexivity.
Defined.

(** ** When a run returns *)

Lemma forall2_coerced_in (row : series) (idx : list Z) (l : list string)
  (s : string) :
  Forall2 (coerced row) idx l -> In s l ->
  exists i, In i idx /\ coerced row i s.
Proof.
  induction 1 as [| i t idx l Hc _ IH]; intros Hin; [destruct Hin |].
  destruct Hin as [-> | Hin].
  - exists i. split; [left; reflexivity | exact Hc].
  - destruct (IH Hin) as (j & Hj & Hcj). exists j. split; [right |]; assumption.
Qed.

(** The scan of a row returns, with numbers that fit, when every phone that
    counts has a number [int] accepts and that fits. *)
Lemma row_phones_fit (row : series) :
  (forall i, In i (range 1 7) ->
             contributes "mobile" row i || contributes "residential" row i = true ->
             exists n, py_int (phone_at row i) = Ok n /\ Z.abs n <= 2 ^ 53) ->
  exists ph,
    row_phones row = Ok ph
    /\ (forall s, In s (mobile ph) -> fits53 s)
    /\ (forall s, In s (residential ph) -> fits53 s).
Proof.
  intros H.
  destruct (scan_loop_total row (range 1 7)) with
    (ph := {| mobile := []; residential := [] |}) as [ph Hph].
  { apply Forall_forall. intros i Hi Hc. destruct (H i Hi Hc) as (n & Hn & _). eauto. }
  exists ph. split; [exact Hph |].
  apply row_phones_ok in Hph as [Fm Fr].
  assert (G : forall kind l,
             Forall2 (coerced row) (filter (contributes kind row) (range 1 7)) l ->
             (kind = "mobile" \/ kind = "residential") ->
             forall s, In s l -> fits53 s).
  { intros kind l F Hk s Hs.
    destruct (forall2_coerced_in _ _ _ _ F Hs) as (i & Hi & n & Hn & ->).
    apply filter_In in Hi as [Hi Hc].
    destruct (H i Hi) as (m & Hm & Hb).
    { destruct Hk as [-> | ->]; rewrite Hc; [reflexivity | apply orb_true_r]. }
    rewrite Hn in Hm. injection Hm as <-. exists n. auto. }
  split; [apply (G "mobile"); auto | apply (G "residential"); auto].
Qed.

Lemma create_readymode_record_returns (row : series) (ps cols : list string) :
  (forall s, In s (firstn 4 ps) -> fits53 s) ->
  exists r, create_readymode_record row ps cols = Ok r.
Proof.
  intros H. rewrite create_readymode_record_unfold, (readymode_slots_fit ps H).
  cbn [bind]. eauto.
Qed.

Lemma in_firstn {A : Type} (n : nat) (l : list A) (x : A) :
  In x (firstn n l) -> In x l.
Proof.
  revert n; induction l as [| y l IH]; intros n H.
  - destruct n; destruct H.
  - destruct n as [| n]; [destruct H |]. simpl in H.
    destruct H as [-> | H]; [left; reflexivity | right; apply (IH n H)].
Qed.

Lemma emit_row_returns (pd : list phones) (cols : list string)
  (out : list record * list record) (idx : nat) (row : series) (ph : phones) :
  nth_error pd idx = Some ph ->
  (forall s, In s (mobile ph) -> fits53 s) ->
  (forall s, In s (residential ph) -> fits53 s) ->
  exists out', emit_row pd cols out (idx, row) = Ok out'.
Proof.
  intros Hn Hm Hr. unfold emit_row. destruct out as [ro rmo]. rewrite Hn.
  assert (E1 : exists ro',
             match mobile ph with
             | [] => Ok ro
             | _ :: _ =>
                 roor_record <- create_roor_record row (mobile ph) ;;
                 Ok (ro ++ [roor_record])%list
             end = Ok ro').
  { destruct (mobile ph) as [| m ms] eqn:Em; [eauto |].
    rewrite create_roor_record_fits
      by (intros s Hs; apply Hm; try rewrite Em; apply (in_firstn 3), Hs).
    simpl. eauto. }
  destruct E1 as [ro' ->]. cbn [bind].
  destruct (residential ph) as [| r rs] eqn:Er; [simpl; eauto |].
  destruct (create_readymode_record_returns row (r :: rs) cols) as [rec ->].
  { intros s Hs. apply Hr. try rewrite Er. apply (in_firstn 4), Hs. }
  simpl. eauto.
Qed.

Lemma emit_loop_returns (cols : list string) (rows : list series)
  (pd : list phones) :
  Forall2 (fun row ph => (forall s, In s (mobile ph) -> fits53 s)
                         /\ (forall s, In s (residential ph) -> fits53 s))
          rows pd ->
  forall pre out,
    exists out',
      for_each (combine (seq (List.length pre) (List.length rows)) rows)
               (emit_row (pre ++ pd) cols) out = Ok out'.
Proof.
  induction 1 as [| row ph rows pd [Hm Hr] _ IH]; intros pre out; simpl; [eauto |].
  destruct (emit_row_returns (pre ++ ph :: pd) cols out (List.length pre) row ph)
    as [out1 ->]; try assumption.
  { rewrite nth_error_app2, Nat.sub_diag by lia. reflexivity. }
  cbn [bind].
  specialize (IH (pre ++ [ph])%list out1).
  rewrite <- app_assoc, length_app in IH. simpl in IH.
  rewrite Nat.add_1_r in IH. exact IH.
Qed.

(** X9. After a validation without error, and when the join accepts the
    two key columns and renames the shared labels without making a
    duplicate, a run returns its two tables and its statistics whenever,
    in every joined row, each phone of a kind that counts has a number
    [int] accepts and of magnitude at most [2^53]. *)
Theorem run_returns (ds lp : dataframe) :
  validate_columns ds lp = [] ->
  Merge.keys_accepted (Merge.column ds "Input Custom Field 1")
                      (Merge.column lp "propertyID") = true ->
  Merge.label_clash ds lp = false ->
  (forall merged row i,
     Merge.merge ds lp "Input Custom Field 1" "propertyID" = Ok merged ->
     In row (iterrows merged) -> In i (range 1 7) ->
     contributes "mobile" row i || contributes "residential" row i = true ->
     exists n, py_int (phone_at row i) = Ok n /\ Z.abs n <= 2 ^ 53) ->
  exists roor rm st, process_files ds lp = Ok (roor, rm, st).
Proof.
  intros Hv Hacc Hclash Hrows.
  apply validate_columns_nil in Hv as (Hds & Hlp & _).
  assert (Hl : has_column (columns ds) "Input Custom Field 1" = true)
    by (apply Hds; simpl; auto).
  assert (Hr : has_column (columns lp) "propertyID" = true)
    by (apply Hlp; simpl; auto).
  pose proof (merge_ok ds lp _ _ Hl Hr Hacc Hclash) as Hm.
  remember {| columns := (Merge.suffixed "_x" (columns lp) (columns ds)
                          ++ Merge.suffixed "_y" (columns ds) (columns lp))%list;
              rows := map (fun p => (nth (fst p) (rows ds) []
                                     ++ nth (snd p) (rows lp) [])%list)
                          (Merge.pairs (Merge.column ds "Input Custom Field 1")
                                       (Merge.column lp "propertyID")) |}
    as merged eqn:Emerged.
  assert (Hfit : Forall (fun row =>
                           exists ph,
                             row_phones row = Ok ph
                             /\ (forall s, In s (mobile ph) -> fits53 s)
                             /\ (forall s, In s (residential ph) -> fits53 s))
                        (iterrows merged)).
  { apply Forall_forall. intros row Hrow. apply row_phones_fit.
    intros i Hi Hc. apply (Hrows merged row i Hm Hrow Hi Hc). }
  destruct (get_phone_data_loop_total (iterrows merged)) with (acc := @nil phones)
    as [pd Hpd].
  { eapply Forall_impl; [| exact Hfit]. intros row (ph & Hph & _). eauto. }
  fold (get_phone_data merged) in Hpd.
  pose proof (get_phone_data_ok _ _ Hpd) as F.
  assert (F' : Forall2 (fun row ph =>
                          (forall s, In s (mobile ph) -> fits53 s)
                          /\ (forall s, In s (residential ph) -> fits53 s))
                       (iterrows merged) pd).
  { clear - F Hfit. induction F as [| row ph rows pd Hph _ IH]; [constructor |].
    inversion Hfit as [| ? ? (ph' & Hph' & Hm & Hr) Hrest]; subst.
    rewrite Hph in Hph'. injection Hph' as <-.
    constructor; [auto | apply IH, Hrest]. }
  destruct (emit_loop_returns (columns lp) _ _ F' [] ([], [])) as [[ro rmo] Hloop].
  simpl in Hloop.
  unfold process_files. destruct (count_phones ds) as [tm tr].
  rewrite Hm. cbn [bind]. rewrite Hpd. cbn [bind].
  unfold Merge.enumerate. rewrite Hloop. cbn [bind]. eauto.
Qed.

Lemma run_returns_witness :
  exists roor rm st, process_files demo_contacts demo_parcels = Ok (roor, rm, st).
Proof.
  apply (run_returns demo_contacts demo_parcels).
  - reflexivity.
  - reflexivity.
  - reflexivity.
  - intros merged row i Hm Hrow Hi Hc.
    vm_compute in Hm. injection Hm as <-.
    destruct Hrow as [<- | []].
    apply range_1_7 in Hi.
    destruct Hi as [-> | [-> | Hi]].
    + exists 5551234567. split; [reflexivity | vm_compute; discriminate].
    + exists 5559876543. split; [reflexivity | vm_compute; discriminate].
    + repeat (destruct Hi as [-> | Hi]); try subst i;
        vm_compute in Hc; discriminate Hc.
Defined.

(** ** A join without a match *)

Lemma pairs_none (lk rk : list value) :
  (forall a b, In a lk -> In b rk -> ~ joined_keys lk rk a b) ->
  Merge.pairs lk rk = [].
Proof.
  intros H. destruct (Merge.pairs lk rk) as [| [i j] l] eqn:E; [reflexivity |].
  assert (Hin : In (i, j) (Merge.pairs lk rk)) by (rewrite E; left; reflexivity).
  apply pairs_in in Hin as (a & b & Ha & Hb & Hk).
  apply nth_error_In in Ha, Hb. apply keys_match_joined in Hk.
  destruct (H a b Ha Hb Hk).
Qed.

(** X10. When both key columns are there, the join accepts them and the
    renaming of the shared labels makes no duplicate, and no contact key
    is the same key as a parcel key (one of the tables may have no row at
    all), a run returns two empty tables; the statistics still count the
    rows of both tables and the mobile and residential phones of every
    contact. *)
Theorem no_match_no_output (ds lp : dataframe) :
  has_column (columns ds) "Input Custom Field 1" = true ->
  has_column (columns lp) "propertyID" = true ->
  Merge.keys_accepted (Merge.column ds "Input Custom Field 1")
                      (Merge.column lp "propertyID") = true ->
  Merge.label_clash ds lp = false ->
  (forall a b,
     In a (Merge.column ds "Input Custom Field 1") ->
     In b (Merge.column lp "propertyID") ->
     ~ joined_keys (Merge.column ds "Input Custom Field 1")
                   (Merge.column lp "propertyID") a b) ->
  process_files ds lp =
  Ok ([], [],
      {| directskip_records := len ds;
         landportal_records := len lp;
         total_merged := 0;
         total_mobile_phones := occurrences "mobile" ds;
         total_residential_phones := occurrences "residential" ds;
         roor_count := 0;
         readymode_count := 0 |}).
Proof.
  intros Hl Hr Hacc Hclash Hk. unfold process_files.
  rewrite count_phones_eq, (merge_ok _ _ _ _ Hl Hr Hacc Hclash),
    (pairs_none _ _ Hk).
  reflexivity.
Qed.

Lemma no_match_no_output_witness :
  process_files demo_contacts second_parcel =
  Ok ([], [],
      {| directskip_records := 1;
         landportal_records := 1;
         total_merged := 0;
         total_mobile_phones := 1;
         total_residential_phones := 1;
         roor_count := 0;
         readymode_count := 0 |}).
Proof.
  apply (no_match_no_output demo_contacts second_parcel); [reflexivity .. |].
  intros a b Ha Hb. vm_compute in Ha, Hb.
  destruct Ha as [<- | []]. destruct Hb as [<- | []].
  intros H. compute in H. discriminate H.
Defined.

(** ** The extractor over a table *)

Lemma get_phone_data_loop_returns (rows : list series) (new : list phones) :
  Forall2 (fun row ph => row_phones row = Ok ph) rows new ->
  forall acc,
    for_each rows (fun phone_data row =>
                     ph <- row_phones row ;; Ok (phone_data ++ [ph])%list) acc
    = Ok (acc ++ new)%list.
Proof.
  induction 1 as [| row ph rows new Hph _ IH]; intros acc; simpl.
  - rewrite app_nil_r. reflexivity.
  - rewrite Hph. simpl. rewrite IH, <- app_assoc. reflexivity.
Qed.

Lemma get_phone_data_iff (df : dataframe) (pd : list phones) :
  get_phone_data df = Ok pd
  <-> Forall2 (fun row ph => row_phones row = Ok ph) (iterrows df) pd.
Proof.
  split; [apply get_phone_data_ok |].
  intros F. unfold get_phone_data.
  rewrite (get_phone_data_loop_returns _ _ F). reflexivity.
Qed.

(** X11. The extractor returns a list exactly when that list holds, row by
    row and in the order of the rows, what the scan of each row returns;
    it has then one entry per row. So one row whose scan raises is enough
    for the extractor to return nothing. *)
Theorem get_phone_data_rows (df : dataframe) (pd : list phones) :
  (get_phone_data df = Ok pd
   <-> Forall2 (fun row ph => row_phones row = Ok ph) (iterrows df) pd)
  /\ (get_phone_data df = Ok pd -> List.length pd = len df).
Proof.
  split; [apply get_phone_data_iff |].
  intros H. apply get_phone_data_iff, Forall2_length in H.
  unfold iterrows in H. rewrite length_map in H. unfold len. auto.
Qed.

(** ** The messages of the validator *)

Lemma append_quote_inj (c c' : string) : c ++ "'" = c' ++ "'" -> c = c'.
Proof.
  revert c'; induction c as [| a c IH]; intros [| a' c'] H; simpl in H.
  - reflexivity.
  - injection H as _ H. destruct c'; discriminate H.
  - injection H as _ H. destruct c; discriminate H.
  - injection H as -> H. f_equal. apply IH, H.
Qed.

Lemma directskip_missing_inj (c c' : string) :
  directskip_missing c = directskip_missing c' -> c = c'.
Proof.
  unfold directskip_missing. simpl. intros H. injection H as H.
  apply append_quote_inj, H.
Qed.

Lemma landportal_missing_inj (c c' : string) :
  landportal_missing c = landportal_missing c' -> c = c'.
Proof.
  unfold landportal_missing. simpl. intros H. injection H as H.
  apply append_quote_inj, H.
Qed.

Lemma messages_differ (c c' : string) :
  directskip_missing c <> landportal_missing c'
  /\ directskip_missing c <> no_phone_columns
  /\ landportal_missing c <> no_phone_columns.
Proof.
  unfold directskip_missing, landportal_missing, no_phone_columns.
  repeat split; simpl; intros H; discriminate H.
Qed.

Lemma required_nodup : NoDup directskip_required /\ NoDup landportal_required.
Proof.
  split; repeat constructor; simpl; intuition discriminate.
Qed.

Lemma distinct_messages (message : string -> string) (cols : list string) :
  (forall c c', message c = message c' -> c = c') ->
  NoDup cols -> NoDup (map message cols).
Proof.
  intros Hinj. induction 1 as [| c cols Hc _ IH]; simpl; constructor; [| exact IH].
  intros Hin. apply in_map_iff in Hin as (c' & Heq & Hin').
  apply Hinj in Heq. subst c'. exact (Hc Hin').
Qed.

(** X12. An error of the validator names a column only when that column is
    required and missing: the messages of two columns differ, those of the
    two tables differ, and none is the message about the phone columns. No
    error is reported twice and there are at most fifteen. *)
Theorem validator_errors_sound (ds lp : dataframe) :
  (forall col,
     In (directskip_missing col) (validate_columns ds lp)
     <-> In col directskip_required /\ has_column (columns ds) col = false)
  /\ (forall col,
        In (landportal_missing col) (validate_columns ds lp)
        <-> In col landportal_required /\ has_column (columns lp) col = false)
  /\ (In no_phone_columns (validate_columns ds lp)
      <-> existsb is_phone_col (columns ds) = false)
  /\ NoDup (validate_columns ds lp)
  /\ (List.length (validate_columns ds lp) <= 15)%nat.
Proof.
  rewrite validate_columns_eq.
  set (dm := filter (fun col => negb (has_column (columns ds) col)) directskip_required).
  set (lm := filter (fun col => negb (has_column (columns lp) col)) landportal_required).
  set (pm := if existsb is_phone_col (columns ds) then [] else [no_phone_columns]).
  assert (Hdm : forall col, In col dm
                            <-> In col directskip_required
                                /\ has_column (columns ds) col = false).
  { intros col. unfold dm. rewrite filter_In, negb_true_iff. tauto. }
  assert (Hlm : forall col, In col lm
                            <-> In col landportal_required
                                /\ has_column (columns lp) col = false).
  { intros col. unfold lm. rewrite filter_In, negb_true_iff. tauto. }
  assert (Hpm : forall m, In m pm
                          <-> m = no_phone_columns
                              /\ existsb is_phone_col (columns ds) = false).
  { intros m. unfold pm. destruct (existsb is_phone_col (columns ds)); simpl;
      intuition congruence. }
  assert (Din : forall col l, In (directskip_missing col) (map directskip_missing l)
                              <-> In col l).
  { intros col l. rewrite in_map_iff. split.
    - intros (c & Hc & Hin). apply directskip_missing_inj in Hc. subst c. exact Hin.
    - intros Hin. exists col. auto. }
  assert (Lin : forall col l, In (landportal_missing col) (map landportal_missing l)
                              <-> In col l).
  { intros col l. rewrite in_map_iff. split.
    - intros (c & Hc & Hin). apply landportal_missing_inj in Hc. subst c. exact Hin.
    - intros Hin. exists col. auto. }
  assert (DL : forall col l, ~ In (directskip_missing col) (map landportal_missing l)).
  { intros col l Hin. apply in_map_iff in Hin as (c & Hc & _).
    symmetry in Hc. apply (proj1 (messages_differ col c)), Hc. }
  assert (LD : forall col l, ~ In (landportal_missing col) (map directskip_missing l)).
  { intros col l Hin. apply in_map_iff in Hin as (c & Hc & _).
    apply (proj1 (messages_differ c col)), Hc. }
  assert (PD : forall l, ~ In no_phone_columns (map directskip_missing l)).
  { intros l Hin. apply in_map_iff in Hin as (c & Hc & _).
    apply (proj1 (proj2 (messages_differ c c))), Hc. }
  assert (PL : forall l, ~ In no_phone_columns (map landportal_missing l)).
  { intros l Hin. apply in_map_iff in Hin as (c & Hc & _).
    apply (proj2 (proj2 (messages_differ c c))), Hc. }
  split; [| split; [| split; [| split]]].
  - intros col. rewrite !in_app_iff, Din, Hdm, Hpm. split.
    + intros [H | [H | [H _]]]; [exact H | destruct (DL _ _ H) |].
      destruct (proj1 (proj2 (messages_differ col col)) H).
    + auto.
  - intros col. rewrite !in_app_iff, Lin, Hlm, Hpm. split.
    + intros [H | [H | [H _]]]; [destruct (LD _ _ H) | exact H |].
      destruct (proj2 (proj2 (messages_differ col col)) H).
    + auto.
  - rewrite !in_app_iff, Hpm. split.
    + intros [H | [H | [_ H]]]; [destruct (PD _ H) | destruct (PL _ H) | exact H].
    + auto.
  - destruct required_nodup as [N1 N2].
    assert (Ndm : NoDup (map directskip_missing dm)).
    { apply distinct_messages;
        [apply directskip_missing_inj | apply NoDup_filter, N1]. }
    assert (Nlm : NoDup (map landportal_missing lm)).
    { apply distinct_messages;
        [apply landportal_missing_inj | apply NoDup_filter, N2]. }
    assert (Npm : NoDup pm).
    { unfold pm. destruct (existsb is_phone_col (columns ds)); repeat constructor.
      intros []. }
    apply NoDup_app; [exact Ndm | |].
    + apply NoDup_app; [exact Nlm | exact Npm |].
      intros m Hm Hp. apply Hpm in Hp as [-> _]. apply (PL _ Hm).
    + intros m Hm Hin. apply in_map_iff in Hm as (c & <- & _).
      apply in_app_iff in Hin as [Hin | Hin]; [apply (DL _ _ Hin) |].
      apply Hpm in Hin as [Hin _].
      apply (proj1 (proj2 (messages_differ c c))), Hin.
  - rewrite !length_app, !length_map.
    pose proof (filter_length_le (fun col => negb (has_column (columns ds) col))
                                 directskip_required) as L1.
    pose proof (filter_length_le (fun col => negb (has_column (columns lp) col))
                                 landportal_required) as L2.
    fold dm in L1. fold lm in L2.
    change (List.length directskip_required) with 3%nat in L1.
    change (List.length landportal_required) with 11%nat in L2.
    assert (L3 : (List.length pm <= 1)%nat)
      by (unfold pm; destruct (existsb is_phone_col (columns ds)); simpl; lia).
    lia.
Qed.

(** ** What a joined row reads *)

Lemma suffixed_not_phone_type (c sfx : string) (i : Z) :
  sfx = "_x" \/ sfx = "_y" -> In i (range 1 7) ->
  String.eqb (c ++ sfx) (phone_type_col i) = false.
Proof.
  intros Hs Hi. apply String.eqb_neq. intros H.
  apply range_1_7 in Hi.
  destruct Hs as [-> | ->];
    repeat (destruct Hi as [-> | Hi]); try subst i;
    vm_compute phone_type_col in H;
    repeat (destruct c as [| ? c]; simpl in H; try discriminate H).
Qed.

(** Renaming the shared labels leaves a label alone that is not shared and
    is no renamed label. *)
Lemma row_get_suffixed (sfx : string) (other cols : list string)
  (vals : list value) (t : string) (d : value) :
  (forall c, String.eqb (c ++ sfx) t = false) ->
  has_column other t = false ->
  row_get (combine (Merge.suffixed sfx other cols) vals) t d
  = row_get (combine cols vals) t d.
Proof.
  intros Hs Ht. unfold Merge.suffixed.
  revert vals; induction cols as [| c cols IH]; intros vals; [reflexivity |].
  destruct vals as [| v vals]; [reflexivity |]. cbn [map combine row_get].
  rewrite IH. destruct (has_column other c) eqn:Hc; [| reflexivity].
  rewrite Hs. destruct (String.eqb c t) eqn:E; [| reflexivity].
  apply String.eqb_eq in E. subst c. congruence.
Qed.

Lemma suffixed_absent (sfx : string) (other cols : list string) (t : string) :
  (forall c, String.eqb (c ++ sfx) t = false) ->
  has_column cols t = false ->
  has_column (Merge.suffixed sfx other cols) t = false.
Proof.
  intros Hs. unfold has_column, Merge.suffixed.
  induction cols as [| c cols IH]; cbn [map existsb]; [reflexivity |].
  intros H. apply orb_false_iff in H as [Hc Hcols].
  rewrite (IH Hcols), orb_false_r.
  destruct (has_column other c); [| exact Hc].
  rewrite String.eqb_sym. apply Hs.
Qed.

(** A shared label is renamed wherever it stands. *)
Lemma suffixed_shared (sfx : string) (other cols : list string) (t : string) :
  (forall c, String.eqb (c ++ sfx) t = false) ->
  has_column other t = true ->
  has_column (Merge.suffixed sfx other cols) t = false.
Proof.
  intros Hs Ht. unfold has_column at 1. unfold Merge.suffixed.
  induction cols as [| c cols IH]; cbn [map existsb]; [reflexivity |].
  rewrite IH, orb_false_r.
  destruct (has_column other c) eqn:Hc.
  - rewrite String.eqb_sym. apply Hs.
  - destruct (String.eqb t c) eqn:E; [| reflexivity].
    apply String.eqb_eq in E. subst c. congruence.
Qed.

Lemma suffixed_disjoint (sfx : string) (other cols : list string) :
  (forall c, In c cols -> has_column other c = false) ->
  Merge.suffixed sfx other cols = cols.
Proof.
  intros H. unfold Merge.suffixed. induction cols as [| c cols IH]; [reflexivity |].
  cbn [map]. rewrite (H c (or_introl eq_refl)), IH; [reflexivity |].
  intros c' Hc'. apply H. right. exact Hc'.
Qed.

(** A row made of two parts reads a label in the first part when that part
    has it, and in the second otherwise. *)
Lemma row_get_app (cols more : list string) (vals rest : list value)
  (t : string) (d : value) :
  List.length vals = List.length cols ->
  row_get (combine (cols ++ more) (vals ++ rest)) t d
  = if has_column cols t then row_get (combine cols vals) t d
    else row_get (combine more rest) t d.
Proof.
  revert vals; induction cols as [| c cols IH]; intros vals Hlen.
  - destruct vals; [reflexivity | discriminate Hlen].
  - destruct vals as [| v vals]; [discriminate Hlen |].
    injection Hlen as Hlen.
    change (row_get (combine ((c :: cols) ++ more) ((v :: vals) ++ rest)) t d)
      with (if String.eqb c t then v
            else row_get (combine (cols ++ more) (vals ++ rest)) t d).
    change (row_get (combine (c :: cols) (v :: vals)) t d)
      with (if String.eqb c t then v else row_get (combine cols vals) t d).
    change (has_column (c :: cols) t) with (String.eqb t c || has_column cols t).
    rewrite (String.eqb_sym t c).
    destruct (String.eqb c t); [reflexivity |]. apply IH, Hlen.
Qed.

(** In a joined row, a label the parcel table does not carry reads the cell
    of the contact row. *)
Lemma joined_row_get_contact (lcols rcols : list string) (lrow rrow : list value)
  (t : string) (d : value) :
  unsuffixed t ->
  has_column rcols t = false ->
  List.length lrow = List.length lcols ->
  row_get (combine (Merge.suffixed "_x" rcols lcols
                    ++ Merge.suffixed "_y" lcols rcols) (lrow ++ rrow)) t d
  = row_get (combine lcols lrow) t d.
Proof.
  intros Hu Hr Hlen.
  assert (Hx : forall c, String.eqb (c ++ "_x") t = false) by (intros c; apply Hu).
  assert (Hy : forall c, String.eqb (c ++ "_y") t = false) by (intros c; apply Hu).
  rewrite row_get_app by (unfold Merge.suffixed; rewrite length_map; exact Hlen).
  rewrite (row_get_suffixed _ _ _ _ _ _ Hx Hr).
  destruct (has_column (Merge.suffixed "_x" rcols lcols) t) eqn:E; [reflexivity |].
  rewrite row_get_absent by (apply suffixed_absent; assumption).
  destruct (has_column lcols t) eqn:El.
  - pose proof (row_get_suffixed "_x" rcols lcols (map (fun _ => VNone) lcols) t
                                 VNaN Hx Hr) as G.
    rewrite (row_get_absent _ _ _ _ E) in G.
    clear - G El. exfalso. revert G.
    induction lcols as [| c lcols IH]; [discriminate El |].
    cbn [map combine row_get]. cbn [has_column existsb] in El.
    rewrite (String.eqb_sym t c) in El.
    destruct (String.eqb c t); [discriminate | apply IH, El].
  - symmetry. apply row_get_absent, El.
Qed.

Lemma for_each_same {A S : Type} (xs : list A) (f g : S -> A -> result S) :
  (forall x s, In x xs -> f s x = g s x) ->
  forall s, for_each xs f s = for_each xs g s.
Proof.
  induction xs as [| x xs IH]; intros H s; [reflexivity |]. simpl.
  rewrite (H x s (or_introl eq_refl)).
  destruct (g s x) as [s' | e]; [| reflexivity]. simpl.
  apply IH. intros y s0 Hy. apply H. right. exact Hy.
Qed.

(** The scan depends on the row through its phone labels only. *)
Lemma row_phones_same (row row' : series) :
  (forall i, In i (range 1 7) ->
             row_get row (phone_col i) VNone = row_get row' (phone_col i) VNone
             /\ row_get row (phone_type_col i) (VStr "")
                = row_get row' (phone_type_col i) (VStr "")) ->
  row_phones row = row_phones row'.
Proof.
  intros H. unfold row_phones. apply for_each_same.
  intros i ph Hi. destruct (H i Hi) as [H1 H2].
  unfold scan_phone. rewrite H1, H2. reflexivity.
Qed.

Lemma phone_labels_unsuffixed (i : Z) :
  In i (range 1 7) -> unsuffixed (phone_col i) /\ unsuffixed (phone_type_col i).
Proof.
  intros Hi. split; intros c; split;
    first [apply suffixed_not_phone | apply suffixed_not_phone_type]; auto.
Qed.

Lemma forall2_map_left {A B C : Type} (f : A -> B) (P : B -> C -> Prop)
  (Q : A -> C -> Prop) (l : list A) :
  (forall x y, In x l -> (P (f x) y <-> Q x y)) ->
  forall l', Forall2 P (map f l) l' <-> Forall2 Q l l'.
Proof.
  induction l as [| x l IH]; intros H l'; simpl.
  - split; intros F; inversion F; constructor.
  - assert (IH' : forall l', Forall2 P (map f l) l' <-> Forall2 Q l l')
      by (apply IH; intros x' y Hx'; apply H; right; exact Hx').
    split; intros F; inversion F as [| ? y ? ys Hxy Hrest]; subst; constructor.
    + apply (H x y (or_introl eq_refl)), Hxy.
    + apply IH', Hrest.
    + apply (H x y (or_introl eq_refl)), Hxy.
    + apply IH', Hrest.
Qed.

(** The contact row of a pair of the join. *)
Lemma pair_contact_row (ds : dataframe) (rk : list value) (key : string)
  (p : nat * nat) :
  In p (Merge.pairs (Merge.column ds key) rk) ->
  exists cells,
    nth_error (rows ds) (fst p) = Some cells
    /\ nth (fst p) (rows ds) [] = cells
    /\ nth_error (iterrows ds) (fst p) = Some (combine (columns ds) cells).
Proof.
  destruct p as [i j]. intros Hin.
  apply pairs_in in Hin as (a & b & Ha & _ & _). simpl.
  assert (Hlt : (i < List.length (rows ds))%nat).
  { assert (Hs : nth_error (Merge.column ds key) i <> None) by congruence.
    apply nth_error_Some in Hs. unfold Merge.column, iterrows in Hs.
    rewrite !length_map in Hs. exact Hs. }
  destruct (nth_error (rows ds) i) as [cells |] eqn:E.
  - exists cells. split; [reflexivity |]. split.
    + apply nth_error_nth, E.
    + unfold iterrows. apply map_nth_error, E.
  - apply nth_error_None in E. lia.
Qed.

(** X13. When no parcel column is named [Phone1] to [Phone7] or
    [Phone1 Type] to [Phone7 Type], the extractor finds in a joined row the
    phones of its contact row: run over the join, it returns a list exactly
    when that list holds, pair by pair of the join, what the scan of the
    contact row of the pair returns. *)
Theorem joined_phones_are_contact_phones (ds lp merged : dataframe)
  (pd : list phones) :
  Merge.merge ds lp "Input Custom Field 1" "propertyID" = Ok merged ->
  rectangular ds ->
  (forall i, In i (range 1 7) ->
             has_column (columns lp) (phone_col i) = false
             /\ has_column (columns lp) (phone_type_col i) = false) ->
  get_phone_data merged = Ok pd
  <-> Forall2 (fun p ph => exists row,
                   nth_error (iterrows ds) (fst p) = Some row
                   /\ row_phones row = Ok ph)
              (Merge.pairs (Merge.column ds "Input Custom Field 1")
                           (Merge.column lp "propertyID"))
              pd.
Proof.
  intros Hm Hrect Hlp.
  pose proof (merge_inv _ _ _ _ _ Hm) as [Hlo Hro].
  apply merge_shape in Hm. subst merged.
  rewrite get_phone_data_iff.
  unfold iterrows at 1. cbn [columns rows]. rewrite map_map.
  apply forall2_map_left. intros p ph Hp.
  destruct (pair_contact_row _ _ _ _ Hp) as (cells & Hn & Hnth & Hrow).
  assert (Hlen : List.length cells = List.length (columns ds)).
  { apply nth_error_In in Hn. unfold rectangular in Hrect.
    rewrite Forall_forall in Hrect. apply Hrect, Hn. }
  rewrite Hnth.
  rewrite (row_phones_same _ (combine (columns ds) cells)).
  - split.
    + intros H. eauto.
    + intros (row & Hr & H). rewrite Hrow in Hr. injection Hr as <-. exact H.
  - intros i Hi. destruct (Hlp i Hi) as [H1 H2].
    destruct (phone_labels_unsuffixed i Hi) as [U1 U2].
    split; apply joined_row_get_contact; assumption.
Qed.

Lemma joined_phones_are_contact_phones_witness :
  Forall2 (fun p ph => exists row,
               nth_error (iterrows demo_contacts) (fst p) = Some row
               /\ row_phones row = Ok ph)
          (Merge.pairs (Merge.column demo_contacts "Input Custom Field 1")
                       (Merge.column demo_parcels "propertyID"))
          [ {| mobile := ["5551234567"]; residential := ["5559876543"] |} ].
Proof.
  refine (proj1 (joined_phones_are_contact_phones demo_contacts demo_parcels
                   _ _ eq_refl _ _) _).
  - repeat constructor.
  - intros i Hi. apply range_1_7 in Hi.
    repeat (destruct Hi as [-> | Hi]); try subst i; split; reflexivity.
  - reflexivity.
Defined.

(** ** Labels that both tables carry *)

(** X14. A label that both tables carry, and that ends neither in [_x] nor
    in [_y], is no column of the join, which renamed it on both sides: a
    joined row reads the default there, so the ReadyMode record holds the
    empty string under that parcel column, not the cell of the parcel. *)
Theorem shared_column_is_emptied (ds lp merged : dataframe) (t : string) :
  Merge.merge ds lp "Input Custom Field 1" "propertyID" = Ok merged ->
  has_column (columns ds) t = true ->
  has_column (columns lp) t = true ->
  unsuffixed t ->
  has_column (columns merged) t = false
  /\ (forall row,
        In row (iterrows merged) ->
        (forall d, row_get row t d = d)
        /\ (forall ps r,
              create_readymode_record row ps (columns lp) = Ok r ->
              row_get r t VNone = VStr "")).
Proof.
  intros Hm Hl Hr Hu.
  pose proof (merge_inv _ _ _ _ _ Hm) as [Hlo Hro].
  apply merge_shape in Hm. subst merged.
  assert (Habs : has_column (Merge.suffixed "_x" (columns lp) (columns ds)
                             ++ Merge.suffixed "_y" (columns ds) (columns lp)) t
                 = false).
  { rewrite has_column_app, !suffixed_shared; auto; intros c; apply Hu. }
  split; [exact Habs |].
  intros row Hrow. unfold iterrows in Hrow. cbn [columns rows] in Hrow.
  apply in_map_iff in Hrow as (cells & <- & _).
  assert (Hd : forall d,
             row_get (combine (Merge.suffixed "_x" (columns lp) (columns ds)
                               ++ Merge.suffixed "_y" (columns ds) (columns lp))
                              cells) t d = d)
    by (intros d; apply row_get_absent, Habs).
  split; [exact Hd |].
  intros ps r Hrec. apply create_readymode_record_ok in Hrec as (slots & ->).
  rewrite (pass_through_column _ _ _ _ Hr). apply Hd.
Qed.

Lemma shared_column_is_emptied_witness :
  exists merged,
    Merge.merge apn_contacts demo_parcels "Input Custom Field 1" "propertyID"
    = Ok merged
    /\ has_column (columns merged) "APN" = false
    /\ (forall row,
          In row (iterrows merged) ->
          (forall d, row_get row "APN" d = d)
          /\ (forall ps r,
                create_readymode_record row ps (columns demo_parcels) = Ok r ->
                row_get r "APN" VNone = VStr "")).
Proof.
  eexists. split; [reflexivity |].
  apply (shared_column_is_emptied apn_contacts demo_parcels _ "APN");
    [reflexivity .. |].
  intros c; split; apply String.eqb_neq; intros H;
    repeat (destruct c as [| ? c]; simpl in H; try discriminate H).
Defined.

(** ** Tables without a common label *)

Lemma pair_parcel_row (lk : list value) (lp : dataframe) (key : string)
  (p : nat * nat) :
  In p (Merge.pairs lk (Merge.column lp key)) ->
  exists cells,
    nth_error (rows lp) (snd p) = Some cells
    /\ nth (snd p) (rows lp) [] = cells
    /\ nth_error (iterrows lp) (snd p) = Some (combine (columns lp) cells).
Proof.
  destruct p as [i j]. intros Hin.
  apply pairs_in in Hin as (a & b & _ & Hb & _). simpl.
  assert (Hlt : (j < List.length (rows lp))%nat).
  { assert (Hs : nth_error (Merge.column lp key) j <> None) by congruence.
    apply nth_error_Some in Hs. unfold Merge.column, iterrows in Hs.
    rewrite !length_map in Hs. exact Hs. }
  destruct (nth_error (rows lp) j) as [cells |] eqn:E.
  - exists cells. split; [reflexivity |]. split.
    + apply nth_error_nth, E.
    + unfold iterrows. apply map_nth_error, E.
  - apply nth_error_None in E. lia.
Qed.

Lemma forall2_map_right {A B : Type} (f : A -> B) (Q : A -> B -> Prop)
  (l : list A) :
  (forall x, In x l -> Q x (f x)) -> Forall2 Q l (map f l).
Proof.
  induction l as [| x l IH]; intros H; simpl; constructor.
  - apply H. left. reflexivity.
  - apply IH. intros y Hy. apply H. right. exact Hy.
Qed.

Lemma roor_field_source (row : series) (ps : list string) (r : record)
  (field col : string) :
  create_roor_record row ps = Ok r ->
  In (field, col) roor_sources ->
  row_get r field VNone = row_get row col (VStr "").
Proof.
  intros H Hin. apply create_roor_record_shape in H as (p1 & p2 & p3 & ->).
  unfold roor_sources in Hin. simpl in Hin.
  repeat (destruct Hin as [Hin | Hin]; [injection Hin as <- <-; reflexivity |]).
  destruct Hin.
Qed.

(** X15. When the two tables have no label in common, the join has the
    contact columns followed by the parcel columns, and the row of a pair
    reads a label in the contact row of the pair when the contact table has
    it and in the parcel row otherwise. So each copied field of a RooR
    record comes from the table that has its column, and every parcel
    column of a ReadyMode record holds the cell of the parcel row. *)
Theorem joined_row_reads_both (ds lp merged : dataframe) :
  Merge.merge ds lp "Input Custom Field 1" "propertyID" = Ok merged ->
  rectangular ds ->
  (forall c, In c (columns ds) -> has_column (columns lp) c = false) ->
  columns merged = (columns ds ++ columns lp)%list
  /\ Forall2
       (fun p row =>
          exists contact parcel,
            nth_error (iterrows ds) (fst p) = Some contact
            /\ nth_error (iterrows lp) (snd p) = Some parcel
            /\ (forall t d,
                  row_get row t d
                  = if has_column (columns ds) t then row_get contact t d
                    else row_get parcel t d)
            /\ (forall ps r field col,
                  create_roor_record row ps = Ok r ->
                  In (field, col) roor_sources ->
                  row_get r field VNone
                  = if has_column (columns ds) col
                    then row_get contact col (VStr "")
                    else row_get parcel col (VStr ""))
            /\ (forall ps r col,
                  create_readymode_record row ps (columns lp) = Ok r ->
                  In col (columns lp) ->
                  row_get r col VNone = row_get parcel col (VStr "")))
       (Merge.pairs (Merge.column ds "Input Custom Field 1")
                    (Merge.column lp "propertyID"))
       (iterrows merged).
Proof.
  intros Hm Hrect Hdis.
  pose proof (merge_inv _ _ _ _ _ Hm) as [Hlo Hro].
  apply merge_shape in Hm. subst merged.
  assert (Hdis' : forall c, In c (columns lp) -> has_column (columns ds) c = false).
  { intros c Hc. destruct (has_column (columns ds) c) eqn:E; [| reflexivity].
    apply has_column_in in E. apply Hdis in E.
    apply has_column_not_in in E. contradiction. }
  cbn [columns].
  rewrite (suffixed_disjoint "_x" _ _ Hdis), (suffixed_disjoint "_y" _ _ Hdis').
  split; [reflexivity |].
  unfold iterrows at 3. cbn [columns rows]. rewrite map_map.
  apply forall2_map_right. intros p Hp.
  destruct (pair_contact_row _ _ _ _ Hp) as (lcells & Hn & -> & Hrow).
  destruct (pair_parcel_row _ _ _ _ Hp) as (rcells & _ & -> & Hrow').
  assert (Hlen : List.length lcells = List.length (columns ds)).
  { apply nth_error_In in Hn. unfold rectangular in Hrect.
    rewrite Forall_forall in Hrect. apply Hrect, Hn. }
  exists (combine (columns ds) lcells), (combine (columns lp) rcells).
  split; [exact Hrow |]. split; [exact Hrow' |].
  assert (Hread : forall t d,
             row_get (combine (columns ds ++ columns lp) (lcells ++ rcells)) t d
             = if has_column (columns ds) t
               then row_get (combine (columns ds) lcells) t d
               else row_get (combine (columns lp) rcells) t d)
    by (intros t d; apply row_get_app, Hlen).
  split; [exact Hread |]. split.
  - intros ps r field col Hrec Hin.
    rewrite (roor_field_source _ _ _ _ _ Hrec Hin). apply Hread.
  - intros ps r col Hrec Hin.
    apply create_readymode_record_ok in Hrec as (slots & ->).
    rewrite (pass_through_column _ _ _ _ (proj2 (has_column_in _ _) Hin)).
    rewrite Hread, (Hdis' col Hin). reflexivity.
Qed.

Lemma joined_row_reads_both_witness :
  exists merged,
    Merge.merge demo_contacts demo_parcels "Input Custom Field 1" "propertyID"
    = Ok merged
    /\ columns merged = (columns demo_contacts ++ columns demo_parcels)%list
    /\ List.length (iterrows merged) = 1%nat.
Proof.
  eexists. split; [reflexivity |].
  destruct (joined_row_reads_both demo_contacts demo_parcels _ eq_refl) as [Hc F].
  - repeat constructor.
  - intros c Hc. simpl in Hc.
    repeat (destruct Hc as [<- | Hc]; [reflexivity |]). destruct Hc.
  - split; [exact Hc |]. apply Forall2_length in F. rewrite <- F. reflexivity.
Defined.

(** ** What [int] makes of a phone cell *)

Lemma digits_of_shape (s : string) :
  forall prev d,
    PyStr.digits_of prev s = Some d ->
    PyStr.all_chars int_char s = true /\ (prev = false -> s <> "").
Proof.
  induction s as [| c s IH]; intros prev d H; simpl in H.
  - destruct prev; [| discriminate H]. split; [reflexivity | discriminate].
  - unfold int_char. cbn [PyStr.all_chars].
    destruct (PyStr.is_dec_digit c) eqn:Ed.
    + destruct (PyStr.digits_of true s) as [d' |] eqn:E; [| discriminate H].
      destruct (IH _ _ E) as [Hall _]. split; [exact Hall | discriminate].
    + destruct (Ascii.eqb c "_") eqn:Eu; [| discriminate H].
      destruct prev; [| discriminate H]. simpl in H.
      destruct s as [| c' s']; [discriminate H |].
      destruct (IH _ _ H) as [Hall _]. split; [exact Hall | discriminate].
Qed.

Lemma signed_digits_cases (c : ascii) (t : string) :
  PyStr.signed_digits (String c t)
  = let unsigned (neg : bool) (u : string) :=
      match PyStr.digits_of false u with
      | Some d =>
          match NilZero.uint_of_string d with
          | Some n => Some (if neg then - Z.of_uint n else Z.of_uint n)
          | None => None
          end
      | None => None
      end in
    if Ascii.eqb c "-" then unsigned true t
    else if Ascii.eqb c "+" then unsigned false t
    else unsigned false (String c t).
Proof. each_char c; reflexivity. Qed.

Lemma signed_digits_shape (s : string) (z : Z) :
  PyStr.signed_digits s = Some z ->
  exists sign body,
    s = sign ++ body
    /\ (sign = "" \/ sign = "-" \/ sign = "+")
    /\ body <> ""
    /\ PyStr.all_chars int_char body = true.
Proof.
  assert (U : forall (neg : bool) (u : string),
             match PyStr.digits_of false u with
             | Some d =>
                 match NilZero.uint_of_string d with
                 | Some n => Some (if neg then - Z.of_uint n else Z.of_uint n)
                 | None => None
                 end
             | None => None
             end = Some z ->
             u <> "" /\ PyStr.all_chars int_char u = true).
  { intros neg u H.
    destruct (PyStr.digits_of false u) as [d |] eqn:E; [| discriminate H].
    destruct (digits_of_shape _ _ _ E) as [Hall Hne]. auto. }
  destruct s as [| c t]; [discriminate |].
  rewrite signed_digits_cases. cbv zeta.
  destruct (Ascii.eqb c "-") eqn:Em; [| destruct (Ascii.eqb c "+") eqn:Ep].
  - apply Ascii.eqb_eq in Em. subst c. intros H.
    apply (U true) in H as [Hne Hall]. exists "-", t. auto.
  - apply Ascii.eqb_eq in Ep. subst c. intros H.
    apply (U false) in H as [Hne Hall]. exists "+", t. auto.
  - intros H. apply (U false) in H as [Hne Hall]. exists "", (String c t). auto.
Qed.

Lemma int_char_not_space (c : ascii) :
  int_char c = true -> negb (PyStr.isspace c) = true.
Proof. each_char c; intros H; try discriminate H; reflexivity. Qed.

(** A literal [int] reads has no whitespace in it. *)
Lemma signed_digits_no_space (t : string) (z : Z) :
  PyStr.signed_digits t = Some z ->
  t <> "" /\ PyStr.all_chars (fun c => negb (PyStr.isspace c)) t = true.
Proof.
  intros H. apply signed_digits_shape in H as (sign & body & -> & Hsign & Hne & Hall).
  apply (all_chars_impl _ _ _ int_char_not_space) in Hall.
  destruct Hsign as [-> | [-> | ->]]; simpl.
  - auto.
  - split; [discriminate | exact Hall].
  - split; [discriminate | exact Hall].
Qed.

Lemma lstrip_skip_leading (s : string) :
  PyStr.lstrip (PyStr.skip_leading s) = PyStr.lstrip s.
Proof.
  induction s as [| c s IH]; [reflexivity |]. cbn [PyStr.skip_leading].
  destruct (PyStr.literal_space c) eqn:E; [| reflexivity].
  cbn [PyStr.lstrip]. rewrite (literal_space_isspace _ E). exact IH.
Qed.

Lemma rstrip_skip_trailing (s : string) :
  PyStr.rstrip (PyStr.skip_trailing s) = PyStr.rstrip s.
Proof.
  induction s as [| c s IH]; [reflexivity |].
  cbn [PyStr.skip_trailing PyStr.rstrip].
  destruct (PyStr.skip_trailing s) as [| c' r] eqn:E.
  - rewrite <- IH. cbn [PyStr.rstrip].
    destruct (PyStr.literal_space c) eqn:Ec.
    + rewrite (literal_space_isspace _ Ec). reflexivity.
    + cbn [PyStr.rstrip]. reflexivity.
  - change (PyStr.rstrip (String c (String c' r)))
      with (match PyStr.rstrip (String c' r) with
            | EmptyString =>
                if PyStr.isspace c then EmptyString else String c EmptyString
            | r0 => String c r0
            end).
    rewrite IH. reflexivity.
Qed.

Lemma skip_trailing_head (s : string) (c : ascii) (r : string) :
  PyStr.skip_trailing s = String c r -> exists r', s = String c r'.
Proof.
  destruct s as [| c0 s]; [discriminate |]. cbn [PyStr.skip_trailing].
  destruct (PyStr.skip_trailing s);
    [destruct (PyStr.literal_space c0); [discriminate |] |];
    intros H; injection H as -> _; eauto.
Qed.

(** Around a literal that [int] reads, [str.strip] removes what [int]
    skips. *)
Lemma strip_trim (s : string) (z : Z) :
  PyStr.signed_digits (PyStr.trim s) = Some z -> PyStr.strip s = PyStr.trim s.
Proof.
  intros H. apply signed_digits_no_space in H as [Hne Hall].
  unfold PyStr.strip. rewrite <- lstrip_skip_leading.
  unfold PyStr.trim in *.
  destruct (PyStr.skip_trailing (PyStr.skip_leading s)) as [| c r] eqn:E;
    [congruence |].
  destruct (skip_trailing_head _ _ _ E) as [r' Hr'].
  assert (Hc : PyStr.isspace c = false).
  { simpl in Hall. apply andb_true_iff in Hall as [Hc _].
    apply negb_true_iff in Hc. exact Hc. }
  rewrite Hr'. cbn [PyStr.lstrip]. rewrite Hc. rewrite <- Hr'.
  rewrite <- rstrip_skip_trailing, E. apply rstrip_id, Hall.
Qed.

Lemma to_int_reads (s : string) (n : Z) :
  PyStr.to_int s = Ok n -> PyStr.signed_digits (PyStr.trim s) = Some n.
Proof.
  unfold PyStr.to_int.
  destruct (PyStr.signed_digits (PyStr.trim s)) as [z |]; [| discriminate].
  destruct (PyStr.max_str_digits <? PyStr.digit_count (PyStr.trim s));
    [discriminate | congruence].
Qed.

Lemma to_int_raises (s : string) (e : exn) :
  PyStr.to_int s = Raise e -> e = ValueError.
Proof.
  unfold PyStr.to_int.
  destruct (PyStr.signed_digits (PyStr.trim s)) as [z |];
    [destruct (PyStr.max_str_digits <? PyStr.digit_count (PyStr.trim s)) |];
    congruence.
Qed.

(** The loop body on a phone that counts: it raises what [int] raises and
    returns when [int] does. *)
Lemma scan_phone_counted (row : series) (ph : phones) (i : Z) :
  contributes "mobile" row i || contributes "residential" row i = true ->
  (forall e, py_int (phone_at row i) = Raise e -> scan_phone row ph i = Raise e)
  /\ (forall n, py_int (phone_at row i) = Ok n ->
                exists ph', scan_phone row ph i = Ok ph').
Proof.
  intros Hc. rewrite scan_phone_eq. split.
  - intros e ->. destruct (contributes "mobile" row i); [reflexivity |].
    simpl in Hc. rewrite Hc. reflexivity.
  - intros n ->. destruct (contributes "mobile" row i); [simpl; eauto |].
    simpl in Hc. rewrite Hc. simpl. eauto.
Qed.

(** X16. A phone that counts and whose cell is text is taken only when the
    text, without the whitespace around it, is an optional sign followed by
    decimal digits (with underscores at most): a dot, a dash inside, a
    parenthesis or an inner blank makes the scan raise, and what it raises
    is [ValueError]. *)
Theorem text_phone_scan (row : series) (ph : phones) (i : Z) (s : string) :
  phone_at row i = VStr s ->
  contributes "mobile" row i || contributes "residential" row i = true ->
  (forall ph',
     scan_phone row ph i = Ok ph' ->
     exists sign body,
       PyStr.strip s = sign ++ body
       /\ (sign = "" \/ sign = "-" \/ sign = "+")
       /\ body <> ""
       /\ PyStr.all_chars int_char body = true)
  /\ (forall e, scan_phone row ph i = Raise e -> e = ValueError)
  /\ (PyStr.signed_digits (PyStr.strip s) = None ->
      scan_phone row ph i = Raise ValueError).
Proof.
  intros Hs Hc.
  destruct (scan_phone_counted row ph i Hc) as [Hraise Hok].
  rewrite Hs in Hraise, Hok. simpl py_int in Hraise, Hok.
  destruct (PyStr.to_int s) as [n | e0] eqn:Et.
  - pose proof (to_int_reads _ _ Et) as Hread.
    pose proof (strip_trim _ _ Hread) as Hstrip.
    destruct (Hok n eq_refl) as [ph0 Hph0].
    split; [| split].
    + intros ph' _. rewrite Hstrip. apply (signed_digits_shape _ _ Hread).
    + intros e H. rewrite Hph0 in H. discriminate H.
    + intros H. rewrite Hstrip, Hread in H. discriminate H.
  - pose proof (to_int_raises _ _ Et) as ->.
    rewrite (Hraise ValueError eq_refl).
    split; [| split].
    + intros ph' H. discriminate H.
    + intros e H. injection H as <-. reflexivity.
    + reflexivity.
Qed.

Lemma text_phone_scan_witness :
  scan_phone dashed_row {| mobile := []; residential := [] |} 1 = Raise ValueError.
Proof.
  apply (proj2 (proj2 (text_phone_scan dashed_row {| mobile := []; residential := [] |}
                         1 "555-123-4567" eq_refl eq_refl))).
  reflexivity.
Defined.

(** X17. A phone that counts is normalised to the same string whether its
    cell holds the number as an int, as a float without fraction or as the
    text of its digits, for numbers from [0] to [2^53]: the cell is there,
    [int] gives the number, and the scan appends [str] of it to the list of
    the phone's kind. *)
Theorem number_cell_scan (row : series) (ph : phones) (i n : Z) :
  0 <= n <= 2 ^ 53 ->
  number_cell n (phone_at row i) ->
  present (phone_at row i) = true
  /\ py_int (phone_at row i) = Ok n
  /\ (kind_at row i = "mobile" ->
      scan_phone row ph i
      = Ok {| mobile := (mobile ph ++ [PyStr.of_int n])%list;
              residential := residential ph |})
  /\ (kind_at row i = "residential" ->
      scan_phone row ph i
      = Ok {| mobile := mobile ph;
              residential := (residential ph ++ [PyStr.of_int n])%list |}).
Proof.
  intros Hn Hcell.
  assert (Hp : present (phone_at row i) = true /\ py_int (phone_at row i) = Ok n).
  { destruct Hcell as [-> | [-> | (m & e & -> & He & Hv)]].
    - split; reflexivity.
    - split.
      + unfold present. simpl. rewrite of_int_nonempty. reflexivity.
      + apply to_int_of_int, fits_max_str_digits. lia.
    - split; [reflexivity |]. simpl.
      destruct (Z.leb_spec 0 e) as [_ | Hlt]; [| lia].
      rewrite Hv, round53_abs_small by exact Hn. reflexivity. }
  destruct Hp as [Hpres Hint].
  split; [exact Hpres |]. split; [exact Hint |].
  split; intros Hk; rewrite scan_phone_eq; unfold contributes;
    rewrite Hpres, Hk, Hint; reflexivity.
Qed.

Lemma number_cell_scan_witness :
  present (phone_at phone57_row 5) = true
  /\ py_int (phone_at phone57_row 5) = Ok 5551234567
  /\ (kind_at phone57_row 5 = "mobile" ->
      scan_phone phone57_row {| mobile := []; residential := [] |} 5
      = Ok {| mobile := ["5551234567"]; residential := [] |})
  /\ (kind_at phone57_row 5 = "residential" ->
      scan_phone phone57_row {| mobile := []; residential := [] |} 5
      = Ok {| mobile := []; residential := ["5551234567"] |}).
Proof.
  apply (number_cell_scan phone57_row {| mobile := []; residential := [] |}
           5 5551234567).
  - split; [lia | vm_compute; discriminate].
  - right. right. exists 5551234567%N, 0. repeat split; lia.
Defined.
